(** * indusmind-backend: credential lifecycle, resilient telemetry queries,
      device cache and the telemetry routes

    A shallow embedding of
    - [ThingsboardAuthService]      (thingsboard-auth.service.ts),
    - [ThingsboardTelemetryService] (thingsboard-telemetry.service.ts),
    - [DeviceService]               (device.service.ts),
    - [createTelemetryRoutes]       (routes/telemetry.router.ts).

    Asynchronous methods are terms of a free monad [Async] whose nodes are the
    synchronous effects on the process state ([World]) and the suspension
    points ([await] of an HTTP call or of a timer).  [run] executes one task
    to completion against scripted upstream replies; [advance] executes one
    task up to its next suspension point, which is what the event loop does
    when several tasks are in flight.

    Modelling conventions: JavaScript numbers are integers ([Z]), with [NaN]
    kept apart where [parseInt] can produce it; the product that turns an
    [exp] claim into milliseconds is rounded as a product of doubles is
    ([toDouble]); timers run with the period Node gives them
    ([effectiveDelay]); strings are byte strings and case conversion and
    trimming act on their ASCII part. *)

From Stdlib Require Import ZArith List String Ascii Bool Lia DecimalString.
Import ListNotations.
Local Open Scope string_scope.
Local Open Scope Z_scope.

Set Implicit Arguments.

(* ================================================================== *)
(** ** JavaScript primitives used by the services *)

Module JS.

(** [Number]: what [parseInt] returns. *)
Inductive Num : Type :=
| NaN
| Int (z : Z).

Definition isNaN (n : Num) : bool :=
  match n with NaN => true | Int _ => false end.

(** Truthiness of a number: [0] and [NaN] are falsy. *)
Definition truthyNum (n : Num) : bool :=
  match n with NaN => false | Int z => negb (z =? 0) end.

(** [n < 1] on numbers; every comparison with [NaN] is false. *)
Definition ltOne (n : Num) : bool :=
  match n with NaN => false | Int z => z <? 1 end.

(** Truthiness of a string: only the empty string is falsy. *)
Definition truthyStr (s : string) : bool :=
  match s with EmptyString => false | _ => true end.

(** Truthiness of an optional (possibly [undefined]) string. *)
Definition truthy (o : option string) : bool :=
  match o with Some s => truthyStr s | None => false end.

(** [String(z)] / [z.toString()] for an integer. *)
Definition numToString (z : Z) : string :=
  NilZero.string_of_int (Z.to_int z).

(** The double nearest to the integer [z] (53 significant bits, ties to
    even): what an arithmetic operation whose exact result is [z] yields.
    Integers up to 2^53 in magnitude are kept as they are.  (A result too
    large for a finite double is [Infinity] in JavaScript; the services
    only test such a value against the range of [Date], which every
    integer of that size is beyond as well.) *)
Definition toDouble (z : Z) : Z :=
  let a := Z.abs z in
  let shift := Z.log2 a - 52 in
  if shift <=? 0 then z
  else
    let unit := 2 ^ shift in
    let q := a / unit in
    let r := a mod unit in
    let half := unit / 2 in
    let q' := if r <? half then q
              else if half <? r then q + 1
              else if Z.even q then q else q + 1 in
    Z.sgn z * (q' * unit).

(** [hay.includes(needle)]. *)
Fixpoint includes (needle hay : string) : bool :=
  prefix needle hay ||
  match hay with
  | EmptyString => false
  | String _ rest => includes needle rest
  end.

(** [s.split(sep)] for a one-character separator. *)
Fixpoint split (sep : ascii) (s : string) : list string :=
  match s with
  | EmptyString => [EmptyString]
  | String c rest =>
      if Ascii.eqb c sep then EmptyString :: split sep rest
      else match split sep rest with
           | [] => [String c EmptyString]
           | part :: parts => String c part :: parts
           end
  end.

(** [parts.join(sep)]. *)
Fixpoint join (sep : string) (parts : list string) : string :=
  match parts with
  | [] => EmptyString
  | [p] => p
  | p :: rest => p ++ sep ++ join sep rest
  end.

Definition isSpace (c : ascii) : bool :=
  let n := nat_of_ascii c in
  (Nat.eqb n 32 || (Nat.leb 9 n && Nat.leb n 13))%bool.

Fixpoint trimStart (s : string) : string :=
  match s with
  | EmptyString => EmptyString
  | String c rest => if isSpace c then trimStart rest else s
  end.

Fixpoint trimEnd (s : string) : string :=
  match s with
  | EmptyString => EmptyString
  | String c rest =>
      match trimEnd rest with
      | EmptyString => if isSpace c then EmptyString else String c EmptyString
      | rest' => String c rest'
      end
  end.

(** [s.trim()]. *)
Definition trim (s : string) : string := trimEnd (trimStart s).

Definition upperChar (c : ascii) : ascii :=
  let n := nat_of_ascii c in
  if (Nat.leb 97 n && Nat.leb n 122)%bool then ascii_of_nat (n - 32) else c.

Definition lowerChar (c : ascii) : ascii :=
  let n := nat_of_ascii c in
  if (Nat.leb 65 n && Nat.leb n 90)%bool then ascii_of_nat (n + 32) else c.

Fixpoint mapChars (f : ascii -> ascii) (s : string) : string :=
  match s with
  | EmptyString => EmptyString
  | String c rest => String (f c) (mapChars f rest)
  end.

(** [s.toUpperCase()] and [s.toLowerCase()]. *)
Definition toUpperCase : string -> string := mapChars upperChar.
Definition toLowerCase : string -> string := mapChars lowerChar.

Definition digitOf (c : ascii) : option Z :=
  let n := nat_of_ascii c in
  if (Nat.leb 48 n && Nat.leb n 57)%bool then Some (Z.of_nat (n - 48)) else None.

(** The longest run of decimal digits at the head of [s], read as a number
    continuing [acc]; [seen] tells whether a digit was consumed. *)
Fixpoint digits (s : string) (acc : Z) (seen : bool) : option Z :=
  match s with
  | EmptyString => if seen then Some acc else None
  | String c rest =>
      match digitOf c with
      | Some d => digits rest (10 * acc + d) true
      | None => if seen then Some acc else None
      end
  end.

(** [parseInt(s, 10)]: leading white space is skipped, one sign is read,
    then the longest digit prefix; [NaN] when there is no digit. *)
Definition parseInt (s : string) : Num :=
  match trimStart s with
  | String "-" rest =>
      match digits rest 0 false with Some z => Int (- z) | None => NaN end
  | String "+" rest =>
      match digits rest 0 false with Some z => Int z | None => NaN end
  | s' =>
      match digits s' 0 false with Some z => Int z | None => NaN end
  end.

(** [list.includes(s)] on a list of strings. *)
Definition memStr (s : string) (l : list string) : bool :=
  existsb (String.eqb s) l.

(** JSON values ([any] in the source), numbers restricted to integers. *)
#[warnings="-register-all"]
Inductive Json : Type :=
| JNull
| JBool (b : bool)
| JNum (z : Z)
| JStr (s : string)
| JArr (items : list Json)
| JObj (fields : list (string * Json)).

Fixpoint assoc (k : string) (l : list (string * Json)) : option Json :=
  match l with
  | [] => None
  | (k', v) :: rest => if String.eqb k k' then Some v else assoc k rest
  end.

(** [value?.[k]]: the property [k] of a JSON object, [undefined] elsewhere. *)
Definition prop (k : string) (v : Json) : option Json :=
  match v with JObj fields => assoc k fields | _ => None end.

Definition truthyJson (v : Json) : bool :=
  match v with
  | JNull => false
  | JBool b => b
  | JNum z => negb (z =? 0)
  | JStr s => truthyStr s
  | JArr _ | JObj _ => true
  end.

Definition hexDigit (n : nat) : ascii :=
  ascii_of_nat (if Nat.ltb n 10 then 48 + n else 87 + n).

(** The escape of one character inside a JSON string literal. *)
Definition escapeChar (c : ascii) : string :=
  let n := nat_of_ascii c in
  if Nat.eqb n 34 then String "\" (String c EmptyString)
  else if Nat.eqb n 92 then "\\"
  else if Nat.eqb n 8 then "\b"
  else if Nat.eqb n 9 then "\t"
  else if Nat.eqb n 10 then "\n"
  else if Nat.eqb n 12 then "\f"
  else if Nat.eqb n 13 then "\r"
  else if Nat.ltb n 32 then
    "\u00" ++ String (hexDigit (Nat.div n 16)) (String (hexDigit (Nat.modulo n 16)) EmptyString)
  else String c EmptyString.

Fixpoint escape (s : string) : string :=
  match s with
  | EmptyString => EmptyString
  | String c rest => escapeChar c ++ escape rest
  end.

Definition quote (s : string) : string :=
  String (ascii_of_nat 34) (escape s ++ String (ascii_of_nat 34) EmptyString).

(** [JSON.stringify(v)] (compact form). *)
Fixpoint stringify (v : Json) : string :=
  match v with
  | JNull => "null"
  | JBool true => "true"
  | JBool false => "false"
  | JNum z => numToString z
  | JStr s => quote s
  | JArr items => "[" ++ join "," (map stringify items) ++ "]"
  | JObj fields =>
      "{" ++ join ","
               ((fix members (l : list (string * Json)) : list string :=
                   match l with
                   | [] => []
                   | (k, x) :: rest => (quote k ++ ":" ++ stringify x) :: members rest
                   end) fields) ++ "}"
  end.

(** [String(v)], the conversion a template literal applies. *)
Fixpoint toStr (v : Json) : string :=
  match v with
  | JNull => "null"
  | JBool true => "true"
  | JBool false => "false"
  | JNum z => numToString z
  | JStr s => s
  | JArr items =>
      join "," (map (fun x => match x with JNull => EmptyString | _ => toStr x end) items)
  | JObj _ => "[object Object]"
  end.

End JS.

Import JS.

(* ================================================================== *)
(** ** Errors, upstream calls and the process state *)

(** Thrown values.  All of them are [instanceof Error]; the telemetry
    service tells [AxiosError] apart. *)
Inductive Exn : Type :=
| Error (message : string)
| AxiosError (message : string) (responseStatus : option Z)
| RangeError (message : string)
| TypeError (message : string).

(** [error.message]. *)
Definition message (e : Exn) : string :=
  match e with
  | Error m | AxiosError m _ | RangeError m | TypeError m => m
  end.

(** [error instanceof AxiosError]. *)
Definition isAxiosError (e : Exn) : bool :=
  match e with AxiosError _ _ => true | _ => false end.

(** What an axios call settles with when [validateStatus] accepts every
    status: a response, or a transport failure (connection error, timeout). *)
Inductive AxiosReply (D : Type) : Type :=
| Responded (status : Z) (statusText : string) (data : D)
| Failed (message : string).
Arguments Failed {D} message.

(** [ThingsboardAuthResponse]. *)
Record AuthResponse : Type := { resToken : string; resRefreshToken : string }.

(** [ThingsboardTokenPayload]. *)
Module TokenPayload.
Record t : Type := { token : string; refreshToken : string; expiresAt : Z }.
End TokenPayload.
Abbreviation TokenPayload := TokenPayload.t.

(** A query parameter value ([string | number | boolean]). *)
Inductive Param : Type :=
| PStr (s : string)
| PNum (n : Num)
| PBool (b : bool).

(** The suspension points of the services: every awaited network call, and
    the awaited [setTimeout] of [delay]. *)
Inductive Call : Type :=
| PostLogin (url username password : string)
| PostRefresh (url bearer : string)
| GetTimeseries (baseURL endpoint bearer : string) (params : list (string * Param))
| GetDevices (url : string)
| SetTimeout (ms : Z).

(** The type of the value an awaited call resolves with. *)
Definition ReplyOf (c : Call) : Type :=
  match c with
  | PostLogin _ _ _ | PostRefresh _ _ => AxiosReply AuthResponse
  | GetTimeseries _ _ _ _ | GetDevices _ => AxiosReply Json
  | SetTimeout _ => unit
  end.

Inductive Level : Type := Debug | Info | Warn | Err.

(** One log line: the logger ([console] or a pino child module), the level
    and the rendered text. *)
Record LogEntry : Type := { logger : string; level : Level; text : string }.

(** The state of the process: the fields of the two service instances, the
    clock, the active interval timers, the log and the calls put on the wire. *)
Record World : Type := mkWorld
  { (* ThingsboardAuthService *)
    baseUrl : string;
    username : string;
    password : string;
    tokenPayload : option TokenPayload;
    tokenRefreshInterval : option nat;
    (* DeviceService *)
    deviceBaseUrl : string;
    devicesCache : option (list Json);
    cacheTimestamp : Z;
    (* runtime *)
    clock : Z;
    timers : list (nat * Z);
    nextTimer : nat;
    logs : list LogEntry;
    wire : list Call }.

Definition setCredentials (b u p : string) (w : World) : World :=
  mkWorld b u p (tokenPayload w) (tokenRefreshInterval w)
          (deviceBaseUrl w) (devicesCache w) (cacheTimestamp w)
          (clock w) (timers w) (nextTimer w) (logs w) (wire w).

Definition setTokenPayload (tp : option TokenPayload) (w : World) : World :=
  mkWorld (baseUrl w) (username w) (password w) tp (tokenRefreshInterval w)
          (deviceBaseUrl w) (devicesCache w) (cacheTimestamp w)
          (clock w) (timers w) (nextTimer w) (logs w) (wire w).

Definition setTokenRefreshInterval (h : option nat) (w : World) : World :=
  mkWorld (baseUrl w) (username w) (password w) (tokenPayload w) h
          (deviceBaseUrl w) (devicesCache w) (cacheTimestamp w)
          (clock w) (timers w) (nextTimer w) (logs w) (wire w).

Definition setDevicesCache (c : option (list Json)) (ts : Z) (w : World) : World :=
  mkWorld (baseUrl w) (username w) (password w) (tokenPayload w)
          (tokenRefreshInterval w) (deviceBaseUrl w) c ts
          (clock w) (timers w) (nextTimer w) (logs w) (wire w).

Definition setClock (t : Z) (w : World) : World :=
  mkWorld (baseUrl w) (username w) (password w) (tokenPayload w)
          (tokenRefreshInterval w) (deviceBaseUrl w) (devicesCache w)
          (cacheTimestamp w) t (timers w) (nextTimer w) (logs w) (wire w).

Definition setTimers (ts : list (nat * Z)) (next : nat) (w : World) : World :=
  mkWorld (baseUrl w) (username w) (password w) (tokenPayload w)
          (tokenRefreshInterval w) (deviceBaseUrl w) (devicesCache w)
          (cacheTimestamp w) (clock w) ts next (logs w) (wire w).

Definition addLog (e : LogEntry) (w : World) : World :=
  mkWorld (baseUrl w) (username w) (password w) (tokenPayload w)
          (tokenRefreshInterval w) (deviceBaseUrl w) (devicesCache w)
          (cacheTimestamp w) (clock w) (timers w) (nextTimer w)
          (logs w ++ [e]) (wire w).

(** The call [c] leaves the process. *)
Definition sent (c : Call) (w : World) : World :=
  mkWorld (baseUrl w) (username w) (password w) (tokenPayload w)
          (tokenRefreshInterval w) (deviceBaseUrl w) (devicesCache w)
          (cacheTimestamp w) (clock w) (timers w) (nextTimer w)
          (logs w) (wire w ++ [c]).

(** [elapsed] milliseconds pass while a task is suspended. *)
Definition tick (elapsed : Z) (w : World) : World :=
  setClock (clock w + elapsed) w.

(** The largest delay a Node timer accepts, 2^31 - 1 ms, and the delay a
    timer runs with: a requested delay below 1 or above [TIMEOUT_MAX] is
    set to 1. *)
Definition TIMEOUT_MAX : Z := 2147483647.

Definition effectiveDelay (delay : Z) : Z :=
  if (delay <? 1) || (TIMEOUT_MAX <? delay) then 1 else delay.

(** [setInterval(callback, delay)]: a new active timer, recorded with the
    period it runs with, and its handle. *)
Definition setInterval (delay : Z) (w : World) : nat * World :=
  (nextTimer w,
   setTimers (timers w ++ [(nextTimer w, effectiveDelay delay)]) (S (nextTimer w)) w).

(** [clearInterval(handle)]. *)
Definition clearInterval (h : nat) (w : World) : World :=
  setTimers (filter (fun t => negb (Nat.eqb (fst t) h)) (timers w)) (nextTimer w) w.

(* ================================================================== *)
(** ** Asynchronous computations *)

(** An [async] function body: it returns, throws, performs a synchronous
    effect on the process state, or awaits a call. *)
Inductive Async (A : Type) : Type :=
| Ret (a : A)
| Throw (e : Exn)
| Sync (X : Type) (f : World -> X * World) (k : X -> Async A)
| Await (c : Call) (k : ReplyOf c -> Async A).
Arguments Throw {A} e.
Arguments Sync {A X} f k.

Fixpoint bind {A B : Type} (p : Async A) (q : A -> Async B) : Async B :=
  match p with
  | Ret a => q a
  | Throw e => Throw e
  | Sync f k => Sync f (fun x => bind (k x) q)
  | Await c k => Await c (fun r => bind (k r) q)
  end.

(** [try { p } catch (error) { h error }]. *)
Fixpoint tryCatch {A : Type} (p : Async A) (h : Exn -> Async A) : Async A :=
  match p with
  | Ret a => Ret a
  | Throw e => h e
  | Sync f k => Sync f (fun x => tryCatch (k x) h)
  | Await c k => Await c (fun r => tryCatch (k r) h)
  end.

Declare Scope async_scope.
Delimit Scope async_scope with async.
Bind Scope async_scope with Async.
Notation "x <- p ;; q" := (bind p (fun x => q))
  (at level 61, p at next level, right associativity) : async_scope.
Notation "p ;; q" := (bind p (fun _ => q))
  (at level 61, right associativity) : async_scope.
Local Open Scope async_scope.

(** A synchronous read-modify step. *)
Definition sync {X : Type} (f : World -> X * World) : Async X := Sync f (@Ret X).
Definition read {X : Type} (f : World -> X) : Async X := sync (fun w => (f w, w)).
Definition modify (f : World -> World) : Async unit := sync (fun w => (tt, f w)).
Definition await (c : Call) : Async (ReplyOf c) := Await c (@Ret (ReplyOf c)).

(** [Date.now()]. *)
Definition now : Async Z := read clock.

Definition log (who : string) (l : Level) (msg : string) : Async unit :=
  modify (addLog {| logger := who; level := l; text := msg |}).

(** The scripted upstream: for each endpoint, the replies it will give, in
    order, each with the time it takes to arrive. *)
Record Upstream : Type :=
  { logins : list (Z * AxiosReply AuthResponse);
    refreshes : list (Z * AxiosReply AuthResponse);
    queries : list (Z * AxiosReply Json);
    directory : list (Z * AxiosReply Json) }.

(** The reply to [c], the time it took, and the rest of the script; [None]
    when the upstream never answers.  A timer fires after its delay. *)
Definition serve (c : Call) (u : Upstream) : option (Z * ReplyOf c * Upstream) :=
  match c return option (Z * ReplyOf c * Upstream) with
  | PostLogin _ _ _ =>
      match logins u with
      | (t, r) :: rest =>
          Some (t, r, {| logins := rest; refreshes := refreshes u;
                         queries := queries u; directory := directory u |})
      | [] => None
      end
  | PostRefresh _ _ =>
      match refreshes u with
      | (t, r) :: rest =>
          Some (t, r, {| logins := logins u; refreshes := rest;
                         queries := queries u; directory := directory u |})
      | [] => None
      end
  | GetTimeseries _ _ _ _ =>
      match queries u with
      | (t, r) :: rest =>
          Some (t, r, {| logins := logins u; refreshes := refreshes u;
                         queries := rest; directory := directory u |})
      | [] => None
      end
  | GetDevices _ =>
      match directory u with
      | (t, r) :: rest =>
          Some (t, r, {| logins := logins u; refreshes := refreshes u;
                         queries := queries u; directory := rest |})
      | [] => None
      end
  | SetTimeout ms => Some (ms, tt, u)
  end.

(** How a task ends: with a value, with an exception, or never (its awaited
    call is not answered). *)
Inductive Outcome (A : Type) : Type :=
| Returned (a : A)
| Thrown (e : Exn)
| Pending.
Arguments Thrown {A} e.
Arguments Pending {A}.

(** One task run to completion, alone, against the scripted upstream. *)
Fixpoint run {A : Type} (p : Async A) (w : World) (u : Upstream)
  : Outcome A * World * Upstream :=
  match p with
  | Ret a => (Returned a, w, u)
  | Throw e => (Thrown e, w, u)
  | Sync f k => let (x, w') := f w in run (k x) w' u
  | Await c k =>
      match serve c u with
      | Some (elapsed, r, u') => run (k r) (tick elapsed (sent c w)) u'
      | None => (Pending, sent c w, u)
      end
  end.

(** A task in the event loop: settled, or suspended on a call. *)
Inductive Task (A : Type) : Type :=
| Settled (o : Outcome A)
| Suspended (c : Call) (k : ReplyOf c -> Async A).

(** One turn of the event loop for a task: its synchronous code runs up to
    the next [await], where the call is put on the wire. *)
Fixpoint advance {A : Type} (p : Async A) (w : World) : Task A * World :=
  match p with
  | Ret a => (Settled (Returned a), w)
  | Throw e => (Settled (Thrown e), w)
  | Sync f k => let (x, w') := f w in advance (k x) w'
  | Await c k => (Suspended c k, sent c w)
  end.

(** The reply [r] to the call a task is suspended on arrives at time [t]. *)
Definition resume {A : Type} (c : Call) (k : ReplyOf c -> Async A)
    (r : ReplyOf c) (t : Z) (w : World) : Task A * World :=
  advance (k r) (setClock t w).

(* ================================================================== *)
(** ** [Date.prototype.toISOString] *)

Module DateTime.

(** Left-padding of a non-negative number with zeros. *)
Definition pad (width : nat) (z : Z) : string :=
  let s := numToString z in
  JS.join EmptyString (repeat "0" (width - String.length s)) ++ s.

(** Proleptic Gregorian date (year, month, day) of a day count from
    1970-01-01. *)
Definition civil (days : Z) : Z * Z * Z :=
  let z := days + 719468 in
  let era := z / 146097 in
  let doe := z - era * 146097 in
  let yoe := (doe - doe / 1460 + doe / 36524 - doe / 146096) / 365 in
  let doy := doe - (365 * yoe + yoe / 4 - yoe / 100) in
  let mp := (5 * doy + 2) / 153 in
  let d := doy - (153 * mp + 2) / 5 + 1 in
  let m := if mp <? 10 then mp + 3 else mp - 9 in
  let y := yoe + era * 400 in
  (if m <=? 2 then y + 1 else y, m, d).

Definition maxTime : Z := 8640000000000000.

(** [new Date(ms).toISOString()]; [None] is the [RangeError] thrown for a
    time value outside the range of [Date]. *)
Definition toISOString (ms : Z) : option string :=
  if (Z.abs ms <=? maxTime) then
    let '(y, m, d) := civil (ms / 86400000) in
    let r := ms mod 86400000 in
    let year :=
      if (0 <=? y) && (y <=? 9999) then pad 4 y
      else (if y <? 0 then "-" else "+") ++ pad 6 (Z.abs y) in
    Some (year ++ "-" ++ pad 2 m ++ "-" ++ pad 2 d ++ "T" ++
          pad 2 (r / 3600000) ++ ":" ++ pad 2 ((r / 60000) mod 60) ++ ":" ++
          pad 2 ((r / 1000) mod 60) ++ "." ++ pad 3 (r mod 1000) ++ "Z")
  else None.

End DateTime.

(* ================================================================== *)
(** ** ThingsboardAuthService *)

(** The claims of a decoded JWT payload that the service reads: [exp], a
    NumericDate in seconds when present. *)
Record Claims : Type := { exp : option Z }.

Section AuthService.

(** [JSON.parse(Buffer.from(part, 'base64').toString('utf-8'))] followed by
    the read of [payload.exp]: the claims, or the exception thrown. *)
Variable decodePayload : string -> Exn + Claims.

Definition authLogger : string := "ThingsboardAuthService".

(** The constructor: the three fields are set and printed; missing
    credentials are fatal. *)
Definition newThingsboardAuthService (baseUrl username password : string)
  : Async unit :=
  modify (setCredentials baseUrl username password) ;;
  log "console" Info ("THINGSBOARD_USERNAME: " ++ username) ;;
  log "console" Info ("THINGSBOARD_PASSWORD: " ++ password) ;;
  log "console" Info ("THINGSBOARD_BASE_URL: " ++ baseUrl) ;;
  if negb (truthyStr username) || negb (truthyStr password)
  then Throw (Error "ThingsBoard credentials not provided in environment variables")
  else Ret tt.

(** The body of the [try] block of [getTokenExpiration]: the expiry read
    from the token, [payload.exp * 1000] as a product of doubles, [None]
    when the token carries no (truthy) [exp], or the exception the block
    throws. *)
Definition decodeExpiration (token : string) : Exn + option Z :=
  match split "." token with
  | [_; part; _] =>
      match decodePayload part with
      | inl e => inl e
      | inr payload =>
          match exp payload with
          | Some e => if e =? 0 then inr None else inr (Some (toDouble (e * 1000)))
          | None => inr None
          end
      end
  | _ => inl (Error "Invalid JWT format")
  end.

Definition fifteenMinutes : Z := 15 * 60 * 1000.

Definition getTokenExpiration (token : string) : Async Z :=
  match decodeExpiration token with
  | inr (Some ms) => Ret ms
  | inr None => t <- now ;; Ret (t + fifteenMinutes)
  | inl error =>
      log authLogger Warn ("Could not decode token expiration: " ++ message error) ;;
      t <- now ;; Ret (t + fifteenMinutes)
  end.

(** [setupAutoRefresh], a synchronous method. *)
Definition cancelPending (w : World) : World :=
  match tokenRefreshInterval w with
  | Some h => clearInterval h w
  | None => w
  end.

Definition refreshDelay (expiresAt now : Z) : Z :=
  Z.max (expiresAt - now - 120000) 60000.

Definition arm (w : World) : World :=
  match tokenPayload w with
  | None => w
  | Some tp =>
      let delay := refreshDelay (TokenPayload.expiresAt tp) (clock w) in
      let (h, w1) := setInterval delay w in
      let w2 := setTokenRefreshInterval (Some h) w1 in
      addLog {| logger := authLogger; level := Info;
                text := "Auto-refresh scheduled in " ++ numToString delay ++ "ms" |} w2
  end.

Definition setupAutoRefresh (w : World) : World := arm (cancelPending w).

(** [cleanup]. *)
Definition cleanup (w : World) : World :=
  match tokenRefreshInterval w with
  | Some h => setTokenRefreshInterval None (clearInterval h w)
  | None => w
  end.

(** [new Date(ms).toISOString()] inside an [async] body. *)
Definition isoDate (ms : Z) : Async string :=
  match DateTime.toISOString ms with
  | Some s => Ret s
  | None => Throw (RangeError "Invalid time value")
  end.

Definition authenticate : Async string :=
  tryCatch
    (log authLogger Info "Authenticating with ThingsBoard..." ;;
     url <- read baseUrl ;;
     user <- read username ;;
     pass <- read password ;;
     response <- await (PostLogin (url ++ "/api/auth/login") user pass) ;;
     match response with
     | Failed m => Throw (AxiosError m None)
     | Responded status statusText data =>
         if negb (status =? 200) then
           Throw (Error ("ThingsBoard authentication failed: " ++
                         numToString status ++ " " ++ statusText))
         else
           expiresAt <- getTokenExpiration (resToken data) ;;
           modify (setTokenPayload
                     (Some {| TokenPayload.token := resToken data;
                              TokenPayload.refreshToken := resRefreshToken data;
                              TokenPayload.expiresAt := expiresAt |})) ;;
           iso <- isoDate expiresAt ;;
           log authLogger Info
               ("Successfully authenticated. Token expires at: " ++ iso) ;;
           modify setupAutoRefresh ;;
           Ret (resToken data)
     end)
    (fun error =>
       log authLogger Err ("Authentication failed: " ++ message error) ;;
       Throw error).

(** The [try] block of [refreshToken] either yields the new token or ends
    in [return this.authenticate()]; that returned promise is not awaited
    inside the block, so its rejection is not caught there. *)
Inductive RefreshStep : Type :=
| Refreshed (token : string)
| Reauthenticate.

Definition refreshToken : Async string :=
  tp <- read tokenPayload ;;
  match tp with
  | None =>
      log authLogger Warn "No refresh token available. Re-authenticating..." ;;
      authenticate
  | Some tp =>
      if negb (truthyStr (TokenPayload.refreshToken tp)) then
        log authLogger Warn "No refresh token available. Re-authenticating..." ;;
        authenticate
      else
        step <-
          tryCatch
            (log authLogger Info "Refreshing ThingsBoard token..." ;;
             url <- read baseUrl ;;
             response <- await (PostRefresh (url ++ "/api/auth/refresh")
                                            (TokenPayload.refreshToken tp)) ;;
             match response with
             | Failed m => Throw (AxiosError m None)
             | Responded status statusText data =>
                 if status =? 401 then
                   log authLogger Warn "Refresh token expired. Re-authenticating..." ;;
                   Ret Reauthenticate
                 else if negb (status =? 200) then
                   Throw (Error ("Token refresh failed: " ++
                                 numToString status ++ " " ++ statusText))
                 else
                   expiresAt <- getTokenExpiration (resToken data) ;;
                   modify (setTokenPayload
                             (Some {| TokenPayload.token := resToken data;
                                      TokenPayload.refreshToken := resRefreshToken data;
                                      TokenPayload.expiresAt := expiresAt |})) ;;
                   iso <- isoDate expiresAt ;;
                   log authLogger Info
                       ("Token refreshed successfully. Expires at: " ++ iso) ;;
                   Ret (Refreshed (resToken data))
             end)
            (fun error =>
               log authLogger Err ("Token refresh failed: " ++ message error) ;;
               Ret Reauthenticate) ;;
        match step with
        | Refreshed token => Ret token
        | Reauthenticate => authenticate
        end
  end.

Definition getValidToken : Async string :=
  tp <- read tokenPayload ;;
  match tp with
  | None => authenticate
  | Some tp =>
      t <- now ;;
      let timeUntilExpiry := TokenPayload.expiresAt tp - t in
      if timeUntilExpiry <? 60000 then
        log authLogger Info "Token expiring soon, refreshing..." ;;
        refreshToken
      else Ret (TokenPayload.token tp)
  end.

(** The axios instance [getAuthenticatedClient] builds. *)
Record Client : Type := { baseURL : string; bearer : string; timeout : Z }.

Definition getAuthenticatedClient : Async Client :=
  token <- getValidToken ;;
  url <- read baseUrl ;;
  Ret {| baseURL := url; bearer := token; timeout := 30000 |}.

(** The callback of the renewal timer. *)
Definition autoRefresh : Async unit :=
  tryCatch (refreshToken ;; Ret tt)
           (fun error => log authLogger Err ("Auto-refresh failed: " ++ message error)).

End AuthService.

(* ================================================================== *)
(** ** ThingsboardTelemetryService *)

Section TelemetryService.

Variable decodePayload : string -> Exn + Claims.

Definition telemetryLogger : string := "ThingsboardTelemetryService".
Definition maxRetries : nat := 3.
Definition retryDelayMs : Z := 1000.

(** The arguments of one logical query. *)
Record Query : Type :=
  { entityType : string;
    entityId : string;
    keys : list string;
    startTs : Z;
    endTs : Z;
    interval : option Num;
    agg : option string;
    orderBy : option string;
    limit : option Num;
    useStrictDataTypes : option bool }.

Definition optional {X : Type} (name : string) (f : X -> Param) (o : option X)
  : list (string * Param) :=
  match o with Some x => [(name, f x)] | None => [] end.

(** The query parameters: absent optional arguments are left out. *)
Definition buildParams (q : Query) : list (string * Param) :=
  [("keys", PStr (join "," (keys q)));
   ("startTs", PStr (numToString (startTs q)));
   ("endTs", PStr (numToString (endTs q)))]
  ++ optional "interval" PNum (interval q)
  ++ optional "agg" PStr (agg q)
  ++ optional "orderBy" PStr (orderBy q)
  ++ optional "limit" PNum (limit q)
  ++ optional "useStrictDataTypes" PBool (useStrictDataTypes q).

Definition endpointOf (q : Query) : string :=
  "/api/plugins/telemetry/" ++ entityType q ++ "/" ++ entityId q ++ "/values/timeseries".

Definition renderParam (p : Param) : Json :=
  match p with
  | PStr s => JStr s
  | PNum (Int z) => JNum z
  | PNum NaN => JNull
  | PBool b => JBool b
  end.

Definition renderParams (ps : list (string * Param)) : Json :=
  JObj (map (fun kv => (fst kv, renderParam (snd kv))) ps).

(** [Object.keys(data || {})]. *)
Definition objectKeys (data : Json) : list string :=
  match data with
  | JObj fields => map fst fields
  | JArr items => map (fun i => numToString (Z.of_nat i)) (seq 0 (List.length items))
  | JStr s => map (fun i => numToString (Z.of_nat i)) (seq 0 (String.length s))
  | _ => []
  end.

(** [response.data?.message || 'Invalid parameters']. *)
Definition upstreamMessage (data : Json) : string :=
  match prop "message" data with
  | Some m => if truthyJson m then toStr m else "Invalid parameters"
  | None => "Invalid parameters"
  end.

(** How the [try] block of one attempt ends without throwing: with the
    data, or in [return this.getTimeseriesWithRetry(..., retryCount + 1)],
    a returned promise the block does not await, so that its rejection is
    not caught (nor logged again) by this attempt. *)
Inductive Attempt : Type :=
| Data (data : Json)
| Retry (next : Async Json).

(** [getTimeseriesWithRetry] by recursion on [remaining = maxRetries -
    retryCount], the quantity that decreases in the source: the test
    [retryCount < maxRetries] is [remaining] being a successor. *)
Fixpoint retryLoop (q : Query) (remaining : nat) : Async Json :=
  let retryCount := (maxRetries - remaining)%nat in
  outcome <-
    tryCatch
      (client <- getAuthenticatedClient decodePayload ;;
       let params := buildParams q in
       let endpoint := endpointOf q in
       log telemetryLogger Info
           ("Fetching telemetry: " ++ entityType q ++ "/" ++ entityId q ++
            " keys=" ++ join "," (keys q) ++
            " range=" ++ numToString (startTs q) ++ "-" ++ numToString (endTs q)) ;;
       log telemetryLogger Info ("Request URL: " ++ baseURL client ++ endpoint) ;;
       log telemetryLogger Info
           ("Request params: " ++ stringify (renderParams params)) ;;
       response <- await (GetTimeseries (baseURL client) endpoint (bearer client) params) ;;
       match response with
       | Failed m => Throw (AxiosError m None)
       | Responded status statusText data =>
           log telemetryLogger Debug
               ("ThingsBoard response status=" ++ numToString status) ;;
           log telemetryLogger Info
               ("ThingsBoard response data: " ++ stringify data) ;;
           if status =? 200 then
             log telemetryLogger Info
                 ("Successfully retrieved telemetry for " ++ entityId q ++
                  " - returned keys: " ++
                  match objectKeys data with
                  | [] => "NONE"
                  | ks => join "," ks
                  end) ;;
             Ret (Data data)
           else
             match (status =? 401), remaining with
             | true, S remaining' =>
                 log telemetryLogger Warn
                     ("Received 401, refreshing token and retrying (attempt " ++
                      numToString (Z.of_nat (retryCount + 1)) ++ "/" ++
                      numToString (Z.of_nat maxRetries) ++ ")") ;;
                 await (SetTimeout retryDelayMs) ;;
                 refreshToken decodePayload ;;
                 Ret (Retry (retryLoop q remaining'))
             | _, _ =>
                 if status =? 404 then
                   Throw (Error ("Entity not found: " ++ entityType q ++ "/" ++
                                 entityId q ++ " (404). Check entity ID and type."))
                 else if status =? 400 then
                   Throw (Error ("Bad request: " ++ upstreamMessage data))
                 else
                   Throw (Error ("ThingsBoard API error: " ++ numToString status ++
                                 " " ++ statusText ++
                                 String (ascii_of_nat 10) (stringify data)))
             end
       end)
      (fun error =>
         (if isAxiosError error then
            log telemetryLogger Err
                ("Request failed: " ++ message error ++ ". Status: " ++
                 match error with
                 | AxiosError _ (Some st) => numToString st
                 | _ => "undefined"
                 end)
          else
            log telemetryLogger Err ("Telemetry fetch failed: " ++ message error)) ;;
         Throw error) ;;
  match outcome with
  | Data data => Ret data
  | Retry next => next
  end.

Definition getTimeseriesWithRetry (q : Query) (retryCount : nat) : Async Json :=
  retryLoop q (maxRetries - retryCount).

Definition getTimeseries (q : Query) : Async Json :=
  getTimeseriesWithRetry q 0.

End TelemetryService.

(* ================================================================== *)
(** ** DeviceService *)

Module DeviceService.

Definition deviceLogger : string := "DeviceService".
Definition cacheDuration : Z := 5 * 60 * 1000.

Definition isCacheFresh (w : World) : bool :=
  clock w - cacheTimestamp w <? cacheDuration.

(** The devices a response payload holds: the payload itself, or its
    [data] member when the payload is an object that has one; [None] when
    that is not an array. *)
Definition unwrap (payload : Json) : option (list Json) :=
  let devices :=
    match payload with
    | JObj fields =>
        match assoc "data" fields with Some d => d | None => payload end
    | _ => payload
    end in
  match devices with JArr items => Some items | _ => None end.

Definition endpoint (w : World) : string := deviceBaseUrl w ++ "/customer/devices".

Definition getDevices (forceRefresh : bool) : Async (list Json) :=
  tryCatch
    (cache <- read devicesCache ;;
     fresh <- read isCacheFresh ;;
     match (if forceRefresh then None else if fresh then cache else None) with
     | Some devices =>
         log deviceLogger Debug "Returning cached devices" ;;
         Ret devices
     | None =>
         log deviceLogger Info "Fetching devices from API" ;;
         url <- read endpoint ;;
         response <- await (GetDevices url) ;;
         match response with
         | Failed m => Throw (AxiosError m None)
         | Responded status _ payload =>
             if negb ((200 <=? status) && (status <? 300)) then
               Throw (AxiosError ("Request failed with status code " ++ numToString status)
                                 (Some status))
             else
               match unwrap payload with
               | None => Throw (Error "Invalid devices response: expected array")
               | Some devices =>
                   t <- now ;;
                   modify (setDevicesCache (Some devices) t) ;;
                   log deviceLogger Info
                       ("Successfully fetched " ++
                        numToString (Z.of_nat (List.length devices)) ++ " devices") ;;
                   Ret devices
               end
         end
     end)
    (fun error =>
       let errorMsg := message error in
       log deviceLogger Err ("Failed to fetch devices: " ++ errorMsg) ;;
       cache <- read devicesCache ;;
       match cache with
       | Some devices =>
           log deviceLogger Warn "Using stale cached devices due to fetch error" ;;
           Ret devices
       | None =>
           url <- read endpoint ;;
           Throw (Error ("Failed to fetch devices from " ++ url ++ ": " ++ errorMsg))
       end).

(** [devices.find((d) => d.deviceUUID === deviceUUID)]; reading a property
    of [null] throws. *)
Fixpoint find (deviceUUID : string) (devices : list Json) : Exn + option Json :=
  match devices with
  | [] => inr None
  | JNull :: _ => inl (TypeError "Cannot read properties of null (reading 'deviceUUID')")
  | d :: rest =>
      match prop "deviceUUID" d with
      | Some (JStr u) => if String.eqb u deviceUUID then inr (Some d) else find deviceUUID rest
      | _ => find deviceUUID rest
      end
  end.

Definition getDeviceByUUID (deviceUUID : string) (forceRefresh : bool) : Async Json :=
  devices <- getDevices forceRefresh ;;
  match find deviceUUID devices with
  | inl e => Throw e
  | inr (Some device) => Ret device
  | inr None => Throw (Error ("Device with UUID " ++ deviceUUID ++ " not found"))
  end.

Definition validateDevice (deviceUUID : string) : Async Json :=
  tryCatch (getDeviceByUUID deviceUUID false)
           (fun _ => getDeviceByUUID deviceUUID true).

Definition clearCache : Async unit :=
  modify (setDevicesCache None 0) ;;
  log deviceLogger Info "Device cache cleared".

End DeviceService.

(* ================================================================== *)
(** ** Telemetry routes *)

Section TelemetryRoutes.

Variable decodePayload : string -> Exn + Claims.

Definition routerLogger : string := "TelemetryRouter".

(** The query string of a timeseries request: each parameter is absent or
    a string. *)
Record RawQuery : Type :=
  { rawEntityType : option string;
    rawEntityId : option string;
    rawKeys : option string;
    rawStartTs : option string;
    rawEndTs : option string;
    rawInterval : option string;
    rawAgg : option string;
    rawOrderBy : option string;
    rawLimit : option string;
    rawUseStrictDataTypes : option string }.

(** What a handler sends: the status and the JSON body. *)
Record Response : Type := { status : Z; body : Json }.

Definition failure (code : Z) (msg : string) : Response :=
  {| status := code; body := JObj [("success", JBool false); ("error", JStr msg)] |}.

(** [String(v)] of a query parameter. *)
Definition str (v : option string) : string :=
  match v with Some s => s | None => "undefined" end.

(** [v ? f(String(v)) : undefined]. *)
Definition whenTruthy {X : Type} (v : option string) (f : string -> X) : option X :=
  if truthy v then Some (f (str v)) else None.

(** [n && (isNaN(n) || n < 1)] for an optional number. *)
Definition notPositive (n : option Num) : bool :=
  match n with
  | Some n => truthyNum n && (isNaN n || ltOne n)
  | None => false
  end.

Definition validAgg : list string := ["NONE"; "AVG"; "MIN"; "MAX"; "SUM"].
Definition validOrder : list string := ["ASC"; "DESC"].

(** The parsed arguments handed to [getTimeseries]. *)
Record Parsed : Type :=
  { keyArray : list string;
    startTimestamp : Z;
    endTimestamp : Z;
    intervalValue : option Num;
    aggValue : option string;
    orderByValue : option string;
    limitValue : option Num;
    useStrictDataTypesValue : option bool }.

(** The parsing and validation block both timeseries handlers contain,
    from the timestamps on: the reason of a 400, or the parsed arguments. *)
Definition parseQuery (r : RawQuery) : string + Parsed :=
  match parseInt (str (rawStartTs r)), parseInt (str (rawEndTs r)) with
  | Int startTimestamp, Int endTimestamp =>
      if startTimestamp >=? endTimestamp then inl "startTs must be less than endTs"
      else
        let keyArray :=
          filter (fun k => (0 <? String.length k)%nat)
                 (map trim (split "," (str (rawKeys r)))) in
        if (List.length keyArray =? 0)%nat then inl "At least one key must be provided"
        else
          let intervalValue := whenTruthy (rawInterval r) parseInt in
          if notPositive intervalValue then inl "Interval must be a positive number"
          else if truthy (rawAgg r) &&
                  negb (memStr (toUpperCase (str (rawAgg r))) validAgg)
          then inl ("Invalid aggregation function. Must be one of: " ++ join ", " validAgg)
          else if truthy (rawOrderBy r) &&
                  negb (memStr (toUpperCase (str (rawOrderBy r))) validOrder)
          then inl "Invalid orderBy. Must be ASC or DESC"
          else
            let limitValue := whenTruthy (rawLimit r) parseInt in
            if notPositive limitValue then inl "Limit must be a positive number"
            else
              inr {| keyArray := keyArray;
                     startTimestamp := startTimestamp;
                     endTimestamp := endTimestamp;
                     intervalValue := intervalValue;
                     aggValue := whenTruthy (rawAgg r) (fun s => s);
                     orderByValue := whenTruthy (rawOrderBy r) (fun s => s);
                     limitValue := limitValue;
                     useStrictDataTypesValue :=
                       if truthy (rawUseStrictDataTypes r) &&
                          String.eqb (toLowerCase (str (rawUseStrictDataTypes r))) "true"
                       then Some true else None |}
  | _, _ => inl "Invalid timestamp format. Expected milliseconds."
  end.

(** The call of [telemetryService.getTimeseries] made by the handlers. *)
Definition toQuery (entityType entityId : string) (p : Parsed) : Query :=
  {| entityType := entityType;
     entityId := entityId;
     keys := keyArray p;
     startTs := startTimestamp p;
     endTs := endTimestamp p;
     interval := intervalValue p;
     agg := aggValue p;
     orderBy := orderByValue p;
     limit := limitValue p;
     useStrictDataTypes := useStrictDataTypesValue p |}.

(** A member of a JSON object literal; [undefined] members are left out
    when the body is serialised. *)
Definition member {X : Type} (name : string) (f : X -> Json) (o : option X)
  : list (string * Json) :=
  match o with Some x => [(name, f x)] | None => [] end.

Definition numJson (n : Num) : Json :=
  match n with Int z => JNum z | NaN => JNull end.

Definition orElse (v : option string) (d : string) : string :=
  if truthy v then str v else d.

Definition metaOf (entityType entityId : list (string * Json)) (r : RawQuery) (p : Parsed)
  : Json :=
  JObj (entityType ++ entityId ++
        [("keys", JArr (map JStr (keyArray p)));
         ("startTs", JNum (startTimestamp p));
         ("endTs", JNum (endTimestamp p))] ++
        member "interval" numJson (intervalValue p) ++
        [("agg", JStr (orElse (rawAgg r) "NONE"));
         ("orderBy", JStr (orElse (rawOrderBy r) "default"))] ++
        member "limit" numJson (limitValue p) ++
        member "useStrictDataTypes" JBool (useStrictDataTypesValue p)).

(** [GET /devices]. *)
Definition listDevices (refresh : option string) : Async Response :=
  tryCatch
    (let forceRefresh :=
       match refresh with Some s => String.eqb s "true" | None => false end in
     devices <- DeviceService.getDevices forceRefresh ;;
     Ret {| status := 200;
            body := JObj [("success", JBool true);
                          ("data", JArr devices);
                          ("count", JNum (Z.of_nat (List.length devices)))] |})
    (fun error =>
       let errorMsg := message error in
       log routerLogger Err ("Failed to fetch devices: " ++ errorMsg) ;;
       Ret (failure 502 errorMsg)).

(** [device.name || deviceUUID]. *)
Definition displayName (device : Json) (deviceUUID : string) : string :=
  match prop "name" device with
  | Some n => if truthyJson n then toStr n else deviceUUID
  | None => deviceUUID
  end.

Definition requestLine (who : string) (r : RawQuery) (p : Parsed) : string :=
  "Timeseries request: " ++ who ++
  " keys=" ++ numToString (Z.of_nat (List.length (keyArray p))) ++
  " range=" ++ numToString (endTimestamp p - startTimestamp p) ++ "ms" ++
  " agg=" ++ orElse (rawAgg r) "NONE".

(** [GET /:deviceUUID/timeseries]. *)
Definition deviceTimeseries (deviceUUID : string) (r : RawQuery) : Async Response :=
  tryCatch
    (if negb (truthy (rawKeys r)) || negb (truthy (rawStartTs r)) ||
        negb (truthy (rawEndTs r))
     then Ret (failure 400 "Missing required parameters: keys, startTs, endTs")
     else
       device <- DeviceService.validateDevice deviceUUID ;;
       log routerLogger Info ("Device found: " ++ displayName device deviceUUID) ;;
       match parseQuery r with
       | inl reason => Ret (failure 400 reason)
       | inr p =>
           log routerLogger Info
               (requestLine ("device=" ++ displayName device deviceUUID) r p) ;;
           data <- getTimeseries decodePayload (toQuery "DEVICE" deviceUUID p) ;;
           Ret {| status := 200;
                  body :=
                    JObj [("success", JBool true);
                          ("data", data);
                          ("device",
                           JObj (member "uuid" (fun x => x) (prop "deviceUUID" device) ++
                                 member "name" (fun x => x) (prop "name" device) ++
                                 member "accessToken" (fun x => x)
                                        (prop "accessToken" device)));
                          ("meta",
                           metaOf [("entityType", JStr "DEVICE")]
                                  [("entityId", JStr deviceUUID)] r p)] |}
       end)
    (fun error =>
       let errorMsg := message error in
       log routerLogger Err ("Timeseries request failed: " ++ errorMsg) ;;
       if includes "not found" errorMsg
       then Ret (failure 404 errorMsg)
       else Ret (failure 502 errorMsg)).

(** [GET /timeseries], the legacy handler. *)
Definition legacyTimeseries (r : RawQuery) : Async Response :=
  tryCatch
    (if negb (truthy (rawEntityType r)) || negb (truthy (rawEntityId r)) ||
        negb (truthy (rawKeys r)) || negb (truthy (rawStartTs r)) ||
        negb (truthy (rawEndTs r))
     then Ret (failure 400
                 "Missing required parameters: entityType, entityId, keys, startTs, endTs")
     else
       match parseQuery r with
       | inl reason => Ret (failure 400 reason)
       | inr p =>
           log routerLogger Info
               (requestLine (str (rawEntityType r) ++ "/" ++ str (rawEntityId r)) r p) ;;
           data <- getTimeseries decodePayload
                     (toQuery (str (rawEntityType r)) (str (rawEntityId r)) p) ;;
           Ret {| status := 200;
                  body :=
                    JObj [("success", JBool true);
                          ("data", data);
                          ("meta",
                           metaOf (member "entityType" JStr (rawEntityType r))
                                  (member "entityId" JStr (rawEntityId r)) r p)] |}
       end)
    (fun error =>
       let errorMsg := message error in
       log routerLogger Err ("Timeseries request failed: " ++ errorMsg) ;;
       Ret (failure 502 errorMsg)).

End TelemetryRoutes.

(* ================================================================== *)
(** ** Executions: steps, reachability and path properties *)

(** One step of a task, whatever the upstream answers and however long it
    takes: a configuration is the rest of the task and the process state. *)
Inductive step {A : Type} : Async A * World -> Async A * World -> Prop :=
| step_sync (X : Type) (f : World -> X * World) (k : X -> Async A) (w : World) :
    step (Sync f k, w) (k (fst (f w)), snd (f w))
| step_await (c : Call) (k : ReplyOf c -> Async A) (r : ReplyOf c) (t : Z) (w : World) :
    step (Await c k, w) (k r, tick t (sent c w)).


(** Every synchronous step on every path of the task is in the relation [R]. *)
Fixpoint Respects (R : World -> World -> Prop) {A : Type} (p : Async A) : Prop :=
  match p with
  | Ret _ | Throw _ => True
  | Sync f k => (forall w, R w (snd (f w))) /\ (forall x, Respects R (k x))
  | Await c k => forall r, Respects R (k r)
  end.

(** On every path of the task at most [n] awaited calls are selected by
    [sel]. *)
Fixpoint AtMost (sel : Call -> bool) {A : Type} (p : Async A) (n : nat) : Prop :=
  match p with
  | Ret _ | Throw _ => True
  | Sync f k => forall x, AtMost sel (k x) n
  | Await c k =>
      if sel c
      then match n with
           | S m => forall r, AtMost sel (k r) m
           | O => False
           end
      else forall r, AtMost sel (k r) n
  end.

(** Every way the task can end satisfies [Q]. *)
Fixpoint Ends {A : Type} (Q : Outcome A -> Prop) (p : Async A) : Prop :=
  match p with
  | Ret a => Q (Returned a)
  | Throw e => Q (Thrown e)
  | Sync f k => forall x, Ends Q (k x)
  | Await c k => forall r, Ends Q (k r)
  end.

(** The synchronous steps that leave the wire alone. *)
Definition keepsWire (w w' : World) : Prop := wire w' = wire w.

Definition isRefresh (c : Call) : bool :=
  match c with PostRefresh _ _ => true | _ => false end.
Definition isLogin (c : Call) : bool :=
  match c with PostLogin _ _ _ => true | _ => false end.
Definition isQuery (c : Call) : bool :=
  match c with GetTimeseries _ _ _ _ => true | _ => false end.
Definition isBackoff (c : Call) : bool :=
  match c with SetTimeout _ => true | _ => false end.
Definition isDirectory (c : Call) : bool :=
  match c with GetDevices _ => true | _ => false end.

(** The number of calls on a stretch of wire that [sel] selects. *)
Definition count (sel : Call -> bool) (calls : list Call) : nat :=
  List.length (filter sel calls).

(* ================================================================== *)
(** ** Notions used in the statements *)

(** A time value [Date] can represent. *)
Definition validTime (ms : Z) : Prop := Z.abs ms <= DateTime.maxTime.

(** Exactly the timer the auth service holds a handle to may be active. *)
Definition timersOk (w : World) : Prop :=
  match timers w with
  | [] => True
  | [(h, _)] => tokenRefreshInterval w = Some h
  | _ => False
  end.


Section Statements.

Variable decodePayload : string -> Exn + Claims.

(** The expiry [getTokenExpiration] computes for [token] at time [t]. *)
Definition expiryAt (token : string) (t : Z) : Z :=
  match decodeExpiration decodePayload token with
  | inr (Some ms) => ms
  | _ => t + fifteenMinutes
  end.

(** The credential stored from an upstream token pair at time [t]. *)
Definition credential (data : AuthResponse) (t : Z) : TokenPayload :=
  {| TokenPayload.token := resToken data;
     TokenPayload.refreshToken := resRefreshToken data;
     TokenPayload.expiresAt := expiryAt (resToken data) t |}.

(** The state in which [refreshToken] falls back to [authenticate] after the
    refresh endpoint answered with a status that is neither 200 nor 401. *)
Definition afterFailedRefresh (tp : TokenPayload) (t status : Z) (statusText : string)
    (w : World) : World :=
  addLog {| logger := authLogger; level := Err;
            text := "Token refresh failed: " ++
                    ("Token refresh failed: " ++ numToString status ++ " " ++ statusText) |}
    (tick t
       (sent (PostRefresh (baseUrl w ++ "/api/auth/refresh") (TokenPayload.refreshToken tp))
          (addLog {| logger := authLogger; level := Info;
                     text := "Refreshing ThingsBoard token..." |} w))).

(** The query call of an attempt made with the credential [tp]. *)
Definition queryCall (w : World) (tp : TokenPayload) (q : Query) : Call :=
  GetTimeseries (baseUrl w) (endpointOf q) (TokenPayload.token tp) (buildParams q).

Definition refreshCall (w : World) (tp : TokenPayload) : Call :=
  PostRefresh (baseUrl w ++ "/api/auth/refresh") (TokenPayload.refreshToken tp).

Definition consumed (u : Upstream) (qs : list (Z * AxiosReply Json))
    (rs : list (Z * AxiosReply AuthResponse)) : Upstream :=
  {| logins := logins u; refreshes := rs; queries := qs; directory := directory u |}.


Definition notFound (q : Query) : string :=
  "Entity not found: " ++ entityType q ++ "/" ++ entityId q ++
  " (404). Check entity ID and type.".

Definition badRequest (data : Json) : string :=
  "Bad request: " ++ upstreamMessage data.




End Statements.


(* ================================================================== *)
(** ** Concrete tokens, states and upstream scripts for the examples *)

(** The payload decoder on the tokens of the examples; each entry is the
    Base64 text of the JSON shown next to it. *)
Definition decodeSample (part : string) : Exn + Claims :=
  if String.eqb part "eyJleHAiOjB9"                  (* {"exp":0} *)
  then inr {| exp := Some 0 |}
  else if String.eqb part "eyJleHAiOjE3MDU3NzYwMDB9" (* {"exp":1705776000} *)
  then inr {| exp := Some 1705776000 |}
  else if String.eqb part "eyJleHAiOjE3MDU2ODkwMDB9" (* {"exp":1705689000} *)
  then inr {| exp := Some 1705689000 |}
  else if String.eqb part "eyJleHAiOjE3MDU2ODk2MzB9" (* {"exp":1705689630} *)
  then inr {| exp := Some 1705689630 |}
  else if String.eqb part "eyJzdWIiOiJ0ZW5hbnQifQ"   (* {"sub":"tenant"} *)
  then inr {| exp := None |}
  else inl (Error "Unexpected token in JSON").

Definition tokenZero : string := "h.eyJleHAiOjB9.s".
Definition tokenDay : string := "h.eyJleHAiOjE3MDU3NzYwMDB9.s".
Definition tokenPast : string := "h.eyJleHAiOjE3MDU2ODkwMDB9.s".
Definition tokenSoon : string := "h.eyJleHAiOjE3MDU2ODk2MzB9.s".

(** 2024-01-19T18:40:00.000Z. *)
Definition noon : Z := 1705689600000.

(** A process whose auth service holds the credential [tp] (or none). *)
Definition processWith (tp : option TokenPayload) (handle : option nat)
    (active : list (nat * Z)) : World :=
  {| baseUrl := "https://tb.example";
     username := "tenant@example.org";
     password := "s3cret";
     tokenPayload := tp;
     tokenRefreshInterval := handle;
     deviceBaseUrl := "http://localhost:4000";
     devicesCache := None;
     cacheTimestamp := 0;
     clock := noon;
     timers := active;
     nextTimer := List.length active;
     logs := [];
     wire := [] |}.

(** A credential good for a day, armed at login. *)
Definition freshCredential : TokenPayload :=
  {| TokenPayload.token := tokenDay;
     TokenPayload.refreshToken := "refresh-0";
     TokenPayload.expiresAt := 1705776000000 |}.

(** A credential 30 seconds from expiry. *)
Definition expiringCredential : TokenPayload :=
  {| TokenPayload.token := tokenSoon;
     TokenPayload.refreshToken := "refresh-0";
     TokenPayload.expiresAt := 1705689630000 |}.

Definition freshProcess : World :=
  processWith (Some freshCredential) (Some 0%nat) [(0%nat, 86280000)].
Definition expiringProcess : World :=
  processWith (Some expiringCredential) (Some 0%nat) [(0%nat, 60000)].
Definition blankProcess : World := processWith None None [].

Definition ok200 (tok rt : string) : Z * AxiosReply AuthResponse :=
  (40, Responded 200 "OK" {| resToken := tok; resRefreshToken := rt |}).
Definition refused (code : Z) (txt : string) : Z * AxiosReply AuthResponse :=
  (40, Responded code txt {| resToken := ""; resRefreshToken := "" |}).

(** The upstream of the examples: the replies of the login endpoint, of the
    refresh endpoint and of the telemetry endpoint. *)
Definition upstream (ls rs : list (Z * AxiosReply AuthResponse))
    (qs : list (Z * AxiosReply Json)) : Upstream :=
  {| logins := ls; refreshes := rs; queries := qs; directory := [] |}.

(** The query of the examples. *)
Definition sampleQuery : Query :=
  {| entityType := "DEVICE";
     entityId := "545ffcb0-ab9c-11f0-a05e-97f672464deb";
     keys := ["temperature"; "humidity"];
     startTs := 1705689600000;
     endTs := 1705776000000;
     interval := None;
     agg := None;
     orderBy := None;
     limit := None;
     useStrictDataTypes := None |}.

Definition sampleData : Json :=
  JObj [("temperature", JArr [JObj [("ts", JNum 1705689600000); ("value", JStr "21.5")]]);
        ("humidity", JArr [JObj [("ts", JNum 1705689600000); ("value", JStr "40")]])].

Definition unauthorized401 : Z * AxiosReply Json :=
  (25, Responded 401 "Unauthorized" JNull).
Definition answered (code : Z) (txt : string) (data : Json) : Z * AxiosReply Json :=
  (25, Responded code txt data).

Definition sampleQueryCall (tok : string) : Call :=
  GetTimeseries "https://tb.example"
    "/api/plugins/telemetry/DEVICE/545ffcb0-ab9c-11f0-a05e-97f672464deb/values/timeseries"
    tok
    [("keys", PStr "temperature,humidity");
     ("startTs", PStr "1705689600000");
     ("endTs", PStr "1705776000000")].

(** The answers of the device directory that make a fetch fail: a
    transport error, a status outside 2xx, or a payload that holds no
    array. *)
Definition fetchFails (r : AxiosReply Json) : bool :=
  match r with
  | Failed _ => true
  | Responded status _ payload =>
      negb ((200 <=? status) && (status <? 300)) ||
      match DeviceService.unwrap payload with Some _ => false | None => true end
  end.

(** The exception the [try] block of [getDevices] ends with on such an
    answer. *)
Definition fetchError (r : AxiosReply Json) : Exn :=
  match r with
  | Failed m => AxiosError m None
  | Responded status _ _ =>
      if negb ((200 <=? status) && (status <? 300))
      then AxiosError ("Request failed with status code " ++ numToString status)
                      (Some status)
      else Error "Invalid devices response: expected array"
  end.

(** The upstream once the directory has given its first answer. *)
Definition afterDirectory (u : Upstream) (rest : list (Z * AxiosReply Json)) : Upstream :=
  {| logins := logins u; refreshes := refreshes u; queries := queries u;
     directory := rest |}.

(** A caller that lists the devices again and again, each time with its
    own [forceRefresh]: the outcomes of the calls, in order. *)
Fixpoint poll (flags : list bool) (w : World) (u : Upstream)
  : list (Outcome (list Json)) :=
  match flags with
  | [] => []
  | forceRefresh :: rest =>
      let '(o, w', u') := run (DeviceService.getDevices forceRefresh) w u in
      o :: poll rest w' u'
  end.

Definition notThrown {A : Type} (o : Outcome A) : Prop :=
  match o with Thrown _ => False | _ => True end.

(** No failure is observed after the first success. *)
Fixpoint noFailureAfterSuccess {A : Type} (outcomes : list (Outcome A)) : Prop :=
  match outcomes with
  | [] => True
  | Returned _ :: rest => Forall notThrown rest
  | _ :: rest => noFailureAfterSuccess rest
  end.

(** The log line [e] shows the secret [s] in plaintext. *)
Definition discloses (s : string) (e : LogEntry) : bool := includes s (text e).

(** The required parameters of the device route and of the legacy route
    are there. *)
Definition present (r : RawQuery) : bool :=
  truthy (rawKeys r) && truthy (rawStartTs r) && truthy (rawEndTs r).

Definition presentLegacy (r : RawQuery) : bool :=
  truthy (rawEntityType r) && truthy (rawEntityId r) && present r.

(** The response of the device route to an exception, and the state in
    which a handler sends its failure response. *)
Definition deviceFailure (e : Exn) : Response :=
  failure (if includes "not found" (message e) then 404 else 502) (message e).

Definition failed (e : Exn) (w : World) : World :=
  addLog {| logger := routerLogger; level := Err;
            text := "Timeseries request failed: " ++ message e |} w.

(** The success response of the two routes. *)
Definition deviceSuccess (deviceUUID : string) (device : Json) (r : RawQuery) (p : Parsed)
    (data : Json) : Response :=
  {| status := 200;
     body :=
       JObj [("success", JBool true);
             ("data", data);
             ("device",
              JObj (member "uuid" (fun x => x) (prop "deviceUUID" device) ++
                    member "name" (fun x => x) (prop "name" device) ++
                    member "accessToken" (fun x => x) (prop "accessToken" device)));
             ("meta",
              metaOf [("entityType", JStr "DEVICE")] [("entityId", JStr deviceUUID)] r p)] |}.

Definition legacySuccess (r : RawQuery) (p : Parsed) (data : Json) : Response :=
  {| status := 200;
     body :=
       JObj [("success", JBool true);
             ("data", data);
             ("meta",
              metaOf (member "entityType" JStr (rawEntityType r))
                     (member "entityId" JStr (rawEntityId r)) r p)] |}.

(** The query the legacy route hands to the telemetry service. *)
Definition legacyQuery (r : RawQuery) (p : Parsed) : Query :=
  toQuery (str (rawEntityType r)) (str (rawEntityId r)) p.


(** The reasons with which the checks that come before the one on the
    interval refuse a query, and those between it and the one on the
    limit. *)
Definition earlierReasons : list string :=
  ["Invalid timestamp format. Expected milliseconds.";
   "startTs must be less than endTs";
   "At least one key must be provided"].

Definition laterReasons : list string :=
  ["Interval must be a positive number";
   "Invalid aggregation function. Must be one of: " ++ join ", " validAgg;
   "Invalid orderBy. Must be ASC or DESC"].

(** A device of the directory, and a process that listed the devices ten
    minutes ago. *)
Definition sampleDevice : Json :=
  JObj [("deviceUUID", JStr "545ffcb0-ab9c-11f0-a05e-97f672464deb");
        ("accessToken", JStr "A1B2C3D4");
        ("name", JStr "Line 1 meter")].

Definition staleProcess : World :=
  setDevicesCache (Some [sampleDevice]) (noon - 600000) freshProcess.

(** An upstream whose device directory gives the answers [ds]. *)
Definition withDirectory (ds : list (Z * AxiosReply Json)) (u : Upstream) : Upstream :=
  afterDirectory u ds.

(** A process that listed the devices a second ago. *)
Definition cachedProcess : World :=
  setDevicesCache (Some [sampleDevice]) (noon - 1000) freshProcess.

Definition sampleUUID : string := "545ffcb0-ab9c-11f0-a05e-97f672464deb".

(** The query string of the examples, with the optional interval and
    aggregation. *)
Definition rawSample (rawInterval0 rawAgg0 : option string) : RawQuery :=
  {| rawEntityType := Some "DEVICE";
     rawEntityId := Some sampleUUID;
     rawKeys := Some "temperature, humidity";
     rawStartTs := Some "1705689600000";
     rawEndTs := Some "1705776000000";
     rawInterval := rawInterval0;
     rawAgg := rawAgg0;
     rawOrderBy := None;
     rawLimit := None;
     rawUseStrictDataTypes := None |}.

Definition parsedSample : Parsed :=
  {| keyArray := ["temperature"; "humidity"];
     startTimestamp := 1705689600000;
     endTimestamp := 1705776000000;
     intervalValue := None;
     aggValue := None;
     orderByValue := None;
     limitValue := None;
     useStrictDataTypesValue := None |}.

(* ================================================================== *)
(** ** Further notions used in the statements *)

(** The login endpoint refuses: a transport failure or a status other
    than 200; and the exception [authenticate] then throws. *)
Definition rejected (r : AxiosReply AuthResponse) : bool :=
  match r with
  | Failed _ => true
  | Responded st _ _ => negb (st =? 200)
  end.

Definition loginError (r : AxiosReply AuthResponse) : Exn :=
  match r with
  | Failed m => AxiosError m None
  | Responded st txt _ =>
      Error ("ThingsBoard authentication failed: " ++ numToString st ++ " " ++ txt)
  end.

Definition loginCall (w : World) : Call :=
  PostLogin (baseUrl w ++ "/api/auth/login") (username w) (password w).

(** The upstream once the login endpoint, the refresh endpoint and the
    telemetry endpoint have given their first answers. *)
Definition answeredBy (u : Upstream) (ls rs : list (Z * AxiosReply AuthResponse))
    (qs : list (Z * AxiosReply Json)) : Upstream :=
  {| logins := ls; refreshes := rs; queries := qs; directory := directory u |}.

(** [getTokenStatus], a synchronous method: the report, or the exception
    [toISOString] throws on an expiry [Date] cannot represent. *)
Inductive TokenStatus : Type :=
| NotAuthenticated
| Reported (status : string) (expiresAt : string) (expiresInSeconds : Z).

Definition getTokenStatus (w : World) : Exn + TokenStatus :=
  match tokenPayload w with
  | None => inr NotAuthenticated
  | Some tp =>
      let expiresIn := TokenPayload.expiresAt tp - clock w in
      match DateTime.toISOString (TokenPayload.expiresAt tp) with
      | Some iso =>
          inr (Reported (if 0 <? expiresIn then "valid" else "expired") iso
                        (expiresIn / 1000))
      | None => inl (RangeError "Invalid time value")
      end
  end.

(** The character [c] occurs in [s]. *)
Fixpoint occurs (c : ascii) (s : string) : bool :=
  match s with
  | EmptyString => false
  | String x rest => Ascii.eqb x c || occurs c rest
  end.

(** [initializeThingsboardServices] (thingsboard.module.ts): the auth
    service is constructed with no argument, so that each field takes the
    environment variable or, when that is unset or empty, its default; the
    telemetry service only keeps the reference to it. *)
Record Env : Type :=
  { THINGSBOARD_BASE_URL : option string;
    THINGSBOARD_USERNAME : option string;
    THINGSBOARD_PASSWORD : option string }.

Definition initializeThingsboardServices (env : Env) : Async unit :=
  newThingsboardAuthService
    (orElse (THINGSBOARD_BASE_URL env) "https://portal.indusmind.net")
    (orElse (THINGSBOARD_USERNAME env) "")
    (orElse (THINGSBOARD_PASSWORD env) "").

(** A decoder for a token whose [exp] lies beyond the range of [Date],
    and such a token. *)
Definition decodeFar (part : string) : Exn + Claims :=
  inr {| exp := Some 9000000000000 |}.

Definition tokenFar : string := "h.eyJleHAiOjkwMDAwMDAwMDAwMDB9.s".

(** A query string without any parameter. *)
Definition rawEmpty : RawQuery :=
  {| rawEntityType := None;
     rawEntityId := None;
     rawKeys := None;
     rawStartTs := None;
     rawEndTs := None;
     rawInterval := None;
     rawAgg := None;
     rawOrderBy := None;
     rawLimit := None;
     rawUseStrictDataTypes := None |}.

Definition unreachable : Z * AxiosReply Json :=
  (30, Failed "connect ECONNREFUSED 127.0.0.1:4000").

Definition listed (devices : list Json) : Z * AxiosReply Json :=
  (30, Responded 200 "OK" (JArr devices)).

(** The sample query with an interval of 0, as the parser hands it on. *)
Definition parsedZero : Parsed :=
  {| keyArray := ["temperature"; "humidity"];
     startTimestamp := 1705689600000;
     endTimestamp := 1705776000000;
     intervalValue := Some (Int 0);
     aggValue := None;
     orderByValue := None;
     limitValue := None;
     useStrictDataTypesValue := None |}.
(* ================================================================== *)
(** ** General facts about [run], [bind] and [tryCatch] *)

Local Open Scope async_scope.

Lemma run_bind (A B : Type) (p : Async A) (q : A -> Async B) (w : World) (u : Upstream) :
  run (bind p q) w u =
  match run p w u with
  | (Returned a, w', u') => run (q a) w' u'
  | (Thrown e, w', u') => (Thrown e, w', u')
  | (Pending, w', u') => (Pending, w', u')
  end.
Proof.
  revert w u; induction p as [a | e | X f k IH | c k IH]; intros w u; simpl.
  - reflexivity.
  - reflexivity.
  - destruct (f w) as [x w']; apply IH.
  - destruct (serve c u) as [[[t r] u'] | ]; [apply IH | reflexivity].
Qed.

Lemma run_tryCatch (A : Type) (p : Async A) (h : Exn -> Async A) (w : World) (u : Upstream) :
  run (tryCatch p h) w u =
  match run p w u with
  | (Thrown e, w', u') => run (h e) w' u'
  | other => other
  end.
Proof.
  revert w u; induction p as [a | e | X f k IH | c k IH]; intros w u; simpl.
  - reflexivity.
  - reflexivity.
  - destruct (f w) as [x w']; apply IH.
  - destruct (serve c u) as [[[t r] u'] | ]; [apply IH | reflexivity].
Qed.

Lemma Respects_bind (R : World -> World -> Prop) (A B : Type)
    (p : Async A) (q : A -> Async B) :
  Respects R p -> (forall a, Respects R (q a)) -> Respects R (bind p q).
Proof.
  intros Hp Hq; induction p as [a | e | X f k IH | c k IH]; simpl in *; auto.
  destruct Hp as [Hf Hk]; split; auto.
Qed.

Lemma Respects_tryCatch (R : World -> World -> Prop) (A : Type)
    (p : Async A) (h : Exn -> Async A) :
  Respects R p -> (forall e, Respects R (h e)) -> Respects R (tryCatch p h).
Proof.
  intros Hp Hh; induction p as [a | e | X f k IH | c k IH]; simpl in *; auto.
  destruct Hp as [Hf Hk]; split; auto.
Qed.

Lemma Respects_impl (R R' : World -> World -> Prop) (A : Type) (p : Async A) :
  (forall w w', R w w' -> R' w w') -> Respects R p -> Respects R' p.
Proof.
  intros HR; induction p as [a | e | X f k IH | c k IH]; simpl; auto.
  intros [Hf Hk]; split; auto.
Qed.

Lemma AtMost_weaken (sel : Call -> bool) (A : Type) (p : Async A) (n m : nat) :
  AtMost sel p n -> (n <= m)%nat -> AtMost sel p m.
Proof.
  revert n m; induction p as [a | e | X f k IH | c k IH]; simpl; intros n m Hp Hm; auto.
  - intros x; eapply IH; eauto.
  - destruct (sel c).
    + destruct n as [ | n]; [contradiction | ].
      destruct m as [ | m]; [lia | ].
      intros r; eapply IH; [apply Hp | lia].
    + intros r; eapply IH; eauto.
Qed.

Lemma AtMost_bind (sel : Call -> bool) (A B : Type) (p : Async A) (q : A -> Async B)
    (n m : nat) :
  AtMost sel p n -> (forall a, AtMost sel (q a) m) -> AtMost sel (bind p q) (n + m).
Proof.
  revert n; induction p as [a | e | X f k IH | c k IH]; simpl; intros n Hp Hq; auto.
  - apply AtMost_weaken with (n := m); [apply Hq | lia].
  - destruct (sel c).
    + destruct n as [ | n]; [contradiction | ].
      simpl; intros r; apply IH; auto.
    + intros r; apply IH; auto.
Qed.

Lemma AtMost_tryCatch (sel : Call -> bool) (A : Type) (p : Async A) (h : Exn -> Async A)
    (n m : nat) :
  AtMost sel p n -> (forall e, AtMost sel (h e) m) -> AtMost sel (tryCatch p h) (n + m).
Proof.
  revert n; induction p as [a | e | X f k IH | c k IH]; simpl; intros n Hp Hh; auto.
  - apply AtMost_weaken with (n := m); [apply Hh | lia].
  - destruct (sel c).
    + destruct n as [ | n]; [contradiction | ].
      simpl; intros r; apply IH; auto.
    + intros r; apply IH; auto.
Qed.

Lemma Ends_any (A : Type) (p : Async A) : Ends (fun _ => True) p.
Proof. induction p; simpl; auto. Qed.

Lemma Ends_impl (A : Type) (Q Q' : Outcome A -> Prop) (p : Async A) :
  (forall o, Q o -> Q' o) -> Ends Q p -> Ends Q' p.
Proof. intros HQ; induction p; simpl; auto. Qed.

Lemma Ends_bind (A B : Type) (Q : Outcome B -> Prop) (p : Async A) (q : A -> Async B) :
  (forall e, Q (Thrown e)) -> (forall a, Ends Q (q a)) -> Ends Q (bind p q).
Proof.
  intros He Hq; induction p; simpl; auto.
Qed.

Lemma Ends_tryCatch (A : Type) (Q : Outcome A -> Prop) (p : Async A) (h : Exn -> Async A) :
  Ends (fun o => match o with Thrown _ => True | _ => Q o end) p ->
  (forall e, Ends Q (h e)) -> Ends Q (tryCatch p h).
Proof.
  intros Hp Hh; induction p; simpl in *; auto.
Qed.

(** What [Ends] promises holds of every run (an unanswered call apart). *)
Lemma Ends_run (A : Type) (Q : Outcome A -> Prop) (p : Async A) (w : World) (u : Upstream) :
  Ends Q p -> Q Pending -> Q (fst (fst (run p w u))).
Proof.
  intros Hp HQ; revert w u; induction p as [a | e | X f k IH | c k IH]; simpl in *; intros w u; auto.
  - destruct (f w) as [x w']; apply IH; auto.
  - destruct (serve c u) as [[[t r] u'] | ]; simpl; auto.
Qed.


(** The calls a run puts on the wire are bounded by [AtMost]. *)
Lemma AtMost_run (sel : Call -> bool) (A : Type) (p : Async A) (n : nat)
    (w : World) (u : Upstream) :
  Respects keepsWire p -> AtMost sel p n ->
  exists calls, wire (snd (fst (run p w u))) = (wire w ++ calls)%list /\
                (count sel calls <= n)%nat.
Proof.
  revert n w u; induction p as [a | e | X f k IH | c k IH]; simpl; intros n w u Hr Hn.
  - exists []; rewrite app_nil_r; split; [reflexivity | unfold count; simpl; lia].
  - exists []; rewrite app_nil_r; split; [reflexivity | unfold count; simpl; lia].
  - destruct Hr as [Hf Hk]; specialize (Hf w); unfold keepsWire in Hf.
    destruct (f w) as [x w']; simpl in Hf.
    destruct (IH x n w' u (Hk x) (Hn x)) as [calls [Hw Hc]].
    exists calls; rewrite Hw, Hf; auto.
  - destruct (serve c u) as [[[t r] u'] | ]; simpl.
    + destruct (sel c) eqn:Hsel.
      * destruct n as [ | n]; [contradiction | ].
        destruct (IH r n (tick t (sent c w)) u' (Hr r) (Hn r)) as [calls [Hw Hc]].
        exists (c :: calls); rewrite Hw; simpl; rewrite <- app_assoc; split; [reflexivity | ].
        unfold count in *; simpl; rewrite Hsel; simpl; lia.
      * destruct (IH r n (tick t (sent c w)) u' (Hr r) (Hn r)) as [calls [Hw Hc]].
        exists (c :: calls); rewrite Hw; simpl; rewrite <- app_assoc; split; [reflexivity | ].
        unfold count in *; simpl; rewrite Hsel; assumption.
    + exists [c]; split; [reflexivity | ].
      unfold count; simpl; destruct (sel c) eqn:Hsel; simpl; [ | lia].
      destruct n; [contradiction | lia].
Qed.

(* ================================================================== *)
(** ** The auth service: symbolic execution lemmas *)

Arguments DateTime.toISOString : simpl never.
Arguments numToString : simpl never.
Arguments stringify : simpl never.
Arguments fifteenMinutes : simpl never.
Arguments setupAutoRefresh : simpl never.
Arguments refreshDelay : simpl never.
Arguments authenticate : simpl never.
Arguments refreshToken : simpl never.

(** Symbolic evaluation of [run]: reduce, and rewrite a scrutinee with a
    hypothesis that gives its value. *)
Ltac ev :=
  repeat (cbn;
          try match goal with
              | H : ?x = _ |- context [match ?x with _ => _ end] => rewrite H
              | H : ?x = _ |- context [if ?x then _ else _] => rewrite H
              | H : ?x = _ |- context [if negb ?x then _ else _] => rewrite H
              end).

Lemma toISOString_valid (ms : Z) :
  validTime ms -> exists s, DateTime.toISOString ms = Some s.
Proof.
  unfold validTime, DateTime.toISOString; intros H.
  apply Z.leb_le in H; rewrite H.
  destruct (DateTime.civil (ms / 86400000)) as [[y m] d]; eauto.
Qed.

Lemma toISOString_invalid (ms : Z) :
  ~ validTime ms -> DateTime.toISOString ms = None.
Proof.
  unfold validTime, DateTime.toISOString; intros H.
  destruct (Z.leb_spec (Z.abs ms) DateTime.maxTime); [contradiction | reflexivity].
Qed.

Section SetupAutoRefresh.

Variable w : World.

Lemma setupAutoRefresh_tokenPayload : tokenPayload (setupAutoRefresh w) = tokenPayload w.
Proof.
  unfold setupAutoRefresh, arm, cancelPending.
  destruct (tokenRefreshInterval w), (tokenPayload w) eqn:Hp;
    repeat (simpl; rewrite ?Hp); reflexivity.
Qed.

Lemma setupAutoRefresh_clock : clock (setupAutoRefresh w) = clock w.
Proof.
  unfold setupAutoRefresh, arm, cancelPending.
  destruct (tokenRefreshInterval w), (tokenPayload w) eqn:Hp;
    repeat (simpl; rewrite ?Hp); reflexivity.
Qed.

Lemma setupAutoRefresh_wire : wire (setupAutoRefresh w) = wire w.
Proof.
  unfold setupAutoRefresh, arm, cancelPending.
  destruct (tokenRefreshInterval w), (tokenPayload w) eqn:Hp;
    repeat (simpl; rewrite ?Hp); reflexivity.
Qed.

Lemma setupAutoRefresh_baseUrl : baseUrl (setupAutoRefresh w) = baseUrl w.
Proof.
  unfold setupAutoRefresh, arm, cancelPending.
  destruct (tokenRefreshInterval w), (tokenPayload w) eqn:Hp;
    repeat (simpl; rewrite ?Hp); reflexivity.
Qed.

Lemma setupAutoRefresh_devices :
  devicesCache (setupAutoRefresh w) = devicesCache w /\
  cacheTimestamp (setupAutoRefresh w) = cacheTimestamp w /\
  deviceBaseUrl (setupAutoRefresh w) = deviceBaseUrl w.
Proof.
  unfold setupAutoRefresh, arm, cancelPending.
  destruct (tokenRefreshInterval w), (tokenPayload w) eqn:Hp;
    repeat (simpl; rewrite ?Hp); auto.
Qed.

(** Under the invariant, the pending timer is cancelled and exactly one
    new timer is armed for the credential held. *)
Lemma setupAutoRefresh_timers (tp : TokenPayload) :
  timersOk w -> tokenPayload w = Some tp ->
  timers (cancelPending w) = [] /\
  timers (setupAutoRefresh w) =
    [(nextTimer w, effectiveDelay (refreshDelay (TokenPayload.expiresAt tp) (clock w)))] /\
  tokenRefreshInterval (setupAutoRefresh w) = Some (nextTimer w).
Proof.
  unfold timersOk, setupAutoRefresh, arm, cancelPending; intros Hok Htp.
  destruct (timers w) as [ | [h d] [ | x l]] eqn:Ht; try contradiction.
  - destruct (tokenRefreshInterval w);
      repeat (simpl; rewrite ?Ht, ?Htp); auto.
  - rewrite Hok; repeat (simpl; rewrite ?Ht, ?Htp, ?Nat.eqb_refl); auto.
Qed.

Lemma setupAutoRefresh_timersOk : timersOk w -> timersOk (setupAutoRefresh w).
Proof.
  intros Hok; destruct (tokenPayload w) as [tp | ] eqn:Htp.
  - destruct (setupAutoRefresh_timers Hok Htp) as [_ [Ht Hh]].
    unfold timersOk; rewrite Ht; assumption.
  - revert Hok; unfold timersOk, setupAutoRefresh, arm, cancelPending.
    destruct (timers w) as [ | [h d] [ | x l]] eqn:Ht; try contradiction.
    + destruct (tokenRefreshInterval w);
        repeat (simpl; rewrite ?Ht, ?Htp); auto.
    + intros Hok; rewrite Hok; repeat (simpl; rewrite ?Ht, ?Htp, ?Nat.eqb_refl); auto.
Qed.

End SetupAutoRefresh.

Section AuthFacts.
Variable decodePayload : string -> Exn + Claims.

(** A login answered with 200 stores the credential and arms the timer. *)
Lemma authenticate_ok (w : World) (u : Upstream) (t : Z) (txt : string)
    (data : AuthResponse) (rest : list (Z * AxiosReply AuthResponse)) :
  logins u = (t, Responded 200 txt data) :: rest ->
  validTime (expiryAt decodePayload (resToken data) (clock w + t)) ->
  exists w',
    run (authenticate decodePayload) w u =
      (Returned (resToken data), setupAutoRefresh w',
       {| logins := rest; refreshes := refreshes u;
          queries := queries u; directory := directory u |}) /\
    tokenPayload w' = Some (credential decodePayload data (clock w + t)) /\
    clock w' = clock w + t /\
    baseUrl w' = baseUrl w /\
    wire w' = (wire w ++ [PostLogin (baseUrl w ++ "/api/auth/login")
                                    (username w) (password w)])%list /\
    timers w' = timers w /\ nextTimer w' = nextTimer w /\
    tokenRefreshInterval w' = tokenRefreshInterval w.
Proof.
  intros Hl Hv.
  destruct (toISOString_valid Hv) as [s Hs].
  unfold credential, expiryAt in *.
  unfold authenticate, getTokenExpiration, isoDate.
  destruct (decodeExpiration decodePayload (resToken data)) as [e | [ms | ]] eqn:D;
    ev; eexists; (split; [reflexivity | simpl; auto 10]).
Qed.




Lemma refreshToken_other_status (w : World) (u : Upstream) (tp : TokenPayload) (t status : Z)
    (txt : string) (data : AuthResponse) (rest : list (Z * AxiosReply AuthResponse)) :
  tokenPayload w = Some tp ->
  truthyStr (TokenPayload.refreshToken tp) = true ->
  refreshes u = (t, Responded status txt data) :: rest ->
  status <> 200 -> status <> 401 ->
  run (refreshToken decodePayload) w u =
  run (authenticate decodePayload) (afterFailedRefresh tp t status txt w)
      {| logins := logins u; refreshes := rest;
         queries := queries u; directory := directory u |}.
Proof.
  intros Htp Hrt Hr H200 H401.
  apply Z.eqb_neq in H200, H401.
  unfold refreshToken, afterFailedRefresh; ev. reflexivity.
Qed.


(** [getValidToken] in its three cases. *)
Lemma getValidToken_cases (w : World) (u : Upstream) :
  run (getValidToken decodePayload) w u =
  match tokenPayload w with
  | None => run (authenticate decodePayload) w u
  | Some tp =>
      if TokenPayload.expiresAt tp - clock w <? 60000
      then run (refreshToken decodePayload)
               (addLog {| logger := authLogger; level := Info;
                          text := "Token expiring soon, refreshing..." |} w) u
      else (Returned (TokenPayload.token tp), w, u)
  end.
Proof.
  unfold getValidToken; cbn.
  destruct (tokenPayload w) as [tp | ]; cbn; [ | reflexivity].
  destruct (TokenPayload.expiresAt tp - clock w <? 60000); reflexivity.
Qed.
End AuthFacts.


(* ================================================================== *)
(** ** Invariants and call bounds of the methods *)

Arguments getValidToken : simpl never.



(** Decomposition of a goal [Respects R p] along the structure of [p]. *)
Ltac respects leaf :=
  repeat first
    [ solve [leaf]
    | progress cbn
    | progress intros
    | progress unfold isoDate, getAuthenticatedClient
    | apply Respects_bind
    | apply Respects_tryCatch
    | split
    | match goal with
      | |- context [match ?x with _ => _ end] => destruct x
      | |- context [if ?b then _ else _] => destruct b
      end ].


Lemma Respects_bind_returned (R : World -> World -> Prop) (A B : Type)
    (p : Async A) (q : A -> Async B) :
  Respects R p ->
  Ends (fun o => match o with Returned a => Respects R (q a) | _ => True end) p ->
  Respects R (bind p q).
Proof.
  intros Hp Hq; induction p as [a | e | X f k IH | c k IH]; simpl in *; auto.
  destruct Hp as [Hf Hk]; split; auto.
Qed.

Lemma AtMost_bind_returned (sel : Call -> bool) (A B : Type) (p : Async A)
    (q : A -> Async B) (n m : nat) :
  AtMost sel p n ->
  Ends (fun o => match o with Returned a => AtMost sel (q a) m | _ => True end) p ->
  AtMost sel (bind p q) (n + m).
Proof.
  revert n; induction p as [a | e | X f k IH | c k IH]; simpl; intros n Hp Hq; auto.
  - apply AtMost_weaken with (n := m); [apply Hq | lia].
  - destruct (sel c).
    + destruct n as [ | n]; [contradiction | ].
      simpl; intros r; apply IH; auto.
    + intros r; apply IH; auto.
Qed.

(** Decomposition of a goal [Ends Q p] along the structure of [p]. *)
Ltac ends leaf :=
  repeat first
    [ solve [leaf]
    | progress cbn
    | progress intros
    | progress unfold isoDate, getAuthenticatedClient
    | apply Ends_bind
    | apply Ends_tryCatch
    | split
    | match goal with
      | |- context [match ?x with _ => _ end] => destruct x
      | |- context [if ?b then _ else _] => destruct b
      end ].

Section Paths.

Variable decodePayload : string -> Exn + Claims.







(** *** The calls each method can put on the wire *)

Ltac wireLeaf :=
  first [ exact I
        | reflexivity
        | apply setupAutoRefresh_wire
        | match goal with H : forall _, Respects _ _ |- _ => apply H end
        | match goal with H : Respects _ _ |- _ => apply H end ].

Lemma authenticate_keepsWire : Respects keepsWire (authenticate decodePayload).
Proof.
  unfold authenticate, getTokenExpiration, keepsWire; respects wireLeaf.
Qed.

Lemma refreshToken_keepsWire : Respects keepsWire (refreshToken decodePayload).
Proof.
  pose proof authenticate_keepsWire.
  unfold refreshToken, getTokenExpiration, keepsWire in *; respects wireLeaf.
Qed.

Lemma getValidToken_keepsWire : Respects keepsWire (getValidToken decodePayload).
Proof.
  pose proof authenticate_keepsWire; pose proof refreshToken_keepsWire.
  unfold getValidToken, keepsWire in *; respects wireLeaf.
Qed.

Lemma retryLoop_keepsWire q n : Respects keepsWire (retryLoop decodePayload q n).
Proof.
  pose proof refreshToken_keepsWire; pose proof getValidToken_keepsWire.
  unfold keepsWire in *.
  induction n as [ | n IH]; cbn [retryLoop];
    (apply Respects_bind_returned; [respects wireLeaf | ends wireLeaf]).
Qed.

(** Decomposition of a goal [AtMost sel p n] for a program without opaque
    parts in head position. *)
Ltac atmost leaf :=
  repeat first
    [ solve [leaf]
    | progress cbn
    | progress intros
    | progress unfold isoDate
    | match goal with
      | H : forall a b c, ?sel (PostLogin a b c) = false |- _ => rewrite H
      | H : forall a b, ?sel (PostRefresh a b) = true -> (1 <= ?n)%nat
        |- context [?sel (PostRefresh ?u ?b)] =>
          let E := fresh "E" in
          destruct (sel (PostRefresh u b)) eqn:E;
          [ apply H in E; destruct n; [lia | ] | ]
      end
    | match goal with
      | |- context [match ?x with _ => _ end] => destruct x
      | |- context [if ?b then _ else _] => destruct b
      end ].

Lemma AtMost_sync (sel : Call -> bool) (A X : Type) (f : World -> X * World)
    (k : X -> Async A) (n : nat) :
  (forall x, AtMost sel (k x) n) -> AtMost sel (Sync f k) n.
Proof. intros H; exact H. Qed.

(** Step over the synchronous nodes at the head of a program. *)
Ltac peel :=
  repeat (cbn [bind log modify sync read now await];
          match goal with
          | |- AtMost _ (Sync _ _) _ => apply AtMost_sync; intros
          end);
  cbn [bind log modify sync read now await].

Ltac boundLeaf :=
  first [ exact I
        | match goal with
          | H : AtMost ?sel ?p ?n |- AtMost ?sel ?p ?m =>
              apply (AtMost_weaken _ _ H); lia
          end ].

Lemma authenticate_calls (sel : Call -> bool) :
  (forall url user pass, sel (PostLogin url user pass) = false) ->
  AtMost sel (authenticate decodePayload) 0.
Proof.
  intros Hsel; unfold authenticate, getTokenExpiration.
  atmost boundLeaf.
Qed.

Lemma refreshToken_calls (sel : Call -> bool) (n : nat) :
  (forall url user pass, sel (PostLogin url user pass) = false) ->
  (forall url b, sel (PostRefresh url b) = true -> (1 <= n)%nat) ->
  AtMost sel (refreshToken decodePayload) n.
Proof.
  intros Hl Hr; pose proof (authenticate_calls _ Hl) as Ha.
  unfold refreshToken, getTokenExpiration.
  atmost boundLeaf.
Qed.

Lemma getValidToken_calls (sel : Call -> bool) (n : nat) :
  (forall url user pass, sel (PostLogin url user pass) = false) ->
  (forall url b, sel (PostRefresh url b) = true -> (1 <= n)%nat) ->
  AtMost sel (getValidToken decodePayload) n.
Proof.
  intros Hl Hr; pose proof (authenticate_calls _ Hl) as Ha.
  pose proof (refreshToken_calls _ Hl Hr) as Hf.
  unfold getValidToken; atmost boundLeaf.
Qed.

(** One attempt of the retry loop awaits at most [r] refresh-like calls in
    [getValidToken], the query, and, when it retries, the backoff and the
    forced refresh; [viaToken], [forced] bound the calls [sel] selects in
    each part. *)
Lemma retryLoop_calls (sel : Call -> bool) (viaToken query backoff forced : nat)
    (q : Query) (n : nat) :
  AtMost sel (getValidToken decodePayload) viaToken ->
  AtMost sel (refreshToken decodePayload) forced ->
  (forall b e t ps, sel (GetTimeseries b e t ps) = true -> (1 <= query)%nat) ->
  (forall ms, sel (SetTimeout ms) = true -> (1 <= backoff)%nat) ->
  AtMost sel (retryLoop decodePayload q n)
         ((n + 1) * (viaToken + query) + n * (backoff + forced)).
Proof.
  intros Hv Hf Hq Hb.
  assert (Hquery : forall A c (k : ReplyOf c -> Async A) m,
             isQuery c = true ->
             (forall r, AtMost sel (k r) m) -> AtMost sel (Await c k) (query + m)).
  { intros A c k m Hc Hk; simpl.
    destruct c as [ | | b e t ps | | ]; try discriminate.
    destruct (sel (GetTimeseries b e t ps)) eqn:E.
    - apply Hq in E; destruct query as [ | query']; [lia | ].
      simpl; intros r; apply AtMost_weaken with (n := m); [apply Hk | lia].
    - intros r; apply AtMost_weaken with (n := m); [apply Hk | lia]. }
  assert (Hbackoff : forall A ms (k : unit -> Async A) m,
             (forall r, AtMost sel (k r) m) ->
             AtMost sel (Await (SetTimeout ms) k) (backoff + m)).
  { intros A ms k m Hk; simpl.
    destruct (sel (SetTimeout ms)) eqn:E.
    - apply Hb in E; destruct backoff as [ | backoff']; [lia | ].
      simpl; intros r; apply AtMost_weaken with (n := m); [apply Hk | lia].
    - intros r; apply AtMost_weaken with (n := m); [apply Hk | lia]. }
  assert (Hclient : AtMost sel (getAuthenticatedClient decodePayload) (viaToken + 0)).
  { unfold getAuthenticatedClient; apply AtMost_bind; [exact Hv | intros; peel; exact I]. }
  assert (Hcatch : forall e : Exn,
             AtMost sel
               ((if isAxiosError e
                 then log telemetryLogger Err
                        ("Request failed: " ++ message e ++ ". Status: " ++
                         match e with
                         | AxiosError _ (Some st) => numToString st
                         | _ => "undefined"
                         end)
                 else log telemetryLogger Err ("Telemetry fetch failed: " ++ message e)) ;;
                Throw e : Async Attempt) 0).
  { intros e; destruct (isAxiosError e); peel; exact I. }
  induction n as [ | n IH]; cbn [retryLoop].
  - apply AtMost_weaken with (n := (((viaToken + 0) + (query + 0) + 0) + 0)%nat); [ | lia].
    apply AtMost_bind_returned.
    + apply AtMost_tryCatch; [ | exact Hcatch].
      apply AtMost_bind; [exact Hclient | ].
      intros client; peel.
      apply Hquery; [reflexivity | ].
      intros [st txt data | m]; [ | exact I]; peel.
      destruct (st =? 200); [peel; exact I | ].
      destruct (st =? 401), (st =? 404), (st =? 400); exact I.
    + ends boundLeaf.
  - apply AtMost_weaken
      with (n := ((((viaToken + 0) + (query + (backoff + (forced + 0)))) + 0)
                  + ((n + 1) * (viaToken + query) + n * (backoff + forced)))%nat);
      [ | lia].
    apply AtMost_bind_returned.
    + apply AtMost_tryCatch; [ | exact Hcatch].
      apply AtMost_bind; [exact Hclient | ].
      intros client; peel.
      apply Hquery; [reflexivity | ].
      intros [st txt data | m]; [ | exact I]; peel.
      destruct (st =? 200); [peel; exact I | ].
      destruct (st =? 401).
      { peel; apply Hbackoff; intros _; peel.
        apply AtMost_bind; [exact Hf | intros; peel; exact I]. }
      destruct (st =? 404), (st =? 400); exact I.
    + ends ltac:(first [exact I | exact IH]).
Qed.
End Paths.

(* ================================================================== *)
(** ** Claims about the auth service *)

Section AuthClaims.

Variable decodePayload : string -> Exn + Claims.

Lemma getTokenExpiration_value (token : string) (w : World) (u : Upstream) :
  fst (fst (run (getTokenExpiration decodePayload token) w u)) =
  Returned (expiryAt decodePayload token (clock w)).
Proof.
  unfold getTokenExpiration, expiryAt.
  destruct (decodeExpiration decodePayload token) as [e | [ms | ]]; reflexivity.
Qed.

(** C6 (code bug): an [exp] claim of 0 is taken for a missing one.  For
    a token with three dot-separated parts whose payload decodes and
    carries [exp = 0], the expiry computed is not 0 but the current time
    plus 15 minutes, as for a token without [exp]; so a login answered
    with such a token, expired since 1970, stores it as good for 15 more
    minutes, and [getValidToken] then hands it out from the cache. *)
Theorem zero_exp_taken_for_missing (token header part signature : string)
    (w : World) (u : Upstream) :
  split "." token = [header; part; signature] ->
  decodePayload part = inr {| exp := Some 0 |} ->
  fst (fst (run (getTokenExpiration decodePayload token) w u)) =
    Returned (clock w + 15 * 60 * 1000) /\
  (forall t txt data rest,
     resToken data = token ->
     logins u = (t, Responded 200 txt data) :: rest ->
     validTime (clock w + t + 15 * 60 * 1000) ->
     exists w' u',
       run (authenticate decodePayload) w u = (Returned token, w', u') /\
       tokenPayload w' =
         Some {| TokenPayload.token := token;
                 TokenPayload.refreshToken := resRefreshToken data;
                 TokenPayload.expiresAt := clock w + t + 15 * 60 * 1000 |} /\
       run (getValidToken decodePayload) w' u' = (Returned token, w', u')).
Proof.
  intros Hs Hd.
  assert (He : forall now, expiryAt decodePayload token now = now + 15 * 60 * 1000).
  { intros now; unfold expiryAt, decodeExpiration; rewrite Hs, Hd; reflexivity. }
  split.
  - rewrite getTokenExpiration_value, He; reflexivity.
  - intros t txt data rest Htok Hl Hv.
    rewrite <- (He (clock w + t)), <- Htok in Hv.
    destruct (@authenticate_ok decodePayload w u t txt data rest Hl Hv)
      as (w1 & Hrun & Htp & Hc & _).
    assert (Htp' : tokenPayload (setupAutoRefresh w1) =
                   Some {| TokenPayload.token := token;
                           TokenPayload.refreshToken := resRefreshToken data;
                           TokenPayload.expiresAt := clock w + t + 15 * 60 * 1000 |}).
    { rewrite setupAutoRefresh_tokenPayload, Htp; unfold credential.
      rewrite Htok, He; reflexivity. }
    eexists; eexists; split; [rewrite Hrun, Htok; reflexivity | ].
    split; [exact Htp' | ].
    rewrite getValidToken_cases, Htp'; cbn [TokenPayload.expiresAt TokenPayload.token].
    rewrite setupAutoRefresh_clock, Hc.
    destruct (Z.ltb_spec (clock w + t + 15 * 60 * 1000 - (clock w + t)) 60000);
      [lia | reflexivity].
Qed.


End AuthClaims.

Lemma tokenZero_login_valid : validTime (clock blankProcess + 40 + 15 * 60 * 1000).
Proof. vm_compute; discriminate. Qed.

(** A login answered with the token whose payload is the JSON text
    with [exp] 0: it is stored with an expiry 15 minutes ahead. *)
Lemma zero_exp_taken_for_missing_witness :
  fst (fst (run (getTokenExpiration decodeSample tokenZero) blankProcess
                (upstream [ok200 tokenZero "r1"] [] []))) =
    Returned (clock blankProcess + 15 * 60 * 1000) /\
  exists w' u',
    run (authenticate decodeSample) blankProcess (upstream [ok200 tokenZero "r1"] [] []) =
      (Returned tokenZero, w', u') /\
    tokenPayload w' =
      Some {| TokenPayload.token := tokenZero;
              TokenPayload.refreshToken := "r1";
              TokenPayload.expiresAt := clock blankProcess + 40 + 15 * 60 * 1000 |} /\
    run (getValidToken decodeSample) w' u' = (Returned tokenZero, w', u').
Proof.
  exact (let H := @zero_exp_taken_for_missing decodeSample tokenZero
                    "h" "eyJleHAiOjB9" "s" blankProcess
                    (upstream [ok200 tokenZero "r1"] [] []) eq_refl eq_refl in
         conj (proj1 H)
              (proj2 H 40 "OK" {| resToken := tokenZero; resRefreshToken := "r1" |} []
                     eq_refl eq_refl tokenZero_login_valid)).
Defined.


(** C3, counterexample: a refresh token is held and the refresh endpoint
    answers 500; [refreshToken] does not fail, it logs in again and
    returns the token of the login. *)
Theorem refreshToken_500_reauthenticates :
  let '(result, w', _) :=
    run (refreshToken decodeSample) freshProcess
        (upstream [ok200 tokenDay "refresh-1"] [refused 500 "Internal Server Error"] []) in
  result = Returned tokenDay /\
  wire w' = [PostRefresh "https://tb.example/api/auth/refresh" "refresh-0";
             PostLogin "https://tb.example/api/auth/login" "tenant@example.org" "s3cret"].
Proof. vm_compute; split; reflexivity. Qed.

(* ================================================================== *)
(** ** The renewal schedule and concurrent callers *)





Section ScheduleClaims.

Variable decodePayload : string -> Exn + Claims.


(** C4 (amended): there is no in-flight-request guard.  Two [getValidToken]
    callers that observe the expiring credential in the same turn of the
    event loop, the second while the first is suspended on its refresh call,
    each put a refresh call on the wire: two upstream calls, not one. *)
Theorem getValidToken_no_single_flight (w : World) (tp : TokenPayload) :
  tokenPayload w = Some tp ->
  truthyStr (TokenPayload.refreshToken tp) = true ->
  TokenPayload.expiresAt tp - clock w < 60000 ->
  let c := PostRefresh (baseUrl w ++ "/api/auth/refresh") (TokenPayload.refreshToken tp) in
  exists (k1 k2 : ReplyOf c -> Async string) (w1 w2 : World),
    advance (getValidToken decodePayload) w = (Suspended c k1, w1) /\
    advance (getValidToken decodePayload) w1 = (Suspended c k2, w2) /\
    wire w2 = (wire w ++ [c; c])%list /\
    count isRefresh [c; c] = 2%nat.
Proof.
  intros Htp Hrt Hexp; apply Z.ltb_lt in Hexp.
  unfold getValidToken, refreshToken.
  ev.
  do 4 eexists. split; [reflexivity | ].
  ev. split; [reflexivity | ].
  simpl. rewrite <- app_assoc. split; reflexivity.
Qed.
End ScheduleClaims.

(** C4, counterexample: two callers, one expiring credential, two upstream
    refresh calls. *)
Lemma two_callers_two_refreshes :
  let '(_, w1) := advance (getValidToken decodeSample) expiringProcess in
  let '(_, w2) := advance (getValidToken decodeSample) w1 in
  tokenPayload w1 = Some expiringCredential /\
  wire w2 = [PostRefresh "https://tb.example/api/auth/refresh" "refresh-0";
             PostRefresh "https://tb.example/api/auth/refresh" "refresh-0"] /\
  ~ (count isRefresh (wire w2) <= 1)%nat.
Proof. vm_compute. repeat split. lia. Qed.

Lemma getValidToken_no_single_flight_witness :
  exists (k1 k2 : AxiosReply AuthResponse -> Async string) (w1 w2 : World),
    advance (getValidToken decodeSample) expiringProcess =
      (Suspended (PostRefresh "https://tb.example/api/auth/refresh" "refresh-0") k1, w1) /\
    advance (getValidToken decodeSample) w1 =
      (Suspended (PostRefresh "https://tb.example/api/auth/refresh" "refresh-0") k2, w2) /\
    wire w2 = [PostRefresh "https://tb.example/api/auth/refresh" "refresh-0";
               PostRefresh "https://tb.example/api/auth/refresh" "refresh-0"] /\
    count isRefresh [PostRefresh "https://tb.example/api/auth/refresh" "refresh-0";
                     PostRefresh "https://tb.example/api/auth/refresh" "refresh-0"] = 2%nat.
Proof.
  apply (@getValidToken_no_single_flight decodeSample expiringProcess expiringCredential).
  - reflexivity.
  - reflexivity.
  - vm_compute; reflexivity.
Defined.





(* ================================================================== *)
(** ** The retry loop *)

(** *** Stepping lemmas: one equation of [run] per kind of statement *)

Lemma run_log (A : Type) (who : string) (l : Level) (msg : string) (k : unit -> Async A)
    (w : World) (u : Upstream) :
  run (bind (log who l msg) k) w u =
  run (k tt) (addLog {| logger := who; level := l; text := msg |} w) u.
Proof. reflexivity. Qed.

Lemma run_read (A X : Type) (f : World -> X) (k : X -> Async A) (w : World) (u : Upstream) :
  run (bind (read f) k) w u = run (k (f w)) w u.
Proof. reflexivity. Qed.

Lemma run_modify (A : Type) (f : World -> World) (k : unit -> Async A)
    (w : World) (u : Upstream) :
  run (bind (modify f) k) w u = run (k tt) (f w) u.
Proof. reflexivity. Qed.

Lemma run_now (A : Type) (k : Z -> Async A) (w : World) (u : Upstream) :
  run (bind now k) w u = run (k (clock w)) w u.
Proof. reflexivity. Qed.

Lemma run_await (A : Type) (c : Call) (k : ReplyOf c -> Async A) (w : World) (u : Upstream) :
  run (bind (await c) k) w u =
  match serve c u with
  | Some (elapsed, r, u') => run (k r) (tick elapsed (sent c w)) u'
  | None => (Pending, sent c w, u)
  end.
Proof. reflexivity. Qed.

Lemma run_ret (A : Type) (a : A) (w : World) (u : Upstream) :
  run (Ret a) w u = (Returned a, w, u).
Proof. reflexivity. Qed.

Lemma run_throw (A : Type) (e : Exn) (w : World) (u : Upstream) :
  run (Throw e : Async A) w u = (Thrown e, w, u).
Proof. reflexivity. Qed.

(** One statement of the task, by rewriting. *)
Ltac step :=
  first [ rewrite run_log | rewrite run_read | rewrite run_modify | rewrite run_now
        | rewrite run_await | rewrite run_ret | rewrite run_throw
        | rewrite run_bind | rewrite run_tryCatch ];
  cbv beta iota zeta.

Section RetryLoop.

Variable decodePayload : string -> Exn + Claims.

Lemma getValidToken_fresh (w : World) (u : Upstream) (tp : TokenPayload) :
  tokenPayload w = Some tp ->
  60000 <= TokenPayload.expiresAt tp - clock w ->
  run (getValidToken decodePayload) w u = (Returned (TokenPayload.token tp), w, u).
Proof.
  intros Htp Hf; rewrite getValidToken_cases, Htp.
  destruct (Z.ltb_spec (TokenPayload.expiresAt tp - clock w) 60000); [lia | reflexivity].
Qed.


Ltac settle Htp Hfresh Hq :=
  cbn [retryLoop];
  unfold getAuthenticatedClient;
  repeat step;
  (erewrite getValidToken_fresh; [ | exact Htp | exact Hfresh ]); cbv beta iota zeta;
  repeat step;
  cbv [serve]; rewrite Hq; cbv beta iota zeta;
  repeat step.

(** An attempt answered 200 returns the data. *)
Lemma attempt_200 (q : Query) (n : nat) (w : World) (u : Upstream) (tp : TokenPayload)
    (tq : Z) (txt : string) (d : Json) (qs : list (Z * AxiosReply Json)) :
  tokenPayload w = Some tp ->
  60000 <= TokenPayload.expiresAt tp - clock w ->
  queries u = (tq, Responded 200 txt d) :: qs ->
  exists w',
    run (retryLoop decodePayload q n) w u = (Returned d, w', consumed u qs (refreshes u)) /\
    wire w' = (wire w ++ [queryCall w tp q])%list.
Proof.
  intros Htp Hfresh Hq.
  destruct n as [ | n]; settle Htp Hfresh Hq;
    change (200 =? 200) with true; cbv beta iota zeta; repeat step;
    eexists; (split; [reflexivity | reflexivity]).
Qed.


(** An attempt answered 404 or 400 throws, whatever the retries left. *)
Lemma attempt_404 (q : Query) (n : nat) (w : World) (u : Upstream) (tp : TokenPayload)
    (tq : Z) (txt : string) (d : Json) (qs : list (Z * AxiosReply Json)) :
  tokenPayload w = Some tp ->
  60000 <= TokenPayload.expiresAt tp - clock w ->
  queries u = (tq, Responded 404 txt d) :: qs ->
  exists w',
    run (retryLoop decodePayload q n) w u =
      (Thrown (Error (notFound q)), w', consumed u qs (refreshes u)) /\
    wire w' = (wire w ++ [queryCall w tp q])%list.
Proof.
  intros Htp Hfresh Hq.
  destruct n as [ | n]; settle Htp Hfresh Hq;
    change (404 =? 200) with false; change (404 =? 401) with false;
    change (404 =? 404) with true; cbv beta iota zeta; repeat step;
    cbv [isAxiosError]; cbv beta iota zeta; repeat step;
    eexists; (split; [reflexivity | reflexivity]).
Qed.

Lemma attempt_400 (q : Query) (n : nat) (w : World) (u : Upstream) (tp : TokenPayload)
    (tq : Z) (txt : string) (d : Json) (qs : list (Z * AxiosReply Json)) :
  tokenPayload w = Some tp ->
  60000 <= TokenPayload.expiresAt tp - clock w ->
  queries u = (tq, Responded 400 txt d) :: qs ->
  exists w',
    run (retryLoop decodePayload q n) w u =
      (Thrown (Error (badRequest d)), w', consumed u qs (refreshes u)) /\
    wire w' = (wire w ++ [queryCall w tp q])%list.
Proof.
  intros Htp Hfresh Hq.
  destruct n as [ | n]; settle Htp Hfresh Hq;
    change (400 =? 200) with false; change (400 =? 401) with false;
    change (400 =? 404) with false; change (400 =? 400) with true;
    cbv beta iota zeta; repeat step;
    cbv [isAxiosError]; cbv beta iota zeta; repeat step;
    eexists; (split; [reflexivity | reflexivity]).
Qed.


End RetryLoop.

(** ** The self-heal loop of [getTimeseries] *)

Section SelfHeal.
Variable decodePayload : string -> Exn + Claims.


End SelfHeal.

(** The code waits before it refreshes: a 401 followed by a 200 shows the
    query, the 1000 ms timer, the refresh call and the second query on the
    wire, in this order, and the caller gets the data of the 200. *)
Lemma backoff_precedes_refresh :
  let w' := snd (fst (run (getTimeseries decodeSample sampleQuery) freshProcess
                          (upstream [] [ok200 tokenDay "refresh-1"]
                                    [unauthorized401; answered 200 "OK" sampleData]))) in
  fst (fst (run (getTimeseries decodeSample sampleQuery) freshProcess
                (upstream [] [ok200 tokenDay "refresh-1"]
                          [unauthorized401; answered 200 "OK" sampleData])))
    = Returned sampleData /\
  wire w' = [sampleQueryCall tokenDay;
             SetTimeout 1000;
             PostRefresh "https://tb.example/api/auth/refresh" "refresh-0";
             sampleQueryCall tokenDay] /\
  wire w' <> [sampleQueryCall tokenDay;
              PostRefresh "https://tb.example/api/auth/refresh" "refresh-0";
              SetTimeout 1000;
              sampleQueryCall tokenDay].
Proof. vm_compute. repeat split. discriminate. Qed.


Lemma freshCredential_fresh :
  60000 <= TokenPayload.expiresAt freshCredential - clock freshProcess.
Proof. vm_compute; discriminate. Qed.



(* ================================================================== *)
(** ** The device cache *)

Section Devices.
Import DeviceService.

(** A fresh cache is returned without any call. *)
Lemma getDevices_cached (w : World) (u : Upstream) (devices : list Json) :
  devicesCache w = Some devices -> isCacheFresh w = true ->
  run (getDevices false) w u =
    (Returned devices,
     addLog {| logger := deviceLogger; level := Debug; text := "Returning cached devices" |} w,
     u).
Proof.
  intros Hc Hf. unfold getDevices.
  rewrite run_tryCatch. repeat step. rewrite Hc, Hf. cbv beta iota zeta. repeat step.
  reflexivity.
Qed.

(** The directory does not answer: the call stays pending. *)
Lemma getDevices_pending (forceRefresh : bool) (w : World) (u : Upstream) :
  (if forceRefresh then None else if isCacheFresh w then devicesCache w else None) = None ->
  directory u = [] ->
  exists w',
    run (getDevices forceRefresh) w u = (Pending, w', u) /\
    devicesCache w' = devicesCache w.
Proof.
  intros Hc Hd. unfold getDevices.
  rewrite run_tryCatch. repeat step. rewrite Hc. cbv beta iota zeta. repeat step.
  cbv [serve]. rewrite Hd. cbv beta iota zeta.
  eexists; split; reflexivity.
Qed.

(** The call when the cache is not used and the directory answers [r]: a
    good answer is stored and returned; on any other the cached list is
    returned if there is one, and the error is thrown if there is none. *)
Lemma getDevices_fetch (forceRefresh : bool) (w : World) (u : Upstream)
    (t : Z) (r : AxiosReply Json) (rest : list (Z * AxiosReply Json)) :
  (if forceRefresh then None else if isCacheFresh w then devicesCache w else None) = None ->
  directory u = (t, r) :: rest ->
  exists w1,
    devicesCache w1 = devicesCache w /\ cacheTimestamp w1 = cacheTimestamp w /\
    wire w1 = (wire w ++ [GetDevices (endpoint w)])%list /\
    run (getDevices forceRefresh) w u =
      if fetchFails r then
        match devicesCache w with
        | Some devices =>
            (Returned devices,
             addLog {| logger := deviceLogger; level := Warn;
                       text := "Using stale cached devices due to fetch error" |}
               (addLog {| logger := deviceLogger; level := Err;
                          text := "Failed to fetch devices: " ++ message (fetchError r) |}
                       w1),
             afterDirectory u rest)
        | None =>
            (Thrown (Error ("Failed to fetch devices from " ++ endpoint w ++ ": " ++
                            message (fetchError r))),
             addLog {| logger := deviceLogger; level := Err;
                       text := "Failed to fetch devices: " ++ message (fetchError r) |} w1,
             afterDirectory u rest)
        end
      else
        match r with
        | Responded _ _ payload =>
            match unwrap payload with
            | Some devices =>
                (Returned devices,
                 addLog {| logger := deviceLogger; level := Info;
                           text := "Successfully fetched " ++
                                   numToString (Z.of_nat (List.length devices)) ++
                                   " devices" |}
                   (setDevicesCache (Some devices) (clock w + t) w1),
                 afterDirectory u rest)
            | None => (Pending, w, u)
            end
        | Failed _ => (Pending, w, u)
        end.
Proof.
  intros Hc Hd.
  exists (tick t (sent (GetDevices (endpoint w))
            (addLog {| logger := deviceLogger; level := Info;
                       text := "Fetching devices from API" |} w))).
  split; [reflexivity | split; [reflexivity | split; [reflexivity | ]]].
  unfold getDevices.
  rewrite run_tryCatch. repeat step. rewrite Hc. cbv beta iota zeta. repeat step.
  cbv [serve]. rewrite Hd. cbv beta iota zeta.
  destruct r as [status statusText payload | m]; cbv [fetchFails fetchError].
  - destruct (negb ((200 <=? status) && (status <? 300))); cbv [orb].
    + repeat step.
      change (devicesCache _) with (devicesCache w) at 1.
      destruct (devicesCache w); repeat step; reflexivity.
    + destruct (unwrap payload); repeat step.
      * reflexivity.
      * change (devicesCache _) with (devicesCache w) at 1.
        destruct (devicesCache w); repeat step; reflexivity.
  - repeat step.
    change (devicesCache _) with (devicesCache w) at 1.
    destruct (devicesCache w); repeat step; reflexivity.
Qed.

(** What one call can do to the cache: with a list cached it does not
    throw and keeps a list cached; a call that returns leaves a list
    cached; a call that throws had none. *)
Lemma getDevices_outcome (forceRefresh : bool) (w : World) (u : Upstream) :
  forall o w' u',
    run (getDevices forceRefresh) w u = (o, w', u') ->
    (devicesCache w <> None -> notThrown o /\ devicesCache w' <> None) /\
    match o with
    | Returned _ => devicesCache w' <> None
    | Thrown _ => devicesCache w = None
    | Pending => True
    end.
Proof.
  intros o w' u' Hrun.
  destruct (if forceRefresh then None else if isCacheFresh w then devicesCache w else None)
    as [devices | ] eqn:Hc.
  - destruct forceRefresh; [discriminate | ].
    destruct (isCacheFresh w) eqn:Hf; [ | discriminate].
    rewrite (@getDevices_cached w u devices Hc Hf) in Hrun.
    injection Hrun as <- <- <-.
    change (devicesCache (addLog _ w)) with (devicesCache w).
    rewrite Hc; repeat split; discriminate.
  - destruct (directory u) as [ | [t r] rest] eqn:Hd.
    + destruct (@getDevices_pending forceRefresh w u Hc Hd) as (w1 & Hp & Hc1).
      rewrite Hp in Hrun; injection Hrun as <- <- <-.
      rewrite Hc1; repeat split; auto.
    + destruct (@getDevices_fetch forceRefresh w u t r rest Hc Hd) as (w1 & Hc1 & _ & _ & Hf).
      rewrite Hf in Hrun; clear Hf.
      destruct (fetchFails r).
      * destruct (devicesCache w) as [devices | ] eqn:Hw;
          injection Hrun as <- <- <-;
          change (devicesCache (addLog _ (addLog _ w1))) with (devicesCache w1);
          rewrite ?Hc1, ?Hw; repeat split; try discriminate; try contradiction; auto.
      * destruct r as [status statusText payload | m].
        -- destruct (unwrap payload) as [devices | ];
             injection Hrun as <- <- <-; repeat split; try discriminate; auto.
        -- injection Hrun as <- <- <-; repeat split; auto.
Qed.

Lemma poll_notThrown (flags : list bool) :
  forall (w : World) (u : Upstream),
    devicesCache w <> None -> Forall notThrown (poll flags w u).
Proof.
  induction flags as [ | forceRefresh flags IH]; intros w u Hw; cbn [poll].
  - constructor.
  - destruct (run (getDevices forceRefresh) w u) as [[o w'] u'] eqn:Hrun.
    destruct (@getDevices_outcome forceRefresh w u o w' u' Hrun) as [H _].
    destruct (H Hw) as [Ho Hw'].
    constructor; [exact Ho | apply IH; exact Hw'].
Qed.

Lemma poll_noFailureAfterSuccess (flags : list bool) :
  forall (w : World) (u : Upstream), noFailureAfterSuccess (poll flags w u).
Proof.
  induction flags as [ | forceRefresh flags IH]; intros w u; cbn [poll].
  - exact I.
  - destruct (run (getDevices forceRefresh) w u) as [[o w'] u'] eqn:Hrun.
    destruct (@getDevices_outcome forceRefresh w u o w' u' Hrun) as [_ H].
    destruct o as [devices | e | ]; cbn [noFailureAfterSuccess].
    + apply poll_notThrown; exact H.
    + apply IH.
    + apply IH.
Qed.

(** C10: with a device list cached, a [getDevices] call whose fetch fails
    (transport error, status outside 2xx, or a payload that holds no
    array) returns the cached list and leaves the cache as it is; with
    a list cached no call throws; a call throws only when no list is
    cached; hence, in any sequence of calls, no failure follows the first
    call that returned. *)
Theorem getDevices_stale_cache (forceRefresh : bool) (w : World) (u : Upstream)
    (devices : list Json) :
  devicesCache w = Some devices ->
  (forall t r rest,
     forceRefresh = true \/ isCacheFresh w = false ->
     directory u = (t, r) :: rest ->
     fetchFails r = true ->
     exists w',
       run (getDevices forceRefresh) w u = (Returned devices, w', afterDirectory u rest) /\
       devicesCache w' = Some devices /\
       cacheTimestamp w' = cacheTimestamp w /\
       wire w' = (wire w ++ [GetDevices (endpoint w)])%list) /\
  notThrown (fst (fst (run (getDevices forceRefresh) w u))) /\
  (forall force0 w0 u0 e,
     fst (fst (run (getDevices force0) w0 u0)) = Thrown e -> devicesCache w0 = None) /\
  (forall flags w0 u0, noFailureAfterSuccess (poll flags w0 u0)).
Proof.
  intros Hw.
  split; [ | split; [ | split]].
  - intros t r rest Hforce Hd Hfail.
    assert (Hc : (if forceRefresh then None
                  else if isCacheFresh w then devicesCache w else None) = None).
    { destruct Hforce as [-> | ->]; [reflexivity | destruct forceRefresh; reflexivity]. }
    destruct (@getDevices_fetch forceRefresh w u t r rest Hc Hd) as (w1 & Hc1 & Ht1 & Hw1 & Hrun).
    rewrite Hfail, Hw in Hrun.
    eexists; split; [exact Hrun | ].
    split; [ | split].
    + change (devicesCache w1 = Some devices); rewrite Hc1; exact Hw.
    + exact Ht1.
    + exact Hw1.
  - destruct (run (getDevices forceRefresh) w u) as [[o w'] u'] eqn:Hrun.
    destruct (@getDevices_outcome forceRefresh w u o w' u' Hrun) as [H _].
    apply H; rewrite Hw; discriminate.
  - intros force0 w0 u0 e He.
    destruct (run (getDevices force0) w0 u0) as [[o w'] u'] eqn:Hrun.
    destruct (@getDevices_outcome force0 w0 u0 o w' u' Hrun) as [_ H].
    simpl in He; subst o; exact H.
  - intros flags w0 u0; apply poll_noFailureAfterSuccess.
Qed.
End Devices.

(** The stale cache of [staleProcess] comes back when the directory is
    unreachable. *)
Lemma getDevices_stale_cache_witness :
  devicesCache staleProcess = Some [sampleDevice] /\
  fst (fst (run (DeviceService.getDevices false) staleProcess
                (withDirectory [(30, Failed "connect ECONNREFUSED 127.0.0.1:4000")]
                               (upstream [] [] [])))) = Returned [sampleDevice].
Proof.
  split; [reflexivity | ].
  destruct (proj1 (@getDevices_stale_cache false staleProcess
                     (withDirectory [(30, Failed "connect ECONNREFUSED 127.0.0.1:4000")]
                                    (upstream [] [] []))
                     [sampleDevice] eq_refl)
                  30 (Failed "connect ECONNREFUSED 127.0.0.1:4000") []
                  (or_intror eq_refl) eq_refl eq_refl) as (w' & Hrun & _).
  rewrite Hrun; reflexivity.
Defined.

(* ================================================================== *)
(** ** What the log and the responses disclose *)



Lemma includes_skip (needle before hay : string) :
  includes needle hay = true -> includes needle (before ++ hay) = true.
Proof.
  intros H; induction before as [ | c before IH]; [exact H | ].
  change (String c before ++ hay) with (String c (before ++ hay)).
  unfold includes; fold includes; rewrite IH; apply orb_true_r.
Qed.

Lemma includes_self (s : string) : includes s s = true.
Proof.
  assert (H : prefix s s = true).
  { induction s as [ | c s IH]; simpl; [reflexivity | ].
    destruct (ascii_dec c c) as [_ | Hc]; [exact IH | contradiction]. }
  destruct s; unfold includes; fold includes; rewrite H; reflexivity.
Qed.

(** C9 (code bug): constructing the auth service prints the configured
    password: whatever the base URL, the user name, the password and the
    state, the constructor appends three console lines to the log, the
    second of which is the text THINGSBOARD_PASSWORD followed by the
    password in plaintext; this happens before the check that throws on
    missing credentials. *)
Theorem constructor_logs_password (baseUrl0 username0 password0 : string)
    (w : World) (u : Upstream) :
  exists w',
    run (newThingsboardAuthService baseUrl0 username0 password0) w u =
      (if negb (truthyStr username0) || negb (truthyStr password0)
       then Thrown (Error "ThingsBoard credentials not provided in environment variables")
       else Returned tt, w', u) /\
    password w' = password0 /\
    logs w' =
      (logs w ++
       [{| logger := "console"; level := Info;
           text := "THINGSBOARD_USERNAME: " ++ username0 |};
        {| logger := "console"; level := Info;
           text := "THINGSBOARD_PASSWORD: " ++ password0 |};
        {| logger := "console"; level := Info;
           text := "THINGSBOARD_BASE_URL: " ++ baseUrl0 |}])%list /\
    existsb (discloses password0) (logs w') = true.
Proof.
  unfold newThingsboardAuthService.
  repeat step.
  eexists; split; [ | split; [ | split]].
  - destruct (negb (truthyStr username0) || negb (truthyStr password0)); reflexivity.
  - reflexivity.
  - cbn [logs addLog setCredentials]; rewrite <- !app_assoc; reflexivity.
  - cbn [logs addLog setCredentials].
    rewrite !existsb_app.
    cbn [existsb]; unfold discloses; cbn [text].
    rewrite (@includes_skip password0 "THINGSBOARD_PASSWORD: " password0
               (includes_self password0)).
    destruct (existsb _ (logs w)), (includes password0 ("THINGSBOARD_USERNAME: " ++ username0)),
      (includes password0 ("THINGSBOARD_BASE_URL: " ++ baseUrl0)); reflexivity.
Qed.

(* ================================================================== *)
(** ** The telemetry routes *)

Lemma parseInt_truthy (s : string) (z : Z) : parseInt s = Int z -> truthyStr s = true.
Proof. destruct s; [discriminate | reflexivity]. Qed.

Lemma notPositive_negative (z : Z) : z < 0 -> notPositive (Some (Int z)) = true.
Proof.
  intros Hz; unfold notPositive, truthyNum, isNaN, ltOne.
  destruct (Z.eqb_spec z 0); [lia | ].
  destruct (Z.ltb_spec z 1); [reflexivity | lia].
Qed.

Lemma notPositive_false (n : Num) :
  notPositive (Some n) = false -> n = NaN \/ exists z, n = Int z /\ (z = 0 \/ 1 <= z).
Proof.
  destruct n as [ | z]; [auto | ].
  unfold notPositive, truthyNum, isNaN, ltOne; intros H; right; exists z; split; auto.
  destruct (Z.eqb_spec z 0); [auto | ].
  destruct (Z.ltb_spec z 1); [discriminate | auto].
Qed.

(** A negative interval is refused, by the check on the interval unless
    an earlier check refuses the query first. *)
Lemma parseQuery_negative_interval (r : RawQuery) (s : string) (z : Z) :
  rawInterval r = Some s -> parseInt s = Int z -> z < 0 ->
  exists reason,
    parseQuery r = inl reason /\
    In reason (earlierReasons ++ ["Interval must be a positive number"]).
Proof.
  intros Hr Hs Hz; unfold parseQuery.
  destruct (parseInt (str (rawStartTs r))) as [ | a]; [eexists; split; [reflexivity | simpl; auto] | ].
  destruct (parseInt (str (rawEndTs r))) as [ | b]; [eexists; split; [reflexivity | simpl; auto] | ].
  destruct (a >=? b); [eexists; split; [reflexivity | simpl; auto] | ].
  cbv zeta.
  destruct (_ =? 0)%nat; [eexists; split; [reflexivity | simpl; auto] | ].
  unfold whenTruthy at 1; rewrite Hr; cbn [truthy str].
  rewrite (@parseInt_truthy s z Hs), Hs, (@notPositive_negative z Hz).
  eexists; split; [reflexivity | simpl; auto].
Qed.

Lemma parseQuery_negative_limit (r : RawQuery) (s : string) (z : Z) :
  rawLimit r = Some s -> parseInt s = Int z -> z < 0 ->
  exists reason,
    parseQuery r = inl reason /\
    In reason (earlierReasons ++ laterReasons ++ ["Limit must be a positive number"]).
Proof.
  intros Hr Hs Hz; unfold parseQuery.
  destruct (parseInt (str (rawStartTs r))) as [ | a]; [eexists; split; [reflexivity | simpl; auto] | ].
  destruct (parseInt (str (rawEndTs r))) as [ | b]; [eexists; split; [reflexivity | simpl; auto] | ].
  destruct (a >=? b); [eexists; split; [reflexivity | simpl; auto] | ].
  cbv zeta.
  destruct (_ =? 0)%nat; [eexists; split; [reflexivity | simpl; auto] | ].
  destruct (notPositive (whenTruthy (rawInterval r) parseInt));
    [eexists; split; [reflexivity | simpl; auto] | ].
  destruct (truthy (rawAgg r) && _);
    [eexists; split; [reflexivity | simpl; auto 10] | ].
  destruct (truthy (rawOrderBy r) && _);
    [eexists; split; [reflexivity | simpl; auto 10] | ].
  unfold whenTruthy at 1; rewrite Hr; cbn [truthy str].
  rewrite (@parseInt_truthy s z Hs), Hs, (@notPositive_negative z Hz).
  eexists; split; [reflexivity | simpl; auto 10].
Qed.

(** What the parser hands on when it accepts. *)
Lemma parseQuery_accepted (r : RawQuery) (p : Parsed) :
  parseQuery r = inr p ->
  intervalValue p = whenTruthy (rawInterval r) parseInt /\
  notPositive (intervalValue p) = false /\
  limitValue p = whenTruthy (rawLimit r) parseInt /\
  notPositive (limitValue p) = false /\
  aggValue p = whenTruthy (rawAgg r) (fun s => s) /\
  (truthy (rawAgg r) = true -> memStr (toUpperCase (str (rawAgg r))) validAgg = true) /\
  orderByValue p = whenTruthy (rawOrderBy r) (fun s => s) /\
  (truthy (rawOrderBy r) = true ->
   memStr (toUpperCase (str (rawOrderBy r))) validOrder = true) /\
  useStrictDataTypesValue p =
    (if truthy (rawUseStrictDataTypes r) &&
        String.eqb (toLowerCase (str (rawUseStrictDataTypes r))) "true"
     then Some true else None).
Proof.
  unfold parseQuery.
  destruct (parseInt (str (rawStartTs r))) as [ | a]; [discriminate | ].
  destruct (parseInt (str (rawEndTs r))) as [ | b]; [discriminate | ].
  destruct (a >=? b); [discriminate | ].
  cbv zeta.
  destruct (_ =? 0)%nat; [discriminate | ].
  destruct (notPositive (whenTruthy (rawInterval r) parseInt)) eqn:Hi; [discriminate | ].
  destruct (truthy (rawAgg r) && _) eqn:Ha; [discriminate | ].
  destruct (truthy (rawOrderBy r) && _) eqn:Ho; [discriminate | ].
  destruct (notPositive (whenTruthy (rawLimit r) parseInt)) eqn:Hl; [discriminate | ].
  intros H; injection H as <-; cbn [intervalValue limitValue aggValue orderByValue
                                      useStrictDataTypesValue].
  repeat (split; [first [reflexivity | assumption] | ]).
  split; [ | split; [reflexivity | split; [ | reflexivity]]].
  - intros Ht; rewrite Ht in Ha; cbn [andb] in Ha.
    apply negb_false_iff in Ha; exact Ha.
  - intros Ht; rewrite Ht in Ho; cbn [andb] in Ho.
    apply negb_false_iff in Ho; exact Ho.
Qed.


Section Routes.
Import DeviceService.

Variable decodePayload : string -> Exn + Claims.

(** The legacy handler, in terms of the parser and of the run of the
    telemetry service. *)
Lemma legacyTimeseries_run (r : RawQuery) (w : World) (u : Upstream) :
  run (legacyTimeseries decodePayload r) w u =
  if negb (presentLegacy r)
  then (Returned (failure 400
          "Missing required parameters: entityType, entityId, keys, startTs, endTs"), w, u)
  else
    match parseQuery r with
    | inl reason => (Returned (failure 400 reason), w, u)
    | inr p =>
        match run (getTimeseries decodePayload (legacyQuery r p))
                  (addLog {| logger := routerLogger; level := Info;
                             text := requestLine (str (rawEntityType r) ++ "/" ++
                                                  str (rawEntityId r)) r p |} w) u with
        | (Returned data, w', u') => (Returned (legacySuccess r p data), w', u')
        | (Thrown e, w', u') => (Returned (failure 502 (message e)), failed e w', u')
        | (Pending, w', u') => (Pending, w', u')
        end
    end.
Proof.
  unfold legacyTimeseries, presentLegacy, present, legacySuccess, legacyQuery, failed.
  rewrite run_tryCatch.
  destruct (truthy (rawEntityType r)), (truthy (rawEntityId r)), (truthy (rawKeys r)),
    (truthy (rawStartTs r)), (truthy (rawEndTs r)); cbn [negb orb andb];
    try (rewrite run_ret; reflexivity).
  destruct (parseQuery r) as [reason | p]; [rewrite run_ret; reflexivity | ].
  rewrite run_log, run_bind.
  destruct (run (getTimeseries decodePayload _) _ u) as [[[data | e | ] w'] u'].
  - rewrite run_ret; reflexivity.
  - rewrite run_log, run_ret; reflexivity.
  - reflexivity.
Qed.

(** The device handler, in terms of the device lookup, of the parser and
    of the run of the telemetry service. *)
Lemma deviceTimeseries_run (deviceUUID : string) (r : RawQuery) (w : World) (u : Upstream) :
  run (deviceTimeseries decodePayload deviceUUID r) w u =
  if negb (present r)
  then (Returned (failure 400 "Missing required parameters: keys, startTs, endTs"), w, u)
  else
    match run (validateDevice deviceUUID) w u with
    | (Returned device, w1, u1) =>
        let w2 := addLog {| logger := routerLogger; level := Info;
                            text := "Device found: " ++ displayName device deviceUUID |} w1 in
        match parseQuery r with
        | inl reason => (Returned (failure 400 reason), w2, u1)
        | inr p =>
            match run (getTimeseries decodePayload (toQuery "DEVICE" deviceUUID p))
                      (addLog {| logger := routerLogger; level := Info;
                                 text := requestLine
                                           ("device=" ++ displayName device deviceUUID) r p |}
                              w2) u1 with
            | (Returned data, w', u') =>
                (Returned (deviceSuccess deviceUUID device r p data), w', u')
            | (Thrown e, w', u') => (Returned (deviceFailure e), failed e w', u')
            | (Pending, w', u') => (Pending, w', u')
            end
        end
    | (Thrown e, w1, u1) => (Returned (deviceFailure e), failed e w1, u1)
    | (Pending, w1, u1) => (Pending, w1, u1)
    end.
Proof.
  unfold deviceTimeseries, present, deviceFailure, failed, deviceSuccess.
  rewrite run_tryCatch.
  destruct (truthy (rawKeys r)), (truthy (rawStartTs r)), (truthy (rawEndTs r));
    cbn [negb orb andb]; try (rewrite run_ret; reflexivity).
  rewrite run_bind.
  destruct (run (validateDevice deviceUUID) w u) as [[[device | e | ] w1] u1].
  - rewrite run_log. cbv zeta.
    destruct (parseQuery r) as [reason | p]; [rewrite run_ret; reflexivity | ].
    rewrite run_log, run_bind.
    destruct (run (getTimeseries decodePayload _) _ u1) as [[[data | e | ] w'] u'].
    + rewrite run_ret; reflexivity.
    + rewrite run_log.
      destruct (includes "not found" (message e)); rewrite run_ret; reflexivity.
    + reflexivity.
  - rewrite run_log.
    destruct (includes "not found" (message e)); rewrite run_ret; reflexivity.
  - reflexivity.
Qed.






Lemma getTimeseries_200 (q : Query) (w : World) (u : Upstream) (tp : TokenPayload)
    (tq : Z) (txt : string) (d : Json) (qs : list (Z * AxiosReply Json)) :
  tokenPayload w = Some tp ->
  60000 <= TokenPayload.expiresAt tp - clock w ->
  queries u = (tq, Responded 200 txt d) :: qs ->
  exists w',
    run (getTimeseries decodePayload q) w u =
      (Returned d, w', consumed u qs (refreshes u)) /\
    wire w' = (wire w ++ [queryCall w tp q])%list.
Proof.
  intros Htp Hfresh Hq; unfold getTimeseries, getTimeseriesWithRetry.
  exact (@attempt_200 decodePayload q (maxRetries - 0) w u tp tq txt d qs Htp Hfresh Hq).
Qed.


(** What the validation does: an interval or a limit that [parseInt]
    reads as a negative number is refused, by its own check unless an
    earlier check refuses the query first; a refused query is answered 400
    with the reason, by the legacy route with no call and no change of
    state, by the device route after the device lookup and with no further
    call.
    An accepted query carries the aggregation and the order as they were
    given (their upper-case forms are among the valid values), a
    strict-types flag that is [true] exactly when the raw flag in lower
    case is the text true and absent otherwise, and an interval and a
    limit that are not negative; on the legacy route, with a fresh
    credential, exactly this query goes out. *)
Theorem validation_and_dispatch (r : RawQuery) :
  (forall s z,
     rawInterval r = Some s -> parseInt s = Int z -> z < 0 ->
     exists reason,
       parseQuery r = inl reason /\
       In reason (earlierReasons ++ ["Interval must be a positive number"])) /\
  (forall s z,
     rawLimit r = Some s -> parseInt s = Int z -> z < 0 ->
     exists reason,
       parseQuery r = inl reason /\
       In reason (earlierReasons ++ laterReasons ++ ["Limit must be a positive number"])) /\
  (forall reason,
     parseQuery r = inl reason ->
     (forall w u,
        presentLegacy r = true ->
        run (legacyTimeseries decodePayload r) w u = (Returned (failure 400 reason), w, u)) /\
     (forall deviceUUID w u device w1 u1,
        present r = true ->
        run (validateDevice deviceUUID) w u = (Returned device, w1, u1) ->
        exists w',
          run (deviceTimeseries decodePayload deviceUUID r) w u =
            (Returned (failure 400 reason), w', u1) /\
          wire w' = wire w1)) /\
  (forall p,
     parseQuery r = inr p ->
     (forall a, aggValue p = Some a ->
                rawAgg r = Some a /\ memStr (toUpperCase a) validAgg = true) /\
     (forall o, orderByValue p = Some o ->
                rawOrderBy r = Some o /\ memStr (toUpperCase o) validOrder = true) /\
     (useStrictDataTypesValue p = Some true <->
      exists s, rawUseStrictDataTypes r = Some s /\ toLowerCase s = "true") /\
     useStrictDataTypesValue p <> Some false /\
     (forall z, intervalValue p = Some (Int z) -> 0 <= z) /\
     (forall z, limitValue p = Some (Int z) -> 0 <= z) /\
     (forall w u tp tq txt d qs,
        presentLegacy r = true ->
        tokenPayload w = Some tp ->
        60000 <= TokenPayload.expiresAt tp - clock w ->
        queries u = (tq, Responded 200 txt d) :: qs ->
        exists w',
          run (legacyTimeseries decodePayload r) w u =
            (Returned (legacySuccess r p d), w', consumed u qs (refreshes u)) /\
          wire w' = (wire w ++ [queryCall w tp (legacyQuery r p)])%list /\
          agg (legacyQuery r p) = aggValue p /\
          orderBy (legacyQuery r p) = orderByValue p /\
          useStrictDataTypes (legacyQuery r p) = useStrictDataTypesValue p)).
Proof.
  split; [exact (@parseQuery_negative_interval r) | ].
  split; [exact (@parseQuery_negative_limit r) | ].
  split.
  - intros reason Hp; split.
    + intros w u Hr; rewrite legacyTimeseries_run, Hr, Hp; reflexivity.
    + intros deviceUUID w u device w1 u1 Hr Hv.
      rewrite deviceTimeseries_run, Hr, Hv, Hp; cbn [negb]; cbv zeta.
      eexists; split; reflexivity.
  - intros p Hp.
    destruct (@parseQuery_accepted r p Hp)
      as (Hi & Hin & Hl & Hln & Ha & Hav & Ho & Hov & Hs).
    split; [ | split; [ | split; [ | split; [ | split; [ | split; [ | ]]]]]].
    + intros a Hagg; rewrite Ha in Hagg; unfold whenTruthy in Hagg.
      destruct (truthy (rawAgg r)) eqn:Ht; [ | discriminate].
      injection Hagg as <-.
      destruct (rawAgg r) as [s | ]; [ | discriminate].
      split; [reflexivity | exact (Hav eq_refl)].
    + intros o Hord; rewrite Ho in Hord; unfold whenTruthy in Hord.
      destruct (truthy (rawOrderBy r)) eqn:Ht; [ | discriminate].
      injection Hord as <-.
      destruct (rawOrderBy r) as [s | ]; [ | discriminate].
      split; [reflexivity | exact (Hov eq_refl)].
    + rewrite Hs; split.
      * destruct (rawUseStrictDataTypes r) as [s | ]; [ | discriminate].
        cbn [str truthy].
        destruct (truthyStr s); [ | discriminate].
        cbn [andb].
        destruct (String.eqb_spec (toLowerCase s) "true") as [E | E]; [ | discriminate].
        intros _; exists s; auto.
      * intros (s & Hraw & Hlow); rewrite Hraw; cbn [str truthy].
        rewrite Hlow.
        destruct s; [discriminate | reflexivity].
    + rewrite Hs; destruct (truthy _ && _); discriminate.
    + intros z Hz; rewrite Hz in Hin.
      destruct (@notPositive_false (Int z) Hin) as [E | (z' & E & Hz')]; [discriminate | ].
      injection E as ->; lia.
    + intros z Hz; rewrite Hz in Hln.
      destruct (@notPositive_false (Int z) Hln) as [E | (z' & E & Hz')]; [discriminate | ].
      injection E as ->; lia.
    + intros w u tp tq txt d qs Hr Htp Hfresh Hq.
      rewrite legacyTimeseries_run, Hr, Hp; cbn [negb].
      destruct (@getTimeseries_200 (legacyQuery r p)
                  (addLog {| logger := routerLogger; level := Info;
                             text := requestLine (str (rawEntityType r) ++ "/" ++
                                                  str (rawEntityId r)) r p |} w)
                  u tp tq txt d qs Htp Hfresh Hq) as (w' & Hrun & Hw).
      rewrite Hrun; exists w'; repeat split; exact Hw.
Qed.
End Routes.

(* ================================================================== *)
(** ** The routes on scripted upstreams *)

Lemma rawSample_parsed : parseQuery (rawSample None None) = inr parsedSample.
Proof. vm_compute; reflexivity. Qed.



(** On the sample query: the aggregation goes out as it was typed, an
    interval of 0 is not refused, and the device route calls the device
    directory before it refuses a negative interval. *)
Lemma lowercase_agg_dispatched :
  (let '(o, w', _) :=
     run (legacyTimeseries decodeSample (rawSample (Some "0") (Some "avg"))) freshProcess
         (upstream [] [] [answered 200 "OK" sampleData]) in
   (exists resp, o = Returned resp /\ status resp = 200) /\
   wire w' =
     [GetTimeseries "https://tb.example"
        "/api/plugins/telemetry/DEVICE/545ffcb0-ab9c-11f0-a05e-97f672464deb/values/timeseries"
        tokenDay
        [("keys", PStr "temperature,humidity");
         ("startTs", PStr "1705689600000");
         ("endTs", PStr "1705776000000");
         ("interval", PNum (Int 0));
         ("agg", PStr "avg")]]) /\
  (let '(o, w', _) :=
     run (deviceTimeseries decodeSample sampleUUID (rawSample (Some "-5") None)) staleProcess
         (withDirectory [(30, Responded 200 "OK" (JArr [sampleDevice]))]
                        (upstream [] [] [])) in
   o = Returned (failure 400 "Interval must be a positive number") /\
   wire w' = [GetDevices "http://localhost:4000/customer/devices"]).
Proof.
  vm_compute; split; [split; [eexists; split; reflexivity | reflexivity] | split; reflexivity].
Qed.

(** A negative interval is refused by the parser. *)
Lemma validation_and_dispatch_witness :
  exists reason,
    parseQuery (rawSample (Some "-5") None) = inl reason /\
    In reason (earlierReasons ++ ["Interval must be a positive number"]).
Proof.
  exact (proj1 (@validation_and_dispatch decodeSample (rawSample (Some "-5") None))
               "-5" (-5) eq_refl eq_refl eq_refl).
Defined.

(** The success response of the device route carries the access token
    of the device. *)
Lemma response_carries_device_token :
  exists fields device,
    fst (fst (run (deviceTimeseries decodeSample sampleUUID (rawSample None None))
                  cachedProcess
                  (upstream [] [] [answered 200 "OK" sampleData]))) =
      Returned {| status := 200; body := JObj fields |} /\
    assoc "device" fields = Some (JObj device) /\
    assoc "accessToken" device = Some (JStr "A1B2C3D4").
Proof. vm_compute; eexists; eexists; repeat split. Qed.

(* ================================================================== *)
(** ** Further properties of the auth service *)

Section AuthErrors.
Variable decodePayload : string -> Exn + Claims.

Lemma authenticate_refused (w : World) (u : Upstream) (t : Z)
    (reply : AxiosReply AuthResponse) (rest : list (Z * AxiosReply AuthResponse)) :
  logins u = (t, reply) :: rest ->
  rejected reply = true ->
  exists w',
    run (authenticate decodePayload) w u =
      (Thrown (loginError reply), w', answeredBy u rest (refreshes u) (queries u)) /\
    tokenPayload w' = tokenPayload w /\
    timers w' = timers w /\
    tokenRefreshInterval w' = tokenRefreshInterval w /\
    clock w' = clock w + t /\
    wire w' = (wire w ++ [loginCall w])%list /\
    logs w' =
      (logs w ++
       [{| logger := authLogger; level := Info;
           text := "Authenticating with ThingsBoard..." |};
        {| logger := authLogger; level := Err;
           text := "Authentication failed: " ++ message (loginError reply) |}])%list.
Proof.
  intros Hl Hr.
  unfold authenticate.
  rewrite run_tryCatch. repeat step.
  cbv [serve]. rewrite Hl. cbv beta iota zeta.
  destruct reply as [st txt data | m]; cbn [rejected loginError] in *.
  - rewrite Hr. repeat step.
    eexists; split; [reflexivity | ].
    cbn; rewrite <- app_assoc; auto 10.
  - repeat step.
    eexists; split; [reflexivity | ].
    cbn; rewrite <- app_assoc; auto 10.
Qed.

(** A refused login: [authenticate] throws the matching exception after
    its one login call and leaves the credential and the renewal timer as
    they were; the failure is logged once. *)
Theorem authenticate_rejected (w : World) (u : Upstream) (t : Z)
    (reply : AxiosReply AuthResponse) (rest : list (Z * AxiosReply AuthResponse)) :
  logins u = (t, reply) :: rest ->
  rejected reply = true ->
  exists w',
    run (authenticate decodePayload) w u =
      (Thrown (loginError reply), w', answeredBy u rest (refreshes u) (queries u)) /\
    tokenPayload w' = tokenPayload w /\
    timers w' = timers w /\
    tokenRefreshInterval w' = tokenRefreshInterval w /\
    clock w' = clock w + t /\
    wire w' = (wire w ++ [loginCall w])%list /\
    logs w' =
      (logs w ++
       [{| logger := authLogger; level := Info;
           text := "Authenticating with ThingsBoard..." |};
        {| logger := authLogger; level := Err;
           text := "Authentication failed: " ++ message (loginError reply) |}])%list.
Proof. exact (@authenticate_refused w u t reply rest). Qed.

(** A refresh that is not answered with 200 ends in a login: in the state
    in which that login starts, the credential is the old one and the one
    refresh call has gone out. *)
Lemma refreshToken_falls_back (w : World) (u : Upstream) (tp : TokenPayload) (t : Z)
    (reply : AxiosReply AuthResponse) (rest : list (Z * AxiosReply AuthResponse)) :
  tokenPayload w = Some tp ->
  truthyStr (TokenPayload.refreshToken tp) = true ->
  refreshes u = (t, reply) :: rest ->
  rejected reply = true ->
  exists w1,
    run (refreshToken decodePayload) w u =
      run (authenticate decodePayload) w1 (answeredBy u (logins u) rest (queries u)) /\
    tokenPayload w1 = tokenPayload w /\
    timers w1 = timers w /\
    tokenRefreshInterval w1 = tokenRefreshInterval w /\
    clock w1 = clock w + t /\
    baseUrl w1 = baseUrl w /\ username w1 = username w /\ password w1 = password w /\
    wire w1 = (wire w ++ [refreshCall w tp])%list.
Proof.
  intros Htp Hrt Hr Hn.
  unfold refreshToken.
  rewrite run_read, Htp; cbv beta iota zeta.
  rewrite Hrt; cbn [negb].
  rewrite run_bind, run_tryCatch. repeat step.
  cbv [serve]. rewrite Hr. cbv beta iota zeta.
  destruct reply as [st txt data | m]; cbn [rejected] in Hn.
  - destruct (st =? 401).
    + repeat step. eexists; split; [reflexivity | cbn; auto 10].
    + rewrite Hn. repeat step. eexists; split; [reflexivity | cbn; auto 10].
  - repeat step. eexists; split; [reflexivity | cbn; auto 10].
Qed.

(** Refreshing heals itself: whatever the refresh endpoint answers short
    of a 200 (a 401, any other status, a transport failure), a login that
    succeeds makes [refreshToken] return the login's token, which is then
    the stored credential; the refresh call and the login call go out, in
    this order. *)
Theorem refreshToken_self_heals (w : World) (u : Upstream) (tp : TokenPayload) (t tl : Z)
    (reply : AxiosReply AuthResponse) (txt : string) (data : AuthResponse)
    (rs ls : list (Z * AxiosReply AuthResponse)) :
  tokenPayload w = Some tp ->
  truthyStr (TokenPayload.refreshToken tp) = true ->
  refreshes u = (t, reply) :: rs ->
  rejected reply = true ->
  logins u = (tl, Responded 200 txt data) :: ls ->
  validTime (expiryAt decodePayload (resToken data) (clock w + t + tl)) ->
  exists w',
    run (refreshToken decodePayload) w u =
      (Returned (resToken data), w', answeredBy u ls rs (queries u)) /\
    tokenPayload w' = Some (credential decodePayload data (clock w + t + tl)) /\
    wire w' = (wire w ++ [refreshCall w tp; loginCall w])%list.
Proof.
  intros Htp Hrt Hr Hn Hl Hv.
  destruct (@refreshToken_falls_back w u tp t reply rs Htp Hrt Hr Hn)
    as (w1 & Hrun & _ & _ & _ & Hc & Hb & Hu & Hp & Hw).
  rewrite <- Hc in Hv.
  destruct (@authenticate_ok decodePayload w1 (answeredBy u (logins u) rs (queries u))
              tl txt data ls Hl Hv)
    as (w2 & Hrun2 & Htp2 & _ & _ & Hw2 & _).
  exists (setupAutoRefresh w2).
  split; [rewrite Hrun, Hrun2; reflexivity | ].
  rewrite setupAutoRefresh_tokenPayload, setupAutoRefresh_wire, Htp2, Hw2, Hw, Hc.
  unfold loginCall; rewrite Hb, Hu, Hp, <- app_assoc.
  split; reflexivity.
Qed.

(** The callback of the renewal timer never throws: a renewal that fails
    is logged.  When the refresh endpoint and the login endpoint both
    refuse, the callback returns and the last line of the log reports the
    login error. *)
Theorem autoRefresh_never_throws (w : World) (u : Upstream) :
  notThrown (fst (fst (run (autoRefresh decodePayload) w u))) /\
  (forall tp t tl reply lreply rs ls,
     tokenPayload w = Some tp ->
     truthyStr (TokenPayload.refreshToken tp) = true ->
     refreshes u = (t, reply) :: rs -> rejected reply = true ->
     logins u = (tl, lreply) :: ls -> rejected lreply = true ->
     exists w' before,
       run (autoRefresh decodePayload) w u =
         (Returned tt, w', answeredBy u ls rs (queries u)) /\
       tokenPayload w' = Some tp /\
       logs w' =
         (before ++
          [{| logger := authLogger; level := Err;
              text := "Auto-refresh failed: " ++ message (loginError lreply) |}])%list).
Proof.
  split.
  - unfold autoRefresh.
    rewrite run_tryCatch, run_bind.
    destruct (run (refreshToken decodePayload) w u) as [[[tok | e | ] w'] u'].
    + rewrite run_ret; exact I.
    + exact I.
    + exact I.
  - intros tp t tl reply lreply rs ls Htp Hrt Hr Hn Hl Hrej.
    destruct (@refreshToken_falls_back w u tp t reply rs Htp Hrt Hr Hn)
      as (w1 & Hrun & Htp1 & _).
    destruct (@authenticate_refused w1 (answeredBy u (logins u) rs (queries u))
                tl lreply ls Hl Hrej)
      as (w2 & Hrun2 & Htp2 & _).
    unfold autoRefresh.
    rewrite run_tryCatch, run_bind, Hrun, Hrun2.
    eexists; exists (logs w2); split; [reflexivity | ].
    split; [cbn; rewrite Htp2, Htp1; exact Htp | reflexivity].
Qed.

(** The status report and [getValidToken] agree: without a credential the
    report is not-authenticated; when [getValidToken] answers from the
    cache the report is valid with at least 60 seconds left; an expired
    report has no second left, and [getValidToken] then goes to the
    refresh; an expiry that [Date] cannot represent makes the report
    throw. *)
Theorem getTokenStatus_agrees (w : World) (u : Upstream) :
  (getTokenStatus w = inr NotAuthenticated <-> tokenPayload w = None) /\
  (forall tp,
     tokenPayload w = Some tp ->
     validTime (TokenPayload.expiresAt tp) ->
     60000 <= TokenPayload.expiresAt tp - clock w ->
     run (getValidToken decodePayload) w u = (Returned (TokenPayload.token tp), w, u) /\
     exists iso seconds,
       getTokenStatus w = inr (Reported "valid" iso seconds) /\ 60 <= seconds) /\
  (forall iso seconds,
     getTokenStatus w = inr (Reported "expired" iso seconds) ->
     seconds <= 0 /\
     run (getValidToken decodePayload) w u =
       run (refreshToken decodePayload)
           (addLog {| logger := authLogger; level := Info;
                      text := "Token expiring soon, refreshing..." |} w) u) /\
  (forall tp,
     tokenPayload w = Some tp ->
     ~ validTime (TokenPayload.expiresAt tp) ->
     getTokenStatus w = inl (RangeError "Invalid time value")).
Proof.
  unfold getTokenStatus.
  split; [ | split; [ | split]].
  - destruct (tokenPayload w) as [tp | ]; [ | split; reflexivity].
    split; [ | discriminate].
    destruct (DateTime.toISOString (TokenPayload.expiresAt tp)); discriminate.
  - intros tp Htp Hv Hf; rewrite Htp; cbv zeta.
    split; [exact (@getValidToken_fresh decodePayload w u tp Htp Hf) | ].
    destruct (toISOString_valid Hv) as [iso Hiso]; rewrite Hiso.
    destruct (Z.ltb_spec 0 (TokenPayload.expiresAt tp - clock w)); [ | lia].
    exists iso, ((TokenPayload.expiresAt tp - clock w) / 1000); split; [reflexivity | ].
    apply Z.div_le_lower_bound; lia.
  - intros iso seconds; rewrite getValidToken_cases.
    destruct (tokenPayload w) as [tp | ]; [ | discriminate]; cbv zeta.
    destruct (DateTime.toISOString (TokenPayload.expiresAt tp)); [ | discriminate].
    destruct (Z.ltb_spec 0 (TokenPayload.expiresAt tp - clock w)); [discriminate | ].
    intros E; injection E as _ <-.
    destruct (Z.ltb_spec (TokenPayload.expiresAt tp - clock w) 60000); [ | lia].
    split; [ | reflexivity].
    apply Z.div_le_upper_bound; lia.
  - intros tp Htp Hv; rewrite Htp; cbv zeta.
    rewrite (toISOString_invalid Hv); reflexivity.
Qed.

(** [cleanup] stops the renewal: with the timer invariant, no timer is
    left and no handle is held, whereas the credential stays; a second
    [cleanup] changes nothing.  In particular the timer a successful login
    has armed is gone after [cleanup]. *)
Theorem cleanup_stops_renewal (w : World) :
  timersOk w ->
  timers (cleanup w) = [] /\
  tokenRefreshInterval (cleanup w) = None /\
  tokenPayload (cleanup w) = tokenPayload w /\
  cleanup (cleanup w) = cleanup w /\
  (forall u t txt data rest,
     logins u = (t, Responded 200 txt data) :: rest ->
     validTime (expiryAt decodePayload (resToken data) (clock w + t)) ->
     exists w',
       snd (fst (run (authenticate decodePayload) w u)) = w' /\
       List.length (timers w') = 1%nat /\
       timers (cleanup w') = [] /\
       tokenPayload (cleanup w') = Some (credential decodePayload data (clock w + t))).
Proof.
  intros Hok.
  assert (Hc : forall w0, timersOk w0 ->
            timers (cleanup w0) = [] /\ tokenRefreshInterval (cleanup w0) = None /\
            tokenPayload (cleanup w0) = tokenPayload w0 /\ cleanup (cleanup w0) = cleanup w0).
  { clear; intros w0; unfold timersOk, cleanup.
    destruct (timers w0) as [ | [h d] [ | x l]] eqn:Ht; try contradiction; intros Hok.
    - destruct (tokenRefreshInterval w0) eqn:Hh; cbn; rewrite ?Ht, ?Hh; auto.
    - rewrite Hok; cbn; rewrite Ht; cbn; rewrite Nat.eqb_refl; auto. }
  destruct (Hc w Hok) as (H1 & H2 & H3 & H4).
  repeat (split; [assumption | ]).
  intros u t txt data rest Hl Hv.
  destruct (@authenticate_ok decodePayload w u t txt data rest Hl Hv)
    as (w1 & Hrun & Htp & _ & _ & _ & Ht & Hn & Hh).
  assert (Hok1 : timersOk w1) by (unfold timersOk; rewrite Ht, Hh; exact Hok).
  exists (setupAutoRefresh w1); rewrite Hrun; split; [reflexivity | ].
  destruct (@setupAutoRefresh_timers w1 _ Hok1 Htp) as (_ & Hs & _).
  destruct (Hc (setupAutoRefresh w1) (@setupAutoRefresh_timersOk w1 Hok1)) as (K1 & _ & K3 & _).
  rewrite Hs, K1, K3, setupAutoRefresh_tokenPayload, Htp; auto.
Qed.

(** A login whose token carries an expiry that [Date] cannot represent:
    [authenticate] throws the [RangeError] of [toISOString] after it has
    stored the credential, and arms no timer. *)
Theorem authenticate_invalid_expiry (w : World) (u : Upstream) (t : Z) (txt : string)
    (data : AuthResponse) (rest : list (Z * AxiosReply AuthResponse)) :
  logins u = (t, Responded 200 txt data) :: rest ->
  ~ validTime (expiryAt decodePayload (resToken data) (clock w + t)) ->
  exists w',
    run (authenticate decodePayload) w u =
      (Thrown (RangeError "Invalid time value"), w',
       answeredBy u rest (refreshes u) (queries u)) /\
    tokenPayload w' = Some (credential decodePayload data (clock w + t)) /\
    timers w' = timers w /\
    tokenRefreshInterval w' = tokenRefreshInterval w.
Proof.
  intros Hl Hv.
  pose proof (toISOString_invalid Hv) as Hiso.
  unfold credential, expiryAt in *.
  unfold authenticate, getTokenExpiration, isoDate.
  rewrite run_tryCatch. repeat step.
  cbv [serve]. rewrite Hl. cbv beta iota zeta.
  change (negb (200 =? 200)) with false; cbv beta iota zeta.
  destruct (decodeExpiration decodePayload (resToken data)) as [e | [ms | ]];
    repeat step; cbn [clock tick sent addLog setClock] in *;
    rewrite Hiso; repeat step;
    (eexists; split; [reflexivity | cbn; auto]).
Qed.
End AuthErrors.

(* ================================================================== *)
(** ** Further properties of the telemetry service *)

Section QueryErrors.
Variable decodePayload : string -> Exn + Claims.

(** The first attempt of a query, in terms of what [getValidToken] does:
    when it throws, the query throws the same exception without a query
    call; when it returns a token, the query call goes out with it. *)
Lemma attempt_token (q : Query) (n : nat) (w : World) (u : Upstream) :
  match run (getValidToken decodePayload) w u with
  | (Thrown e, w1, u1) =>
      exists w',
        run (retryLoop decodePayload q n) w u = (Thrown e, w', u1) /\
        wire w' = wire w1 /\ tokenPayload w' = tokenPayload w1
  | (Returned tok, w1, u1) =>
      forall tq txt d qs,
        queries u1 = (tq, Responded 200 txt d) :: qs ->
        exists w',
          run (retryLoop decodePayload q n) w u =
            (Returned d, w', answeredBy u1 (logins u1) (refreshes u1) qs) /\
          wire w' =
            (wire w1 ++ [GetTimeseries (baseUrl w1) (endpointOf q) tok (buildParams q)])%list /\
          tokenPayload w' = tokenPayload w1
  | (Pending, _, _) => True
  end.
Proof.
  destruct (run (getValidToken decodePayload) w u) as [[[tok | e | ] w1] u1] eqn:Hg.
  - intros tq txt d qs Hq.
    destruct n as [ | n]; cbn [retryLoop]; unfold getAuthenticatedClient;
      repeat step; rewrite Hg; cbv beta iota zeta; repeat step;
      cbv [serve]; rewrite Hq; cbv beta iota zeta; repeat step;
      change (200 =? 200) with true; cbv beta iota zeta; repeat step;
      eexists; (split; [reflexivity | split; reflexivity]).
  - destruct n as [ | n]; cbn [retryLoop]; unfold getAuthenticatedClient;
      repeat step; rewrite Hg; cbv beta iota zeta; repeat step;
      destruct (isAxiosError e); repeat step;
      eexists; (split; [reflexivity | split; reflexivity]).
  - exact I.
Qed.

(** Without a credential the query logs in first: when the login and the
    query are answered 200, the data comes back, the login call and then
    the query call, made with the token of the login, have gone out, and
    the credential of the login is stored. *)
Theorem getTimeseries_first_login (q : Query) (w : World) (u : Upstream) (tl tq : Z)
    (txt txtq : string) (data : AuthResponse) (d : Json)
    (ls : list (Z * AxiosReply AuthResponse)) (qs : list (Z * AxiosReply Json)) :
  tokenPayload w = None ->
  logins u = (tl, Responded 200 txt data) :: ls ->
  validTime (expiryAt decodePayload (resToken data) (clock w + tl)) ->
  queries u = (tq, Responded 200 txtq d) :: qs ->
  exists w',
    run (getTimeseries decodePayload q) w u =
      (Returned d, w', answeredBy u ls (refreshes u) qs) /\
    tokenPayload w' = Some (credential decodePayload data (clock w + tl)) /\
    wire w' =
      (wire w ++ [loginCall w;
                  GetTimeseries (baseUrl w) (endpointOf q) (resToken data)
                                (buildParams q)])%list.
Proof.
  intros Htp Hl Hv Hq.
  destruct (@authenticate_ok decodePayload w u tl txt data ls Hl Hv)
    as (w1 & Hrun & Htp1 & _ & Hb1 & Hw1 & _).
  pose proof (@attempt_token q (maxRetries - 0) w u) as H.
  rewrite getValidToken_cases, Htp, Hrun in H.
  destruct (H tq txtq d qs Hq) as (w' & Hrun' & Hw' & Htp').
  exists w'; split; [exact Hrun' | ].
  rewrite Htp', Hw', setupAutoRefresh_tokenPayload, setupAutoRefresh_wire,
    setupAutoRefresh_baseUrl, Htp1, Hw1, Hb1, <- app_assoc.
  split; reflexivity.
Qed.

(** Without a credential and with a login that is refused, the query
    throws the login's exception: the login call is the only call, no
    query goes out, and no credential is stored. *)
Theorem getTimeseries_login_refused (q : Query) (w : World) (u : Upstream) (tl : Z)
    (reply : AxiosReply AuthResponse) (ls : list (Z * AxiosReply AuthResponse)) :
  tokenPayload w = None ->
  logins u = (tl, reply) :: ls ->
  rejected reply = true ->
  exists w',
    run (getTimeseries decodePayload q) w u =
      (Thrown (loginError reply), w', answeredBy u ls (refreshes u) (queries u)) /\
    tokenPayload w' = None /\
    wire w' = (wire w ++ [loginCall w])%list.
Proof.
  intros Htp Hl Hr.
  destruct (@authenticate_refused decodePayload w u tl reply ls Hl Hr)
    as (w1 & Hrun & Htp1 & _ & _ & _ & Hw1 & _).
  pose proof (@attempt_token q (maxRetries - 0) w u) as H.
  rewrite getValidToken_cases, Htp, Hrun in H.
  destruct H as (w' & Hrun' & Hw' & Htp').
  exists w'; split; [exact Hrun' | ].
  rewrite Htp', Hw', Htp1, Hw1, Htp; split; reflexivity.
Qed.

(** A 401 followed by a renewal that fails ends the query: when the
    forced refresh is not answered with 200 and the login it falls back to
    is refused, the query throws the login's exception after one query
    call, the backoff, the refresh call and the login call; it does not
    query again, and the old credential stays. *)
Theorem getTimeseries_renewal_fails (q : Query) (w : World) (u : Upstream)
    (tp : TokenPayload) (tq tr tl : Z) (txt : string) (d : Json)
    (reply lreply : AxiosReply AuthResponse)
    (qs : list (Z * AxiosReply Json)) (rs ls : list (Z * AxiosReply AuthResponse)) :
  tokenPayload w = Some tp ->
  60000 <= TokenPayload.expiresAt tp - clock w ->
  truthyStr (TokenPayload.refreshToken tp) = true ->
  queries u = (tq, Responded 401 txt d) :: qs ->
  refreshes u = (tr, reply) :: rs -> rejected reply = true ->
  logins u = (tl, lreply) :: ls -> rejected lreply = true ->
  exists w',
    run (getTimeseries decodePayload q) w u =
      (Thrown (loginError lreply), w', answeredBy u ls rs qs) /\
    tokenPayload w' = Some tp /\
    wire w' =
      (wire w ++ [queryCall w tp q; SetTimeout retryDelayMs; refreshCall w tp;
                  loginCall w])%list.
Proof.
  intros Htp Hfresh Hrt Hq Hr Hrej Hl Hlrej.
  unfold getTimeseries, getTimeseriesWithRetry.
  change (maxRetries - 0)%nat with 3%nat.
  cbn [retryLoop].
  unfold getAuthenticatedClient.
  repeat step.
  rewrite (@getValidToken_fresh decodePayload w u tp Htp Hfresh); cbv beta iota zeta.
  repeat step.
  cbv [serve]; rewrite Hq; cbv beta iota zeta.
  repeat step.
  change (401 =? 200) with false; change (401 =? 401) with true; cbv beta iota zeta.
  repeat step.
  cbv [serve]; cbv beta iota zeta.
  step.
  match goal with
  | |- context [run (refreshToken _) ?W ?U] =>
      destruct (@refreshToken_falls_back decodePayload W U tp tr reply rs Htp Hrt Hr Hrej)
        as (w1 & Hrun & Htp1 & _ & _ & _ & Hb1 & Hu1 & Hp1 & Hw1);
      destruct (@authenticate_refused decodePayload w1
                  (answeredBy U (logins U) rs (queries U)) tl lreply ls Hl Hlrej)
        as (w2 & Hrun2 & Htp2 & _ & _ & _ & Hw2 & _)
  end.
  rewrite Hrun, Hrun2; cbv beta iota zeta.
  destruct lreply as [st txtl datal | m]; cbn [loginError isAxiosError];
    repeat step;
    (eexists; split; [reflexivity | ]);
    cbn [tokenPayload wire addLog];
    rewrite Htp2, Htp1, Hw2, Hw1; unfold loginCall; rewrite Hb1, Hu1, Hp1;
    cbn; rewrite <- !app_assoc; auto.
Qed.
End QueryErrors.

(* ================================================================== *)
(** ** Further properties of the device service *)

Section DeviceCache.
Import DeviceService.

(** A fetch answered 2xx with an array stores the list with the time of
    the answer and returns it. *)
Lemma getDevices_stored (forceRefresh : bool) (w : World) (u : Upstream) (t st : Z)
    (txt : string) (payload : Json) (devices : list Json)
    (rest : list (Z * AxiosReply Json)) :
  (if forceRefresh then None else if isCacheFresh w then devicesCache w else None) = None ->
  directory u = (t, Responded st txt payload) :: rest ->
  200 <= st < 300 ->
  unwrap payload = Some devices ->
  exists w',
    run (getDevices forceRefresh) w u = (Returned devices, w', afterDirectory u rest) /\
    devicesCache w' = Some devices /\
    cacheTimestamp w' = clock w + t /\
    clock w' = clock w + t /\
    wire w' = (wire w ++ [GetDevices (endpoint w)])%list.
Proof.
  intros Hc Hd Hst Hu.
  unfold getDevices at 1.
  rewrite run_tryCatch. repeat step. rewrite Hc. cbv beta iota zeta. repeat step.
  cbv [serve]. rewrite Hd. cbv beta iota zeta.
  assert (Hok : negb ((200 <=? st) && (st <? 300)) = false).
  { destruct (Z.leb_spec 200 st); [ | lia].
    destruct (Z.ltb_spec st 300); [reflexivity | lia]. }
  rewrite Hok, Hu. repeat step.
  eexists; split; [reflexivity | ].
  split; [reflexivity | split; [reflexivity | split; reflexivity]].
Qed.

(** A fetched list is cached for five minutes: a fetch answered 2xx with
    an array, bare or wrapped in a [data] member, returns it and stores it
    with the time of the answer; any call without [forceRefresh] made less
    than five minutes after the answer returns the same list without a
    call. *)
Theorem getDevices_caches (forceRefresh : bool) (w : World) (u : Upstream) (t st : Z)
    (txt : string) (payload : Json) (devices : list Json)
    (rest : list (Z * AxiosReply Json)) :
  (if forceRefresh then None else if isCacheFresh w then devicesCache w else None) = None ->
  directory u = (t, Responded st txt payload) :: rest ->
  200 <= st < 300 ->
  unwrap payload = Some devices ->
  exists w',
    run (getDevices forceRefresh) w u = (Returned devices, w', afterDirectory u rest) /\
    devicesCache w' = Some devices /\
    cacheTimestamp w' = clock w + t /\
    clock w' = clock w + t /\
    wire w' = (wire w ++ [GetDevices (endpoint w)])%list /\
    forall dt u2,
      dt < cacheDuration ->
      exists w2,
        run (getDevices false) (tick dt w') u2 = (Returned devices, w2, u2) /\
        wire w2 = wire w'.
Proof.
  intros Hc Hd Hst Hu.
  destruct (@getDevices_stored forceRefresh w u t st txt payload devices rest Hc Hd Hst Hu)
    as (w' & Hrun & Hc' & Ht' & Hk' & Hw').
  exists w'; repeat (split; [assumption | ]).
  intros dt u2 Hdt.
  eexists; split.
  - apply getDevices_cached; [exact Hc' | ].
    unfold isCacheFresh, cacheDuration in *.
    change (clock (tick dt w')) with (clock w' + dt).
    change (cacheTimestamp (tick dt w')) with (cacheTimestamp w').
    rewrite Ht', Hk'; apply Z.ltb_lt; lia.
  - reflexivity.
Qed.

(** [forceRefresh] goes past a fresh cache: a forced call always sends
    exactly one call to the directory, while a call that is not forced
    sends none when the cache is fresh. *)
Theorem getDevices_forceRefresh (w : World) (u : Upstream) :
  wire (snd (fst (run (getDevices true) w u))) = (wire w ++ [GetDevices (endpoint w)])%list /\
  (forall devices,
     devicesCache w = Some devices -> isCacheFresh w = true ->
     wire (snd (fst (run (getDevices false) w u))) = wire w).
Proof.
  split.
  - destruct (directory u) as [ | [t r] rest] eqn:Hd.
    + unfold getDevices.
      rewrite run_tryCatch. repeat step. cbv [serve]. rewrite Hd. reflexivity.
    + destruct (@getDevices_fetch true w u t r rest eq_refl Hd)
        as (w1 & Hc1 & _ & Hw1 & Hrun).
      rewrite Hrun.
      destruct (fetchFails r) eqn:Hff.
      * destruct (devicesCache w); exact Hw1.
      * destruct r as [st txt payload | m]; [ | discriminate].
        cbn [fetchFails] in Hff.
        destruct (unwrap payload); [exact Hw1 | ].
        rewrite orb_true_r in Hff; discriminate.
  - intros devices Hc Hf.
    rewrite (@getDevices_cached w u devices Hc Hf); reflexivity.
Qed.

(** What a call that returns has returned: the list that is now cached. *)
Lemma getDevices_returns (forceRefresh : bool) (w w' : World) (u u' : Upstream)
    (devices : list Json) :
  run (getDevices forceRefresh) w u = (Returned devices, w', u') ->
  devicesCache w' = Some devices.
Proof.
  intros Hrun.
  destruct (if forceRefresh then None else if isCacheFresh w then devicesCache w else None)
    as [cached | ] eqn:Hc.
  - destruct forceRefresh; [discriminate | ].
    destruct (isCacheFresh w) eqn:Hf; [ | discriminate].
    rewrite (@getDevices_cached w u cached Hc Hf) in Hrun.
    injection Hrun as <- <- <-; exact Hc.
  - destruct (directory u) as [ | [t r] rest] eqn:Hd.
    + destruct (@getDevices_pending forceRefresh w u Hc Hd) as (w1 & Hp & _).
      rewrite Hp in Hrun; discriminate.
    + destruct (@getDevices_fetch forceRefresh w u t r rest Hc Hd)
        as (w1 & Hc1 & _ & _ & Hf).
      rewrite Hf in Hrun; clear Hf.
      destruct (fetchFails r).
      * destruct (devicesCache w) as [cached | ] eqn:Hw; [ | discriminate].
        injection Hrun as <- <- <-.
        change (devicesCache w1 = Some cached); exact Hc1.
      * destruct r as [st txt payload | m]; [ | discriminate].
        destruct (unwrap payload) as [fetched | ]; [ | discriminate].
        injection Hrun as <- <- <-; reflexivity.
Qed.



(** [clearCache] takes the stale fallback away: after it, a call whose
    fetch fails throws, however fresh the cache was before. *)
Theorem clearCache_drops_fallback (forceRefresh : bool) (w : World) (u : Upstream) (t : Z)
    (r : AxiosReply Json) (rest : list (Z * AxiosReply Json)) :
  directory u = (t, r) :: rest ->
  fetchFails r = true ->
  exists w1,
    run clearCache w u = (Returned tt, w1, u) /\
    devicesCache w1 = None /\
    fst (fst (run (getDevices forceRefresh) w1 u)) =
      Thrown (Error ("Failed to fetch devices from " ++ endpoint w ++ ": " ++
                     message (fetchError r))).
Proof.
  intros Hd Hf.
  unfold clearCache. repeat step.
  eexists; split; [reflexivity | split; [reflexivity | ]].
  match goal with
  | |- context [run (getDevices forceRefresh) ?W u] =>
      assert (Hc : (if forceRefresh then None
                    else if isCacheFresh W then devicesCache W else None) = None)
        by (destruct forceRefresh; [reflexivity | destruct (isCacheFresh W); reflexivity]);
      destruct (@getDevices_fetch forceRefresh W u t r rest Hc Hd) as (w2 & _ & _ & _ & Hrun)
  end.
  rewrite Hrun, Hf; reflexivity.
Qed.
End DeviceCache.

(* ================================================================== *)
(** ** Further properties of the routes *)

Section RouteFacts.
Import DeviceService.
Variable decodePayload : string -> Exn + Claims.

(** [GET /devices] never throws: it answers 200 with the list and its
    length as count, or 502 with the message of the failure, and 502 only
    when no list was cached before the request; the list of a 200 is the
    one cached afterwards. *)
Theorem listDevices_answers (refresh : option string) (w : World) (u : Upstream) :
  let '(o, w', _) := run (listDevices refresh) w u in
  match o with
  | Returned resp =>
      (exists devices,
         resp = {| status := 200;
                   body := JObj [("success", JBool true);
                                 ("data", JArr devices);
                                 ("count", JNum (Z.of_nat (List.length devices)))] |} /\
         devicesCache w' = Some devices) \/
      (exists msg, resp = failure 502 msg /\ devicesCache w = None)
  | Thrown _ => False
  | Pending => True
  end.
Proof.
  unfold listDevices.
  rewrite run_tryCatch, run_bind.
  destruct (run (getDevices _) w u) as [[[devices | e | ] w1] u1] eqn:Hrun.
  - rewrite run_ret.
    left; exists devices; split; [reflexivity | ].
    exact (@getDevices_returns _ w w1 u u1 devices Hrun).
  - rewrite run_log, run_ret.
    right; exists (message e); split; [reflexivity | ].
    destruct (@getDevices_outcome _ w u (Thrown e) w1 u1 Hrun) as [_ H]; exact H.
  - exact I.
Qed.

Lemma includes_not_found (deviceUUID : string) :
  includes "not found" ("Device with UUID " ++ deviceUUID ++ " not found") = true.
Proof.
  apply includes_skip, includes_skip.
  change " not found" with (" " ++ "not found").
  apply includes_skip, includes_self.
Qed.

(** A device that is neither in the fresh cache nor in the list the
    directory then gives is answered 404 by the device route, with the
    not-found message of the device service, whatever the rest of the
    query string: the one call that goes out is the forced listing, and no
    telemetry call is made. *)
Theorem unknown_device_404 (deviceUUID : string) (r : RawQuery) (w : World) (u : Upstream)
    (cached fetched : list Json) (t st : Z) (txt : string) (payload : Json)
    (rest : list (Z * AxiosReply Json)) :
  present r = true ->
  devicesCache w = Some cached -> isCacheFresh w = true ->
  find deviceUUID cached = inr None ->
  directory u = (t, Responded st txt payload) :: rest ->
  200 <= st < 300 ->
  unwrap payload = Some fetched ->
  find deviceUUID fetched = inr None ->
  exists w',
    run (deviceTimeseries decodePayload deviceUUID r) w u =
      (Returned (failure 404 ("Device with UUID " ++ deviceUUID ++ " not found")),
       w', afterDirectory u rest) /\
    wire w' = (wire w ++ [GetDevices (endpoint w)])%list /\
    devicesCache w' = Some fetched.
Proof.
  intros Hr Hc Hf Hnone Hd Hst Hu Hnone'.
  rewrite deviceTimeseries_run, Hr; cbn [negb].
  unfold validateDevice, getDeviceByUUID.
  rewrite run_tryCatch, run_bind, (@getDevices_cached w u cached Hc Hf), Hnone, run_throw.
  rewrite run_bind.
  match goal with
  | |- context [run (getDevices true) ?W u] =>
      destruct (@getDevices_stored true W u t st txt payload fetched rest eq_refl Hd Hst Hu)
        as (w1 & Hrun & Hc1 & _ & _ & Hw1)
  end.
  rewrite Hrun, Hnone', run_throw.
  unfold deviceFailure; cbn [message].
  rewrite includes_not_found.
  eexists; split; [reflexivity | ].
  split; [exact Hw1 | exact Hc1].
Qed.

(** Every response of the two timeseries handlers is structured: a 200
    carries the success flag and the data, every other response is the
    failure object with the flag off and the message; a request that lacks
    a required parameter is answered 400 at once, before the device lookup
    and with no call and no change of state. *)
Theorem responses_are_structured (deviceUUID : string) (r : RawQuery) (w : World)
    (u : Upstream) :
  (forall o,
     o = fst (fst (run (deviceTimeseries decodePayload deviceUUID r) w u)) \/
     o = fst (fst (run (legacyTimeseries decodePayload r) w u)) ->
     match o with
     | Returned resp =>
         (status resp = 200 /\
          exists data others,
            body resp = JObj (("success", JBool true) :: ("data", data) :: others)) \/
         (In (status resp) [400; 404; 502] /\
          exists msg,
            body resp = JObj [("success", JBool false); ("error", JStr msg)])
     | Thrown _ => False
     | Pending => True
     end) /\
  (present r = false ->
   run (deviceTimeseries decodePayload deviceUUID r) w u =
     (Returned (failure 400 "Missing required parameters: keys, startTs, endTs"), w, u)) /\
  (presentLegacy r = false ->
   run (legacyTimeseries decodePayload r) w u =
     (Returned (failure 400
        "Missing required parameters: entityType, entityId, keys, startTs, endTs"), w, u)).
Proof.
  split; [ | split].
  - assert (Hfail : forall code msg,
              In code [400; 404; 502] ->
              (status (failure code msg) = 200 /\
               exists data others,
                 body (failure code msg) =
                   JObj (("success", JBool true) :: ("data", data) :: others)) \/
              (In (status (failure code msg)) [400; 404; 502] /\
               exists msg0,
                 body (failure code msg) =
                   JObj [("success", JBool false); ("error", JStr msg0)])).
    { intros code msg Hin; right; split; [exact Hin | exists msg; reflexivity]. }
    intros o [-> | ->].
    + rewrite deviceTimeseries_run.
      destruct (negb (present r)); [apply Hfail; simpl; auto | ].
      destruct (run (validateDevice deviceUUID) w u) as [[[device | e | ] w1] u1].
      * cbv zeta.
        destruct (parseQuery r) as [reason | p]; [apply Hfail; simpl; auto | ].
        destruct (run (getTimeseries decodePayload _) _ u1) as [[[data | e | ] w'] u'].
        -- left; split; [reflexivity | eexists; eexists; reflexivity].
        -- unfold deviceFailure; destruct (includes "not found" (message e));
             apply Hfail; simpl; auto.
        -- exact I.
      * unfold deviceFailure; destruct (includes "not found" (message e));
          apply Hfail; simpl; auto.
      * exact I.
    + rewrite legacyTimeseries_run.
      destruct (negb (presentLegacy r)); [apply Hfail; simpl; auto | ].
      destruct (parseQuery r) as [reason | p]; [apply Hfail; simpl; auto | ].
      destruct (run (getTimeseries decodePayload _) _ u) as [[[data | e | ] w'] u'].
      * left; split; [reflexivity | eexists; eexists; reflexivity].
      * apply Hfail; simpl; auto.
      * exact I.
  - intros Hp; rewrite deviceTimeseries_run, Hp; reflexivity.
  - intros Hp; rewrite legacyTimeseries_run, Hp; reflexivity.
Qed.

Lemma split_parts (sep : ascii) (s : string) :
  split sep s <> [] /\ Forall (fun part => occurs sep part = false) (split sep s).
Proof.
  induction s as [ | c rest [Hne IH]]; cbn [split].
  - split; [discriminate | repeat constructor].
  - destruct (Ascii.eqb c sep) eqn:Hc.
    + split; [discriminate | constructor; [reflexivity | exact IH]].
    + destruct (split sep rest) as [ | part parts]; [contradiction | ].
      split; [discriminate | ].
      inversion IH as [ | ? ? Hpart Hparts]; subst.
      constructor; [cbn [occurs]; rewrite Hc, Hpart; reflexivity | exact Hparts].
Qed.

Lemma trimStart_occurs (c : ascii) (s : string) :
  occurs c s = false -> occurs c (trimStart s) = false.
Proof.
  induction s as [ | x rest IH]; [auto | ].
  cbn [trimStart occurs]; intros H.
  apply orb_false_iff in H; destruct H as [Hx Hrest].
  destruct (isSpace x); [auto | ].
  cbn [occurs]; rewrite Hx, Hrest; reflexivity.
Qed.

Lemma trimEnd_occurs (c : ascii) (s : string) :
  occurs c s = false -> occurs c (trimEnd s) = false.
Proof.
  induction s as [ | x rest IH]; [auto | ].
  cbn [trimEnd occurs]; intros H.
  apply orb_false_iff in H; destruct H as [Hx Hrest].
  specialize (IH Hrest).
  destruct (trimEnd rest) as [ | y rest'].
  - destruct (isSpace x); [reflexivity | cbn [occurs]; rewrite Hx; reflexivity].
  - cbn [occurs] in *; rewrite Hx, IH; reflexivity.
Qed.

Lemma split_single (sep : ascii) (p : string) :
  occurs sep p = false -> split sep p = [p].
Proof.
  induction p as [ | x p IH]; [reflexivity | ].
  cbn [occurs split]; intros H.
  apply orb_false_iff in H; destruct H as [Hx Hp].
  rewrite Hx, (IH Hp); reflexivity.
Qed.

Lemma split_append (sep : ascii) (p s : string) :
  occurs sep p = false -> split sep (p ++ String sep s) = p :: split sep s.
Proof.
  induction p as [ | x p IH]; cbn [occurs append split].
  - intros _; rewrite Ascii.eqb_refl; reflexivity.
  - intros H; apply orb_false_iff in H; destruct H as [Hx Hp].
    rewrite Hx, (IH Hp); reflexivity.
Qed.

Lemma split_join (ks : list string) :
  ks <> [] -> Forall (fun k => occurs "," k = false) ks ->
  split "," (join "," ks) = ks.
Proof.
  induction ks as [ | k rest IH]; [contradiction | ].
  intros _ Hall; inversion Hall as [ | ? ? Hk Hrest]; subst.
  destruct rest as [ | k' rest].
  - apply split_single; exact Hk.
  - change (join "," (k :: k' :: rest))
      with (k ++ String "," (join "," (k' :: rest))).
    rewrite (@split_append "," k (join "," (k' :: rest)) Hk), IH;
      [reflexivity | discriminate | exact Hrest].
Qed.

(** The keys of an accepted query: there is at least one, none is empty
    and none contains a comma, so that the comma-joined [keys] parameter
    sent upstream splits back into exactly these keys; and the start of
    the range is before its end. *)
Theorem accepted_keys_round_trip (r : RawQuery) (p : Parsed) :
  parseQuery r = inr p ->
  keyArray p <> [] /\
  Forall (fun k => k <> "" /\ occurs "," k = false) (keyArray p) /\
  split "," (join "," (keyArray p)) = keyArray p /\
  (forall entityType0 entityId0,
     In ("keys", PStr (join "," (keyArray p)))
        (buildParams (toQuery entityType0 entityId0 p))) /\
  startTimestamp p < endTimestamp p.
Proof.
  unfold parseQuery.
  destruct (parseInt (str (rawStartTs r))) as [ | a]; [discriminate | ].
  destruct (parseInt (str (rawEndTs r))) as [ | b]; [discriminate | ].
  destruct (Z.geb_spec a b) as [ | Hab]; [discriminate | ].
  cbv zeta.
  set (ks := filter (fun k => (0 <? String.length k)%nat)
                    (map trim (split "," (str (rawKeys r))))).
  destruct (List.length ks =? 0)%nat eqn:Hlen; [discriminate | ].
  destruct (notPositive (whenTruthy (rawInterval r) parseInt)); [discriminate | ].
  destruct (truthy (rawAgg r) && _); [discriminate | ].
  destruct (truthy (rawOrderBy r) && _); [discriminate | ].
  destruct (notPositive (whenTruthy (rawLimit r) parseInt)); [discriminate | ].
  intros H; injection H as <-; cbn [keyArray startTimestamp endTimestamp].
  assert (Hne : ks <> []).
  { intros E; rewrite E in Hlen; discriminate. }
  assert (Hall : Forall (fun k => k <> "" /\ occurs "," k = false) ks).
  { apply Forall_forall; intros k Hk.
    apply filter_In in Hk; destruct Hk as [Hin Hpos].
    split; [intros ->; discriminate | ].
    apply in_map_iff in Hin; destruct Hin as (part & <- & Hpart).
    destruct (split_parts "," (str (rawKeys r))) as [_ Hparts].
    rewrite Forall_forall in Hparts.
    apply trimEnd_occurs, trimStart_occurs, Hparts, Hpart. }
  split; [exact Hne | split; [exact Hall | split; [ | split; [ | lia]]]].
  - apply split_join; [exact Hne | ].
    apply Forall_forall; intros k Hk.
    rewrite Forall_forall in Hall; apply (Hall k Hk).
  - intros entityType0 entityId0; left; reflexivity.
Qed.

(** Starting the services without the credentials fails at once: the
    initialisation throws exactly when the user name or the password is
    unset or empty in the environment; otherwise it returns with the base
    URL of the environment, or the default when that is unset or empty.
    In either case it sends no call and stores no credential. *)
Theorem initializeThingsboardServices_checks (env : Env) (w : World) (u : Upstream) :
  exists w',
    run (initializeThingsboardServices env) w u =
      (if truthy (THINGSBOARD_USERNAME env) && truthy (THINGSBOARD_PASSWORD env)
       then Returned tt
       else Thrown (Error "ThingsBoard credentials not provided in environment variables"),
       w', u) /\
    baseUrl w' =
      match THINGSBOARD_BASE_URL env with
      | Some (String c s) => String c s
      | _ => "https://portal.indusmind.net"
      end /\
    wire w' = wire w /\
    tokenPayload w' = tokenPayload w /\
    timers w' = timers w.
Proof.
  unfold initializeThingsboardServices, newThingsboardAuthService.
  destruct (THINGSBOARD_BASE_URL env) as [[ | c0 s0] | ],
    (THINGSBOARD_USERNAME env) as [[ | c s] | ],
    (THINGSBOARD_PASSWORD env) as [[ | c' s'] | ];
    cbn [orElse truthy truthyStr str negb orb andb]; repeat step;
    (eexists; split; [reflexivity | repeat split]).
Qed.
End RouteFacts.

(* ================================================================== *)
(** ** The upstream traffic of one request *)

(** Go past the synchronous statements and the case distinctions at the
    head of a program. *)
Ltac bound :=
  repeat first
    [ exact I
    | match goal with
      | |- AtMost _ (Sync _ _) _ => apply AtMost_sync; intros
      | |- AtMost _ (match ?x with _ => _ end) _ => destruct x
      | |- AtMost _ (if ?b then _ else _) _ => destruct b
      | |- AtMost _ (bind (match ?x with _ => _ end) _) _ => destruct x
      | |- AtMost _ (bind (if ?b then _ else _) _) _ => destruct b
      end
    | progress cbn [bind log modify sync read now await] ].

Section Traffic.
Import DeviceService.
Variable decodePayload : string -> Exn + Claims.

Lemma getDevices_calls (sel : Call -> bool) (n : nat) (forceRefresh : bool) :
  (forall url, sel (GetDevices url) = true -> (1 <= n)%nat) ->
  AtMost sel (getDevices forceRefresh) n.
Proof.
  intros Hd; unfold getDevices.
  apply AtMost_weaken with (n := (n + 0)%nat); [ | lia].
  apply AtMost_tryCatch; [ | intros e; bound].
  bound. cbn [AtMost].
  match goal with
  | |- context [sel (GetDevices ?url)] =>
      destruct (sel (GetDevices url)) eqn:E;
      [apply Hd in E; destruct n as [ | n]; [lia | ] | ]
  end; intros r; bound.
Qed.

Lemma validateDevice_calls (sel : Call -> bool) (n : nat) (deviceUUID : string) :
  (forall url, sel (GetDevices url) = true -> (1 <= n)%nat) ->
  AtMost sel (validateDevice deviceUUID) (n + n).
Proof.
  intros Hd; unfold validateDevice, getDeviceByUUID.
  apply AtMost_tryCatch; [ | intros e];
    (apply AtMost_weaken with (n := (n + 0)%nat); [ | lia];
     apply AtMost_bind; [apply getDevices_calls; exact Hd | intros devices; bound]).
Qed.

Lemma authenticate_logins : AtMost isLogin (authenticate decodePayload) 1.
Proof.
  unfold authenticate, getTokenExpiration, isoDate.
  apply AtMost_weaken with (n := (1 + 0)%nat); [ | lia].
  apply AtMost_tryCatch; [ | intros e; bound].
  bound. cbn [AtMost isLogin]. intros r; bound.
Qed.

Lemma refreshToken_logins : AtMost isLogin (refreshToken decodePayload) 1.
Proof.
  pose proof authenticate_logins as Ha.
  unfold refreshToken.
  bound; try exact Ha.
  apply AtMost_weaken with (n := (0 + 1)%nat); [ | lia].
  apply AtMost_bind.
  - apply AtMost_weaken with (n := (0 + 0)%nat); [ | lia].
    apply AtMost_tryCatch; [ | intros e; bound].
    unfold getTokenExpiration, isoDate.
    bound. cbn [AtMost isLogin]. intros r; bound.
  - intros [tok | ]; [exact I | exact Ha].
Qed.

Lemma getValidToken_logins : AtMost isLogin (getValidToken decodePayload) 1.
Proof.
  pose proof authenticate_logins as Ha.
  pose proof refreshToken_logins as Hf.
  unfold getValidToken.
  bound; first [exact Ha | exact Hf].
Qed.

Lemma getDevices_keepsWire (forceRefresh : bool) :
  Respects keepsWire (getDevices forceRefresh).
Proof.
  unfold getDevices, keepsWire.
  respects ltac:(first [exact I | reflexivity]).
Qed.

Lemma validateDevice_keepsWire (deviceUUID : string) :
  Respects keepsWire (validateDevice deviceUUID).
Proof.
  unfold validateDevice, getDeviceByUUID.
  apply Respects_tryCatch; [ | intros e];
    (apply Respects_bind; [apply getDevices_keepsWire | ];
     intros devices; destruct (find deviceUUID devices) as [e' | [device | ]]; exact I).
Qed.

Lemma deviceTimeseries_keepsWire (deviceUUID : string) (r : RawQuery) :
  Respects keepsWire (deviceTimeseries decodePayload deviceUUID r).
Proof.
  unfold deviceTimeseries.
  apply Respects_tryCatch.
  - destruct (negb (truthy (rawKeys r)) || _ || _); [exact I | ].
    apply Respects_bind; [apply validateDevice_keepsWire | ].
    intros device.
    apply Respects_bind; [split; [reflexivity | intros; exact I] | intros _].
    destruct (parseQuery r) as [reason | p]; [exact I | ].
    apply Respects_bind; [split; [reflexivity | intros; exact I] | intros _].
    apply Respects_bind; [ | intros data; exact I].
    exact (retryLoop_keepsWire decodePayload (toQuery "DEVICE" deviceUUID p) (maxRetries - 0)).
  - intros e.
    apply Respects_bind; [split; [reflexivity | intros; exact I] | intros _].
    destruct (includes "not found" (message e)); exact I.
Qed.

Lemma deviceTimeseries_calls (sel : Call -> bool) (lookup query : nat)
    (deviceUUID : string) (r : RawQuery) :
  AtMost sel (validateDevice deviceUUID) lookup ->
  (forall q, AtMost sel (retryLoop decodePayload q 3) query) ->
  AtMost sel (deviceTimeseries decodePayload deviceUUID r) (lookup + query).
Proof.
  intros Hv Hq; unfold deviceTimeseries.
  apply AtMost_weaken with (n := ((lookup + query) + 0)%nat); [ | lia].
  apply AtMost_tryCatch; [ | intros e; bound].
  destruct (negb (truthy (rawKeys r)) || _ || _); [exact I | ].
  apply AtMost_bind; [exact Hv | intros device].
  bound.
  apply AtMost_weaken with (n := (query + 0)%nat); [ | lia].
  apply AtMost_bind; [ | intros data; exact I].
  exact (Hq _).
Qed.

(** The upstream traffic of one request to the device route is bounded,
    whatever the upstreams answer: at most 2 calls to the device
    directory, 4 telemetry queries, 3 backoffs, 7 refresh calls and 7
    login calls go out. *)
Theorem deviceTimeseries_traffic (deviceUUID : string) (r : RawQuery) (w : World)
    (u : Upstream) :
  exists calls,
    wire (snd (fst (run (deviceTimeseries decodePayload deviceUUID r) w u))) =
      (wire w ++ calls)%list /\
    (count isDirectory calls <= 2)%nat /\
    (count isQuery calls <= 4)%nat /\
    (count isBackoff calls <= 3)%nat /\
    (count isRefresh calls <= 7)%nat /\
    (count isLogin calls <= 7)%nat.
Proof.
  pose proof (deviceTimeseries_keepsWire deviceUUID r) as Hk.
  assert (Hd : AtMost isDirectory (deviceTimeseries decodePayload deviceUUID r) (2 + 0)).
  { apply deviceTimeseries_calls.
    - apply (@validateDevice_calls isDirectory 1); intros; lia.
    - intros q.
      pose proof (@retryLoop_calls decodePayload isDirectory 0 0 0 0 q 3) as H.
      change ((3 + 1) * (0 + 0) + 3 * (0 + 0))%nat with 0%nat in H.
      apply H.
      + apply getValidToken_calls; [reflexivity | discriminate].
      + apply refreshToken_calls; [reflexivity | discriminate].
      + discriminate.
      + discriminate. }
  assert (Hq : AtMost isQuery (deviceTimeseries decodePayload deviceUUID r) (0 + 4)).
  { apply deviceTimeseries_calls.
    - apply (@validateDevice_calls isQuery 0); discriminate.
    - intros q.
      pose proof (@retryLoop_calls decodePayload isQuery 0 1 0 0 q 3) as H.
      change ((3 + 1) * (0 + 1) + 3 * (0 + 0))%nat with 4%nat in H.
      apply H.
      + apply getValidToken_calls; [reflexivity | discriminate].
      + apply refreshToken_calls; [reflexivity | discriminate].
      + intros; lia.
      + discriminate. }
  assert (Hb : AtMost isBackoff (deviceTimeseries decodePayload deviceUUID r) (0 + 3)).
  { apply deviceTimeseries_calls.
    - apply (@validateDevice_calls isBackoff 0); discriminate.
    - intros q.
      pose proof (@retryLoop_calls decodePayload isBackoff 0 0 1 0 q 3) as H.
      change ((3 + 1) * (0 + 0) + 3 * (1 + 0))%nat with 3%nat in H.
      apply H.
      + apply getValidToken_calls; [reflexivity | discriminate].
      + apply refreshToken_calls; [reflexivity | discriminate].
      + discriminate.
      + intros; lia. }
  assert (Hr : AtMost isRefresh (deviceTimeseries decodePayload deviceUUID r) (0 + 7)).
  { apply deviceTimeseries_calls.
    - apply (@validateDevice_calls isRefresh 0); discriminate.
    - intros q.
      pose proof (@retryLoop_calls decodePayload isRefresh 1 0 0 1 q 3) as H.
      change ((3 + 1) * (1 + 0) + 3 * (0 + 1))%nat with 7%nat in H.
      apply H.
      + apply getValidToken_calls; [reflexivity | intros; lia].
      + apply refreshToken_calls; [reflexivity | intros; lia].
      + discriminate.
      + discriminate. }
  assert (Hl : AtMost isLogin (deviceTimeseries decodePayload deviceUUID r) (0 + 7)).
  { apply deviceTimeseries_calls.
    - apply (@validateDevice_calls isLogin 0); discriminate.
    - intros q.
      pose proof (@retryLoop_calls decodePayload isLogin 1 0 0 1 q 3) as H.
      change ((3 + 1) * (1 + 0) + 3 * (0 + 1))%nat with 7%nat in H.
      apply H.
      + exact getValidToken_logins.
      + exact refreshToken_logins.
      + discriminate.
      + discriminate. }
  destruct (@AtMost_run _ _ _ _ w u Hk Hd) as (c1 & H1 & B1).
  destruct (@AtMost_run _ _ _ _ w u Hk Hq) as (c2 & H2 & B2).
  destruct (@AtMost_run _ _ _ _ w u Hk Hb) as (c3 & H3 & B3).
  destruct (@AtMost_run _ _ _ _ w u Hk Hr) as (c4 & H4 & B4).
  destruct (@AtMost_run _ _ _ _ w u Hk Hl) as (c5 & H5 & B5).
  rewrite H1 in H2, H3, H4, H5.
  apply app_inv_head in H2, H3, H4, H5; subst c2 c3 c4 c5.
  exists c1; cbn [Nat.add] in *; auto 10.
Qed.
End Traffic.

(* ================================================================== *)
(** ** The further properties on scripted upstreams *)

Lemma tokenDay_valid (t : Z) : validTime (expiryAt decodeSample tokenDay t).
Proof. vm_compute; discriminate. Qed.

Lemma tokenFar_invalid (t : Z) : ~ validTime (expiryAt decodeFar tokenFar t).
Proof. vm_compute; intros H; apply H; reflexivity. Qed.

Lemma freshCredential_valid : validTime (TokenPayload.expiresAt freshCredential).
Proof. vm_compute; discriminate. Qed.

Lemma status_200_ok : 200 <= 200 < 300.
Proof. lia. Qed.

(** A login answered 401 on a process without credential. *)
Lemma authenticate_rejected_witness :
  fst (fst (run (authenticate decodeSample) blankProcess
                (upstream [refused 401 "Unauthorized"] [] []))) =
    Thrown (Error "ThingsBoard authentication failed: 401 Unauthorized").
Proof.
  destruct (@authenticate_rejected decodeSample blankProcess
              (upstream [refused 401 "Unauthorized"] [] []) 40
              (snd (refused 401 "Unauthorized")) [] eq_refl eq_refl)
    as (w' & Hrun & _).
  rewrite Hrun; reflexivity.
Defined.

(** A login whose token expires in the year 287178. *)
Lemma authenticate_invalid_expiry_witness :
  fst (fst (run (authenticate decodeFar) blankProcess
                (upstream [ok200 tokenFar "r1"] [] []))) =
    Thrown (RangeError "Invalid time value").
Proof.
  destruct (@authenticate_invalid_expiry decodeFar blankProcess
              (upstream [ok200 tokenFar "r1"] [] []) 40 "OK"
              {| resToken := tokenFar; resRefreshToken := "r1" |} [] eq_refl
              (@tokenFar_invalid _))
    as (w' & Hrun & _).
  rewrite Hrun; reflexivity.
Defined.

(** A refresh answered 401 followed by a login answered 200. *)
Lemma refreshToken_self_heals_witness :
  fst (fst (run (refreshToken decodeSample) freshProcess
                (upstream [ok200 tokenDay "r1"] [refused 401 "Unauthorized"] []))) =
    Returned tokenDay.
Proof.
  destruct (@refreshToken_self_heals decodeSample freshProcess
              (upstream [ok200 tokenDay "r1"] [refused 401 "Unauthorized"] [])
              freshCredential 40 40 (snd (refused 401 "Unauthorized")) "OK"
              {| resToken := tokenDay; resRefreshToken := "r1" |} [] []
              eq_refl eq_refl eq_refl eq_refl eq_refl (@tokenDay_valid _))
    as (w' & Hrun & _).
  rewrite Hrun; reflexivity.
Defined.

(** The timer callback when both endpoints answer 401. *)
Lemma autoRefresh_never_throws_witness :
  fst (fst (run (autoRefresh decodeSample) freshProcess
                (upstream [refused 401 "Unauthorized"] [refused 401 "Unauthorized"] []))) =
    Returned tt.
Proof.
  destruct (proj2 (@autoRefresh_never_throws decodeSample freshProcess
                     (upstream [refused 401 "Unauthorized"]
                               [refused 401 "Unauthorized"] []))
                  freshCredential 40 40 (snd (refused 401 "Unauthorized"))
                  (snd (refused 401 "Unauthorized")) [] []
                  eq_refl eq_refl eq_refl eq_refl eq_refl eq_refl)
    as (w' & before & Hrun & _).
  rewrite Hrun; reflexivity.
Defined.

(** The report on a credential good for a day. *)
Lemma getTokenStatus_agrees_witness :
  exists iso seconds,
    getTokenStatus freshProcess = inr (Reported "valid" iso seconds) /\ 60 <= seconds.
Proof.
  exact (proj2 (proj1 (proj2 (@getTokenStatus_agrees decodeSample freshProcess
                                (upstream [] [] [])))
                      freshCredential eq_refl freshCredential_valid
                      freshCredential_fresh)).
Defined.

(** The one timer of the process is gone after cleanup. *)
Lemma cleanup_stops_renewal_witness :
  timers freshProcess = [(0%nat, 86280000)] /\ timers (cleanup freshProcess) = [].
Proof.
  split; [reflexivity | ].
  exact (proj1 (@cleanup_stops_renewal decodeSample freshProcess eq_refl)).
Defined.

(** A first query on a process without credential. *)
Lemma getTimeseries_first_login_witness :
  fst (fst (run (getTimeseries decodeSample sampleQuery) blankProcess
                (upstream [ok200 tokenDay "r1"] [] [answered 200 "OK" sampleData]))) =
    Returned sampleData.
Proof.
  destruct (@getTimeseries_first_login decodeSample sampleQuery blankProcess
              (upstream [ok200 tokenDay "r1"] [] [answered 200 "OK" sampleData])
              40 25 "OK" "OK" {| resToken := tokenDay; resRefreshToken := "r1" |}
              sampleData [] [] eq_refl eq_refl (@tokenDay_valid _) eq_refl)
    as (w' & Hrun & _).
  rewrite Hrun; reflexivity.
Defined.

(** A first query when the login is answered 401. *)
Lemma getTimeseries_login_refused_witness :
  fst (fst (run (getTimeseries decodeSample sampleQuery) blankProcess
                (upstream [refused 401 "Unauthorized"] [] []))) =
    Thrown (Error "ThingsBoard authentication failed: 401 Unauthorized").
Proof.
  destruct (@getTimeseries_login_refused decodeSample sampleQuery blankProcess
              (upstream [refused 401 "Unauthorized"] [] []) 40
              (snd (refused 401 "Unauthorized")) [] eq_refl eq_refl eq_refl)
    as (w' & Hrun & _).
  rewrite Hrun; reflexivity.
Defined.

(** A query answered 401 whose renewal fails at both endpoints. *)
Lemma getTimeseries_renewal_fails_witness :
  fst (fst (run (getTimeseries decodeSample sampleQuery) freshProcess
                (upstream [refused 403 "Forbidden"] [refused 401 "Unauthorized"]
                          [unauthorized401]))) =
    Thrown (Error "ThingsBoard authentication failed: 403 Forbidden").
Proof.
  destruct (@getTimeseries_renewal_fails decodeSample sampleQuery freshProcess
              (upstream [refused 403 "Forbidden"] [refused 401 "Unauthorized"]
                        [unauthorized401])
              freshCredential 25 40 40 "Unauthorized" JNull
              (snd (refused 401 "Unauthorized")) (snd (refused 403 "Forbidden"))
              [] [] [] eq_refl freshCredential_fresh eq_refl eq_refl
              eq_refl eq_refl eq_refl eq_refl)
    as (w' & Hrun & _).
  rewrite Hrun; reflexivity.
Defined.

(** A stale cache is replaced by the list the directory gives. *)
Lemma getDevices_caches_witness :
  fst (fst (run (DeviceService.getDevices false) staleProcess
                (withDirectory [listed [sampleDevice]] (upstream [] [] [])))) =
    Returned [sampleDevice].
Proof.
  destruct (@getDevices_caches false staleProcess
              (withDirectory [listed [sampleDevice]] (upstream [] [] []))
              30 200 "OK" (JArr [sampleDevice]) [sampleDevice] []
              eq_refl eq_refl status_200_ok eq_refl)
    as (w' & Hrun & _).
  rewrite Hrun; reflexivity.
Defined.

(** A fresh cache answers without a call. *)
Lemma getDevices_forceRefresh_witness :
  wire (snd (fst (run (DeviceService.getDevices false) cachedProcess
                      (withDirectory [unreachable] (upstream [] [] []))))) =
    wire cachedProcess.
Proof.
  exact (proj2 (@getDevices_forceRefresh cachedProcess
                  (withDirectory [unreachable] (upstream [] [] [])))
               [sampleDevice] eq_refl eq_refl).
Defined.

(** After clearCache an unreachable directory makes the call throw. *)
Lemma clearCache_drops_fallback_witness :
  exists w1,
    run DeviceService.clearCache cachedProcess
        (withDirectory [unreachable] (upstream [] [] [])) =
      (Returned tt, w1, withDirectory [unreachable] (upstream [] [] [])) /\
    devicesCache w1 = None /\
    fst (fst (run (DeviceService.getDevices false) w1
                  (withDirectory [unreachable] (upstream [] [] [])))) =
      Thrown (Error ("Failed to fetch devices from " ++
                     DeviceService.endpoint cachedProcess ++ ": " ++
                     message (fetchError (snd unreachable)))).
Proof.
  exact (@clearCache_drops_fallback false cachedProcess
           (withDirectory [unreachable] (upstream [] [] []))
           30 (snd unreachable) [] eq_refl eq_refl).
Defined.

(** A request for a device the directory does not know. *)
Lemma unknown_device_404_witness :
  fst (fst (run (deviceTimeseries decodeSample "no-such-device" (rawSample None None))
                cachedProcess
                (withDirectory [listed [sampleDevice]] (upstream [] [] [])))) =
    Returned (failure 404 "Device with UUID no-such-device not found").
Proof.
  destruct (@unknown_device_404 decodeSample "no-such-device" (rawSample None None)
              cachedProcess
              (withDirectory [listed [sampleDevice]] (upstream [] [] []))
              [sampleDevice] [sampleDevice] 30 200 "OK" (JArr [sampleDevice]) []
              eq_refl eq_refl eq_refl eq_refl eq_refl status_200_ok eq_refl eq_refl)
    as (w' & Hrun & _).
  rewrite Hrun; reflexivity.
Defined.

(** A request without any parameter. *)
Lemma responses_are_structured_witness :
  run (deviceTimeseries decodeSample sampleUUID rawEmpty) blankProcess (upstream [] [] []) =
    (Returned (failure 400 "Missing required parameters: keys, startTs, endTs"),
     blankProcess, upstream [] [] []).
Proof.
  exact (proj1 (proj2 (@responses_are_structured decodeSample sampleUUID rawEmpty
                         blankProcess (upstream [] [] [])))
               eq_refl).
Defined.

(** The keys of the sample query. *)
Lemma accepted_keys_round_trip_witness :
  keyArray parsedSample = ["temperature"; "humidity"] /\
  split "," (join "," (keyArray parsedSample)) = keyArray parsedSample.
Proof.
  split; [reflexivity | ].
  exact (proj1 (proj2 (proj2 (@accepted_keys_round_trip (rawSample None None)
                                parsedSample rawSample_parsed)))).
Defined.

(* ================================================================== *)
(** ** Doubles and timer periods *)

(** Integers up to 2^53 in magnitude are doubles. *)
Lemma toDouble_safe (z : Z) : Z.abs z <= 2 ^ 53 -> toDouble z = z.
Proof.
  intros Hz; unfold toDouble; cbv zeta.
  destruct (Z.leb_spec (Z.log2 (Z.abs z) - 52) 0) as [ | Hs]; [reflexivity | ].
  assert (Hl : Z.log2 (Z.abs z) <= 53).
  { change 53 with (Z.log2 (2 ^ 53)); apply Z.log2_le_mono; exact Hz. }
  assert (Hpos : 0 < Z.abs z).
  { pose proof (Z.abs_nonneg z) as Hnn.
    destruct (Z.eq_dec (Z.abs z) 0) as [E | E]; [ | lia].
    rewrite E in Hs; cbn in Hs; lia. }
  assert (Ha : Z.abs z = 2 ^ 53).
  { apply Z.le_antisymm; [exact Hz | ].
    destruct (Z.log2_spec (Z.abs z) Hpos) as [Hlow _].
    replace (Z.log2 (Z.abs z)) with 53 in Hlow by lia; exact Hlow. }
  rewrite Ha.
  change (Z.log2 (2 ^ 53) - 52) with 1.
  change (Z.sgn z * 2 ^ 53 = z).
  rewrite <- Ha; destruct z; simpl; lia.
Qed.

(** Beyond 2^53 the product is rounded: the largest safe integer times
    1000 is not a double, and its nearest double is 24 below it. *)
Lemma toDouble_rounds :
  toDouble ((2 ^ 53 - 1) * 1000) = 9007199254740990976 /\
  (2 ^ 53 - 1) * 1000 = 9007199254740991000.
Proof. vm_compute; split; reflexivity. Qed.

Lemma effectiveDelay_cases (delay : Z) :
  (1 <= delay <= TIMEOUT_MAX -> effectiveDelay delay = delay) /\
  (TIMEOUT_MAX < delay -> effectiveDelay delay = 1).
Proof.
  unfold effectiveDelay, TIMEOUT_MAX; split; intros H;
    destruct (Z.ltb_spec delay 1), (Z.ltb_spec 2147483647 delay); cbn; lia.
Qed.

(* ================================================================== *)
(** ** The fallback of [refreshToken] *)

Section RefreshFallback.
Variable decodePayload : string -> Exn + Claims.

(** C3 (amended): with a refresh token held, [refreshToken] does not fail
    on an answer of the refresh endpoint: on a 401, on any other status
    that is not 200 (a 500, say) and on a transport failure alike it goes
    on with [authenticate], after its one refresh call and with the old
    credential still stored; without a refresh token it goes to
    [authenticate] without a refresh call.  It therefore fails only when
    that login is refused, with the login's error, and returns the login's
    token when the login succeeds. *)
Theorem refreshToken_always_falls_back (w : World) (u : Upstream) :
  (forall tp t reply rest,
     tokenPayload w = Some tp ->
     truthyStr (TokenPayload.refreshToken tp) = true ->
     refreshes u = (t, reply) :: rest ->
     rejected reply = true ->
     exists w1,
       run (refreshToken decodePayload) w u =
         run (authenticate decodePayload) w1 (answeredBy u (logins u) rest (queries u)) /\
       tokenPayload w1 = tokenPayload w /\
       clock w1 = clock w + t /\
       wire w1 = (wire w ++ [refreshCall w tp])%list /\
       (forall tl lreply ls,
          logins u = (tl, lreply) :: ls -> rejected lreply = true ->
          fst (fst (run (refreshToken decodePayload) w u)) = Thrown (loginError lreply)) /\
       (forall tl txt data ls,
          logins u = (tl, Responded 200 txt data) :: ls ->
          validTime (expiryAt decodePayload (resToken data) (clock w + t + tl)) ->
          fst (fst (run (refreshToken decodePayload) w u)) = Returned (resToken data))) /\
  (tokenPayload w = None \/
   (exists tp, tokenPayload w = Some tp /\
               truthyStr (TokenPayload.refreshToken tp) = false) ->
   run (refreshToken decodePayload) w u =
     run (authenticate decodePayload)
         (addLog {| logger := authLogger; level := Warn;
                    text := "No refresh token available. Re-authenticating..." |} w) u).
Proof.
  split.
  - intros tp t reply rest Htp Hrt Hr Hrej.
    destruct (@refreshToken_falls_back decodePayload w u tp t reply rest Htp Hrt Hr Hrej)
      as (w1 & Hrun & Htp1 & _ & _ & Hc1 & _ & _ & _ & Hw1).
    exists w1; split; [exact Hrun | ].
    split; [exact Htp1 | split; [exact Hc1 | split; [exact Hw1 | split]]].
    + intros tl lreply ls Hl Hlrej.
      destruct (@authenticate_refused decodePayload w1
                  (answeredBy u (logins u) rest (queries u)) tl lreply ls Hl Hlrej)
        as (w2 & Hrun2 & _).
      rewrite Hrun, Hrun2; reflexivity.
    + intros tl txt data ls Hl Hv.
      rewrite <- Hc1 in Hv.
      destruct (@authenticate_ok decodePayload w1
                  (answeredBy u (logins u) rest (queries u)) tl txt data ls Hl Hv)
        as (w2 & Hrun2 & _).
      rewrite Hrun, Hrun2; reflexivity.
  - intros [Hnone | (tp & Htp & Hrt)]; unfold refreshToken; rewrite run_read.
    + rewrite Hnone; cbv beta iota zeta; rewrite run_log; reflexivity.
    + rewrite Htp; cbv beta iota zeta; rewrite Hrt; cbn [negb].
      rewrite run_log; reflexivity.
Qed.
End RefreshFallback.

(** A refresh answered 500 followed by a login answered 403: the error
    of the login comes out. *)
Lemma refreshToken_always_falls_back_witness :
  fst (fst (run (refreshToken decodeSample) freshProcess
                (upstream [refused 403 "Forbidden"]
                          [refused 500 "Internal Server Error"] []))) =
    Thrown (loginError (snd (refused 403 "Forbidden"))).
Proof.
  destruct (proj1 (@refreshToken_always_falls_back decodeSample freshProcess
                     (upstream [refused 403 "Forbidden"]
                               [refused 500 "Internal Server Error"] []))
                  freshCredential 40 (snd (refused 500 "Internal Server Error")) []
                  eq_refl eq_refl eq_refl eq_refl)
    as (w1 & _ & _ & _ & _ & Hfail & _).
  exact (Hfail 40 (snd (refused 403 "Forbidden")) [] eq_refl eq_refl).
Defined.

(* ================================================================== *)
(** ** The checks on the interval and on the limit *)

Section IntervalCheck.
Variable decodePayload : string -> Exn + Claims.

Lemma notPositive_zero_or_NaN (n : Num) :
  n = Int 0 \/ n = NaN -> notPositive (Some n) = false.
Proof. intros [-> | ->]; reflexivity. Qed.

(** C8 (code bug): the checks that are to refuse a non-positive interval
    or limit let 0 and values that are no numbers through.  A non-empty
    interval that [parseInt] reads as 0 or as [NaN] is never refused with
    the reason of the interval check; a query that passes the other
    checks is accepted with that interval, which is put among the
    parameters of the telemetry call, and the legacy route sends that call
    and answers 200.  The same holds of the limit. *)
Theorem zero_interval_not_refused (r : RawQuery) (s : string) :
  truthyStr s = true ->
  parseInt s = Int 0 \/ parseInt s = NaN ->
  (rawInterval r = Some s ->
   parseQuery r <> inl "Interval must be a positive number" /\
   forall p,
     parseQuery r = inr p ->
     intervalValue p = Some (parseInt s) /\
     In ("interval", PNum (parseInt s)) (buildParams (legacyQuery r p)) /\
     forall w u tp tq txt d qs,
       presentLegacy r = true ->
       tokenPayload w = Some tp ->
       60000 <= TokenPayload.expiresAt tp - clock w ->
       queries u = (tq, Responded 200 txt d) :: qs ->
       exists w',
         run (legacyTimeseries decodePayload r) w u =
           (Returned (legacySuccess r p d), w', consumed u qs (refreshes u)) /\
         wire w' = (wire w ++ [queryCall w tp (legacyQuery r p)])%list) /\
  (rawLimit r = Some s ->
   parseQuery r <> inl "Limit must be a positive number" /\
   forall p,
     parseQuery r = inr p ->
     limitValue p = Some (parseInt s) /\
     In ("limit", PNum (parseInt s)) (buildParams (legacyQuery r p))).
Proof.
  intros Hs Hn.
  pose proof (notPositive_zero_or_NaN Hn) as Hnp.
  split; intros Hr.
  - assert (Hw : whenTruthy (rawInterval r) parseInt = Some (parseInt s)).
    { unfold whenTruthy; rewrite Hr; cbn [truthy str]; rewrite Hs; reflexivity. }
    split.
    + unfold parseQuery.
      destruct (parseInt (str (rawStartTs r))) as [ | a]; [discriminate | ].
      destruct (parseInt (str (rawEndTs r))) as [ | b]; [discriminate | ].
      destruct (a >=? b); [discriminate | ].
      cbv zeta.
      destruct (_ =? 0)%nat; [discriminate | ].
      rewrite Hw, Hnp.
      destruct (truthy (rawAgg r) && _); [intros E; cbv in E; discriminate E | ].
      destruct (truthy (rawOrderBy r) && _); [discriminate | ].
      destruct (notPositive (whenTruthy (rawLimit r) parseInt)); discriminate.
    + intros p Hp.
      destruct (@parseQuery_accepted r p Hp) as (Hi & _).
      rewrite Hw in Hi.
      split; [exact Hi | split].
      * unfold buildParams, legacyQuery, toQuery; cbn [interval]; rewrite Hi.
        cbn [optional]; cbn; auto 10.
      * intros w u tp tq txt d qs Hpr Htp Hfresh Hq.
        rewrite legacyTimeseries_run, Hpr, Hp; cbn [negb].
        destruct (@getTimeseries_200 decodePayload (legacyQuery r p)
                    (addLog {| logger := routerLogger; level := Info;
                               text := requestLine (str (rawEntityType r) ++ "/" ++
                                                    str (rawEntityId r)) r p |} w)
                    u tp tq txt d qs Htp Hfresh Hq) as (w' & Hrun & Hwire).
        rewrite Hrun; exists w'; split; [reflexivity | exact Hwire].
  - assert (Hw : whenTruthy (rawLimit r) parseInt = Some (parseInt s)).
    { unfold whenTruthy; rewrite Hr; cbn [truthy str]; rewrite Hs; reflexivity. }
    split.
    + unfold parseQuery.
      destruct (parseInt (str (rawStartTs r))) as [ | a]; [discriminate | ].
      destruct (parseInt (str (rawEndTs r))) as [ | b]; [discriminate | ].
      destruct (a >=? b); [discriminate | ].
      cbv zeta.
      destruct (_ =? 0)%nat; [discriminate | ].
      destruct (notPositive (whenTruthy (rawInterval r) parseInt)); [discriminate | ].
      destruct (truthy (rawAgg r) && _); [intros E; cbv in E; discriminate E | ].
      destruct (truthy (rawOrderBy r) && _); [discriminate | ].
      rewrite Hw, Hnp; discriminate.
    + intros p Hp.
      destruct (@parseQuery_accepted r p Hp) as (_ & _ & Hl & _).
      rewrite Hw in Hl.
      split; [exact Hl | ].
      unfold buildParams, legacyQuery, toQuery; cbn [limit].
      rewrite Hl.
      apply in_or_app; right. apply in_or_app; right. apply in_or_app; right.
      apply in_or_app; right. apply in_or_app; left. left; reflexivity.
Qed.
End IntervalCheck.

Lemma rawSample_zero_parsed : parseQuery (rawSample (Some "0") None) = inr parsedZero.
Proof. vm_compute; reflexivity. Qed.

(** The sample query with an interval of 0: it is accepted and the
    interval goes out. *)
Lemma zero_interval_not_refused_witness :
  intervalValue parsedZero = Some (Int 0) /\
  In ("interval", PNum (Int 0))
     (buildParams (legacyQuery (rawSample (Some "0") None) parsedZero)).
Proof.
  exact (let H := proj2 (proj1 (@zero_interval_not_refused decodeSample
                                  (rawSample (Some "0") None) "0"
                                  eq_refl (or_introl eq_refl))
                               eq_refl)
                        parsedZero rawSample_zero_parsed in
         conj (proj1 H) (proj1 (proj2 H))).
Defined.
